(** * Enemy behaviour core of the browser FPS: a shallow embedding

    The development follows the JavaScript sources:
    - [entities/EnemyTypes.js], [entities/Enemy.js] and
      [entities/EnemyManager.js] (module [Enemy]),
    - [controls/PlayerController.js] (module [PlayerController]),
    - [wasm/wasm-interface.js] (module [WasmInterface]),
    - [systems/PhysicsSystem.js] (module [PhysicsSystem]),
    - [systems/AISystem.js] (module [AISystem]).

    JavaScript numbers are modelled as exact rationals [Q], that is as finite
    numbers without rounding: NaN and the infinities are outside the model.
    The properties below are about ordering, clamping and control flow, and
    every concrete value used is computed without rounding; where the
    program's rounded arithmetic can reach a bound, the bound is stated
    non-strictly.  Objects mutated in place are
    modelled by explicit state passing; what a method does to its
    collaborators (events, timers, callbacks, console) is returned as a log. *)

From Stdlib Require Import QArith Qround Qabs Qminmax ZArith List String Bool Lia Lqa.
From Stdlib Require Import DecimalString.
From stdpp Require Import gmap strings.
Import ListNotations.

Open Scope Q_scope.

(** ** Numbers and vectors *)

(** [x < y] on numbers, as a boolean. *)
Definition Qltb (x y : Q) : bool := negb (Qle_bool y x).

(** [THREE.Vector3], restricted to the operations the core uses. *)
Record Vec3 := mkVec3 { vx : Q; vy : Q; vz : Q }.

Definition zeroVec : Vec3 := mkVec3 0 0 0.

Definition addVectors (a b : Vec3) : Vec3 :=
  mkVec3 (vx a + vx b) (vy a + vy b) (vz a + vz b).

Definition subVectors (a b : Vec3) : Vec3 :=
  mkVec3 (vx a - vx b) (vy a - vy b) (vz a - vz b).

Definition multiplyScalar (s : Q) (v : Vec3) : Vec3 :=
  mkVec3 (vx v * s) (vy v * s) (vz v * s).

Definition divideScalar (s : Q) (v : Vec3) : Vec3 :=
  mkVec3 (vx v / s) (vy v / s) (vz v / s).

Definition lengthSq (v : Vec3) : Q := vx v * vx v + vy v * vy v + vz v * vz v.

Definition distanceToSquared (a b : Vec3) : Q := lengthSq (subVectors a b).

Definition set_vx (x : Q) (v : Vec3) : Vec3 := mkVec3 x (vy v) (vz v).
Definition set_vy (y : Q) (v : Vec3) : Vec3 := mkVec3 (vx v) y (vz v).
Definition set_vz (z : Q) (v : Vec3) : Vec3 := mkVec3 (vx v) (vy v) z.

Definition dot (a b : Vec3) : Q := vx a * vx b + vy a * vy b + vz a * vz b.

(** The operations that take a square root are parameterised by
    [Math.sqrt]. *)
Section SquareRoot.

Variable Math_sqrt : Q -> Q.

Definition vlength (v : Vec3) : Q := Math_sqrt (lengthSq v).

Definition distanceTo (a b : Vec3) : Q := Math_sqrt (distanceToSquared a b).

(** The divisor used by [Vector3.normalize]: [length() || 1]. *)
Definition normDivisor (v : Vec3) : Q :=
  let l := vlength v in if Qeq_bool l 0 then 1 else l.

(** [Vector3.normalize]: [divideScalar(length() || 1)]. *)
Definition normalize (v : Vec3) : Vec3 := divideScalar (normDivisor v) v.

End SquareRoot.

(** A square root on rationals for running examples: exact on squares of
    rationals, rounded down otherwise. *)
Definition sqrtQ (q : Q) : Q :=
  Qmake (Z.sqrt (Qnum q * Zpos (Qden q))) (Qden q).

(** Componentwise numeric equality of vectors. *)
Definition Veq (a b : Vec3) : Prop := vx a == vx b /\ vy a == vy b /\ vz a == vz b.

(** How a call ends: with a value, or with a thrown exception. *)
Inductive Completion (A : Type) : Type :=
| Returned (a : A)
| Threw (err : string).
Arguments Returned {A} a.
Arguments Threw {A} err.

(** ** entities/EnemyTypes.js, entities/Enemy.js, entities/EnemyManager.js *)
Module Enemy.

(** One entry of the [EnemyTypes] table (the fields the controller reads). *)
Record EnemyTypeConfig := mkConfig {
  cfg_id : Z;
  cfg_health : Q;
  cfg_damage : Q;
  cfg_speed : Q;
  cfg_attackRange : Q;
  cfg_attackRate : Q;
  cfg_behaviorType : string
}.

Definition GRUNT : EnemyTypeConfig := mkConfig 0 100 10 5 2 1 "chase".
Definition SNIPER : EnemyTypeConfig := mkConfig 1 70 25 4 30 3 "ranged".
Definition TANK : EnemyTypeConfig := mkConfig 2 200 20 3 3 2 "tank".
Definition SCOUT : EnemyTypeConfig := mkConfig 3 60 8 8 5 0.5 "scout".
Definition BOSS : EnemyTypeConfig := mkConfig 4 500 30 4 5 1.5 "boss".

(** [EnemyTypes[name]]: property lookup by key. *)
Definition EnemyTypes (name : string) : option EnemyTypeConfig :=
  if String.eqb name "GRUNT" then Some GRUNT
  else if String.eqb name "SNIPER" then Some SNIPER
  else if String.eqb name "TANK" then Some TANK
  else if String.eqb name "SCOUT" then Some SCOUT
  else if String.eqb name "BOSS" then Some BOSS
  else None.

(** The argument of [new Enemy(type)], by its [typeof]: a key of the table,
    a configuration object, or anything else (the manager's [spawnEnemy]
    passes the numeric [id]). *)
Inductive TypeArg :=
| TString (name : string)
| TObject (cfg : EnemyTypeConfig)
| TNumber (n : Z).

(** Whoever deals damage: the fields of [source] that the enemy reads.
    [src_mesh] is [source.mesh.position] when [source.mesh] exists. *)
Record Source := mkSource {
  isPlayer : bool;
  src_mesh : option Vec3;
  src_weapon : option string
}.

(** The collaborators of [this.gameEngine] that [die] tests for. *)
Record GameEngine := mkEngine {
  audioManager : bool;
  particleSystem : bool;
  events : bool;
  playerMetrics : bool
}.

(** Per-type statistics copied from the type table by [configureEnemyType]. *)
Record Stats := mkStats {
  speed : Q;
  turnSpeed : Q;
  damage : Q;
  attackRange : Q;
  sightRange : Q;
  hearingRange : Q;
  attackCooldown : Q
}.

Record Enemy := mkEnemy {
  health : Q;
  maxHealth : Q;
  stats : Stats;
  isAlive : bool;
  isAware : bool;
  state : string;
  stateTime : Q;
  target : option Source;
  lastKnownTargetPosition : Vec3;
  type : TypeArg;
  enemyType : EnemyTypeConfig;
  takeCover : bool;
  flanking : bool;
  callReinforcements : bool;
  position : Vec3;
  velocity : Vec3;
  pointValue : Q;
  wasKilledByPlayer : bool;
  gameEngine : option GameEngine
}.

Definition set_health (v : Q) (e : Enemy) : Enemy :=
  mkEnemy v (maxHealth e) (stats e) (isAlive e) (isAware e) (state e)
    (stateTime e) (target e) (lastKnownTargetPosition e) (type e) (enemyType
    e) (takeCover e) (flanking e) (callReinforcements e) (position e)
    (velocity e) (pointValue e) (wasKilledByPlayer e) (gameEngine e).

Definition set_maxHealth (v : Q) (e : Enemy) : Enemy :=
  mkEnemy (health e) v (stats e) (isAlive e) (isAware e) (state e) (stateTime
    e) (target e) (lastKnownTargetPosition e) (type e) (enemyType e)
    (takeCover e) (flanking e) (callReinforcements e) (position e) (velocity
    e) (pointValue e) (wasKilledByPlayer e) (gameEngine e).

Definition set_stats (v : Stats) (e : Enemy) : Enemy :=
  mkEnemy (health e) (maxHealth e) v (isAlive e) (isAware e) (state e)
    (stateTime e) (target e) (lastKnownTargetPosition e) (type e) (enemyType
    e) (takeCover e) (flanking e) (callReinforcements e) (position e)
    (velocity e) (pointValue e) (wasKilledByPlayer e) (gameEngine e).

Definition set_isAlive (v : bool) (e : Enemy) : Enemy :=
  mkEnemy (health e) (maxHealth e) (stats e) v (isAware e) (state e)
    (stateTime e) (target e) (lastKnownTargetPosition e) (type e) (enemyType
    e) (takeCover e) (flanking e) (callReinforcements e) (position e)
    (velocity e) (pointValue e) (wasKilledByPlayer e) (gameEngine e).

Definition set_isAware (v : bool) (e : Enemy) : Enemy :=
  mkEnemy (health e) (maxHealth e) (stats e) (isAlive e) v (state e)
    (stateTime e) (target e) (lastKnownTargetPosition e) (type e) (enemyType
    e) (takeCover e) (flanking e) (callReinforcements e) (position e)
    (velocity e) (pointValue e) (wasKilledByPlayer e) (gameEngine e).

Definition set_state (v : string) (e : Enemy) : Enemy :=
  mkEnemy (health e) (maxHealth e) (stats e) (isAlive e) (isAware e) v
    (stateTime e) (target e) (lastKnownTargetPosition e) (type e) (enemyType
    e) (takeCover e) (flanking e) (callReinforcements e) (position e)
    (velocity e) (pointValue e) (wasKilledByPlayer e) (gameEngine e).

Definition set_stateTime (v : Q) (e : Enemy) : Enemy :=
  mkEnemy (health e) (maxHealth e) (stats e) (isAlive e) (isAware e) (state e)
    v (target e) (lastKnownTargetPosition e) (type e) (enemyType e) (takeCover
    e) (flanking e) (callReinforcements e) (position e) (velocity e)
    (pointValue e) (wasKilledByPlayer e) (gameEngine e).

Definition set_target (v : option Source) (e : Enemy) : Enemy :=
  mkEnemy (health e) (maxHealth e) (stats e) (isAlive e) (isAware e) (state e)
    (stateTime e) v (lastKnownTargetPosition e) (type e) (enemyType e)
    (takeCover e) (flanking e) (callReinforcements e) (position e) (velocity
    e) (pointValue e) (wasKilledByPlayer e) (gameEngine e).

Definition set_lastKnownTargetPosition (v : Vec3) (e : Enemy) : Enemy :=
  mkEnemy (health e) (maxHealth e) (stats e) (isAlive e) (isAware e) (state e)
    (stateTime e) (target e) v (type e) (enemyType e) (takeCover e) (flanking
    e) (callReinforcements e) (position e) (velocity e) (pointValue e)
    (wasKilledByPlayer e) (gameEngine e).

Definition set_enemyType (v : EnemyTypeConfig) (e : Enemy) : Enemy :=
  mkEnemy (health e) (maxHealth e) (stats e) (isAlive e) (isAware e) (state e)
    (stateTime e) (target e) (lastKnownTargetPosition e) (type e) v (takeCover
    e) (flanking e) (callReinforcements e) (position e) (velocity e)
    (pointValue e) (wasKilledByPlayer e) (gameEngine e).

Definition set_takeCover (v : bool) (e : Enemy) : Enemy :=
  mkEnemy (health e) (maxHealth e) (stats e) (isAlive e) (isAware e) (state e)
    (stateTime e) (target e) (lastKnownTargetPosition e) (type e) (enemyType
    e) v (flanking e) (callReinforcements e) (position e) (velocity e)
    (pointValue e) (wasKilledByPlayer e) (gameEngine e).

Definition set_flanking (v : bool) (e : Enemy) : Enemy :=
  mkEnemy (health e) (maxHealth e) (stats e) (isAlive e) (isAware e) (state e)
    (stateTime e) (target e) (lastKnownTargetPosition e) (type e) (enemyType
    e) (takeCover e) v (callReinforcements e) (position e) (velocity e)
    (pointValue e) (wasKilledByPlayer e) (gameEngine e).

Definition set_callReinforcements (v : bool) (e : Enemy) : Enemy :=
  mkEnemy (health e) (maxHealth e) (stats e) (isAlive e) (isAware e) (state e)
    (stateTime e) (target e) (lastKnownTargetPosition e) (type e) (enemyType
    e) (takeCover e) (flanking e) v (position e) (velocity e) (pointValue e)
    (wasKilledByPlayer e) (gameEngine e).

Definition set_position (v : Vec3) (e : Enemy) : Enemy :=
  mkEnemy (health e) (maxHealth e) (stats e) (isAlive e) (isAware e) (state e)
    (stateTime e) (target e) (lastKnownTargetPosition e) (type e) (enemyType
    e) (takeCover e) (flanking e) (callReinforcements e) v (velocity e)
    (pointValue e) (wasKilledByPlayer e) (gameEngine e).

Definition set_velocity (v : Vec3) (e : Enemy) : Enemy :=
  mkEnemy (health e) (maxHealth e) (stats e) (isAlive e) (isAware e) (state e)
    (stateTime e) (target e) (lastKnownTargetPosition e) (type e) (enemyType
    e) (takeCover e) (flanking e) (callReinforcements e) (position e) v
    (pointValue e) (wasKilledByPlayer e) (gameEngine e).

Definition set_pointValue (v : Q) (e : Enemy) : Enemy :=
  mkEnemy (health e) (maxHealth e) (stats e) (isAlive e) (isAware e) (state e)
    (stateTime e) (target e) (lastKnownTargetPosition e) (type e) (enemyType
    e) (takeCover e) (flanking e) (callReinforcements e) (position e)
    (velocity e) v (wasKilledByPlayer e) (gameEngine e).

Definition set_wasKilledByPlayer (v : bool) (e : Enemy) : Enemy :=
  mkEnemy (health e) (maxHealth e) (stats e) (isAlive e) (isAware e) (state e)
    (stateTime e) (target e) (lastKnownTargetPosition e) (type e) (enemyType
    e) (takeCover e) (flanking e) (callReinforcements e) (position e)
    (velocity e) (pointValue e) v (gameEngine e).

Definition set_gameEngine (v : option GameEngine) (e : Enemy) : Enemy :=
  mkEnemy (health e) (maxHealth e) (stats e) (isAlive e) (isAware e) (state e)
    (stateTime e) (target e) (lastKnownTargetPosition e) (type e) (enemyType
    e) (takeCover e) (flanking e) (callReinforcements e) (position e)
    (velocity e) (pointValue e) (wasKilledByPlayer e) v.

(** Payload of the [enemyKilled] event. *)
Record KillEvent := mkKill {
  ev_source : option Source;
  ev_weapon : option string;
  ev_position : Vec3;
  ev_type : TypeArg;
  ev_points : Z
}.

(** What [die] asks of its collaborators, in call order. *)
Inductive Effect :=
| PlaySound (name : string)
| BloodSplatter (at_ : Vec3)
| EnemyKilled (ev : KillEvent)
| MetricsKill
| ScheduleRemoval (delay_ms : Z).

(** The assignments of the constructor that precede [configureEnemyType]. *)
Definition initial (type : TypeArg) : Enemy :=
  {| health := 100; maxHealth := 100;
     stats := mkStats 3.0 3.0 10 2.0 20.0 15.0 1.0;
     isAlive := true; isAware := false;
     state := "idle"; stateTime := 0; target := None;
     lastKnownTargetPosition := zeroVec;
     type := type; enemyType := GRUNT;
     takeCover := false; flanking := false; callReinforcements := false;
     position := zeroVec; velocity := zeroVec;
     pointValue := 0; wasKilledByPlayer := false; gameEngine := None |}.

(** The type lookup at the head of [configureEnemyType]. *)
Definition resolveType (type : TypeArg) : EnemyTypeConfig :=
  match type with
  | TString name =>
      match EnemyTypes name with
      | Some cfg => cfg
      | None => GRUNT
      end
  | TObject cfg => cfg
  | TNumber _ => GRUNT
  end.

(** The [switch (enemyType.behaviorType)] of [configureEnemyType]. *)
Definition configureBehavior (behaviorType : string) (e : Enemy) : Enemy :=
  let s := stats e in
  if String.eqb behaviorType "ranged" then
    set_takeCover true
      (set_stats (mkStats (speed s) (turnSpeed s) (damage s) (attackRange s)
                          30.0 20.0 (attackCooldown s)) e)
  else if String.eqb behaviorType "tank" then
    set_stats (mkStats (speed s) 2.0 (damage s) (attackRange s)
                       (sightRange s) 10.0 (attackCooldown s)) e
  else if String.eqb behaviorType "scout" then
    set_flanking true
      (set_stats (mkStats (speed s) (turnSpeed s) (damage s) (attackRange s)
                          25.0 25.0 (attackCooldown s)) e)
  else if String.eqb behaviorType "boss" then
    set_callReinforcements true
      (set_stats (mkStats (speed s) (turnSpeed s) (damage s) (attackRange s)
                          40.0 30.0 (attackCooldown s)) e)
  else e.

Definition configureEnemyType (type : TypeArg) (e : Enemy) : Enemy :=
  let cfg := resolveType type in
  let s := stats e in
  let e1 := set_enemyType cfg e in
  let e2 := set_maxHealth (cfg_health cfg) (set_health (cfg_health cfg) e1) in
  let e3 := set_stats (mkStats (cfg_speed cfg) (turnSpeed s) (cfg_damage cfg)
                               (cfg_attackRange cfg) (sightRange s)
                               (hearingRange s) (cfg_attackRate cfg)) e2 in
  configureBehavior (cfg_behaviorType cfg) e3.

(** [new Enemy(type)] up to the end of the constructor body: the type is
    configured first, and the "advanced behavior options" are assigned
    afterwards. *)
Definition constructor (type : TypeArg) : Enemy :=
  let e := configureEnemyType type (initial type) in
  let e := set_takeCover false e in
  let e := set_flanking false e in
  let e := set_callReinforcements false e in
  set_pointValue 0 e.

(** [basePoints[this.type] || 50]. *)
Definition basePoints (type : TypeArg) : Q :=
  match type with
  | TString name =>
      if String.eqb name "GRUNT" then 50
      else if String.eqb name "SNIPER" then 100
      else if String.eqb name "TANK" then 150
      else if String.eqb name "SCOUT" then 125
      else if String.eqb name "BOSS" then 500
      else 50
  | _ => 50
  end.

Definition calculatePointValue (e : Enemy) : Enemy :=
  set_pointValue (basePoints (type e)) e.

(** The enemy once the asynchronous tail of [createMesh] has run: it ends
    with [calculatePointValue], after the constructor has returned. *)
Definition new (type : TypeArg) : Enemy :=
  calculatePointValue (constructor type).

Definition setGameEngine (g : GameEngine) (e : Enemy) : Enemy :=
  set_gameEngine (Some g) e.

Definition getPointValue (e : Enemy) : Z :=
  let points := pointValue e in
  let bonusPoints := 0 in
  let bonusPoints :=
    if isAware e then bonusPoints + points * 0.2 else bonusPoints in
  let bonusPoints :=
    if Qltb (maxHealth e * 0.9) (health e)
    then bonusPoints + points * 0.3 else bonusPoints in
  Qfloor (points + bonusPoints).

(** [die(source)]: the new enemy and the requests sent to collaborators. *)
Definition die (source : option Source) (e : Enemy) : Enemy * list Effect :=
  let e := set_state "dead" (set_isAlive false e) in
  let byPlayer := match source with Some s => isPlayer s | None => false end in
  let e := if byPlayer then set_wasKilledByPlayer true e else e in
  let has (f : GameEngine -> bool) :=
    match gameEngine e with Some g => f g | None => false end in
  let sound := if has audioManager then [PlaySound "enemy_death"] else [] in
  let blood :=
    if has particleSystem
    then [BloodSplatter (addVectors (position e) (mkVec3 0 1 0))] else [] in
  let killed :=
    if has events
    then [EnemyKilled
            {| ev_source := source;
               ev_weapon := match source with
                            | Some s => src_weapon s
                            | None => None
                            end;
               ev_position := position e;
               ev_type := type e;
               ev_points := getPointValue e |}]
    else [] in
  let metrics :=
    if byPlayer && has playerMetrics then [MetricsKill] else [] in
  (e, sound ++ blood ++ killed ++ metrics ++ [ScheduleRemoval 10000]).

(** Result of a call on an enemy: the mutated enemy, the requests sent out,
    and how the call ended. *)
Record Outcome := mkOutcome {
  enemy : Enemy;
  effects : list Effect;
  completion : Completion unit
}.

(** The tail of [takeDamage]: [if (this.health <= 0) this.die(source)]. *)
Definition checkDead (source : option Source) (e : Enemy) : Outcome :=
  if Qle_bool (health e) 0
  then let '(e', fx) := die source e in mkOutcome e' fx (Returned tt)
  else mkOutcome e [] (Returned tt).

(** [takeDamage(amount, source)].  Reading [source.mesh.position] throws a
    TypeError when the source has no mesh; the assignments made before it
    remain. *)
Definition takeDamage (amount : Q) (source : option Source) (e : Enemy)
  : Outcome :=
  let e := set_health (health e - amount) e in
  match source with
  | Some s =>
      if negb (isAware e) then
        let e := set_isAware true e in
        let e := set_target (Some s) e in
        let e := set_state "chase" e in
        match src_mesh s with
        | Some p => checkDead source (set_lastKnownTargetPosition p e)
        | None => mkOutcome e [] (Threw "TypeError")
        end
      else checkDead source e
  | None => checkDead source e
  end.

(** [Math.abs(x) < 0.01 ? 0 : x]. *)
Definition snap (x : Q) : Q := if Qltb (Qabs x) 0.01 then 0 else x.

(** [update(deltaTime)].  The per-state update methods, [detectPlayer],
    [updatePathfinding] and [updateAnimation] have empty bodies in the
    source; [stunTime] and [isFallingDown] are never assigned, so that guard
    never fires. *)
Definition update (deltaTime : Q) (e : Enemy) : Enemy :=
  if negb (isAlive e) then e
  else
    let e := set_stateTime (stateTime e + deltaTime) e in
    let known := ["idle"; "patrol"; "chase"; "attack"; "search"; "takeCover";
                  "flank"]%string in
    let e := if existsb (String.eqb (state e)) known then e
             else set_state "idle" e in
    let v := velocity e in
    let v := set_vz (vz v * 0.9) (set_vx (vx v * 0.9) v) in
    let p := position e in
    let p := set_vz (vz p + vz v * deltaTime)
               (set_vx (vx p + vx v * deltaTime) p) in
    let v := set_vz (snap (vz v)) (set_vx (snap (vx v)) v) in
    set_velocity v (set_position p e).

(** [EnemyManager.spawnBoss], for the boss it creates. *)
Definition spawnBoss (spawnPosition : Vec3) (difficulty : Q) (g : GameEngine)
  : Enemy :=
  let boss := constructor (TString "BOSS") in
  let boss := set_position spawnPosition boss in
  let boss := setGameEngine g boss in
  let boss := set_health (health boss * difficulty) boss in
  set_maxHealth (maxHealth boss * difficulty) boss.

(** [EnemyManager.spawnEnemyOfType]. *)
Definition spawnEnemyOfType (pos : Vec3) (type : TypeArg) (difficulty : Q)
  (g : GameEngine) : Enemy :=
  let e := constructor type in
  let e := set_position pos e in
  let e := setGameEngine g e in
  let e := set_health (health e * difficulty) e in
  set_maxHealth (maxHealth e * difficulty) e.

(** A history of calls on one enemy. *)
Inductive Call :=
| Tick (deltaTime : Q)
| Damage (amount : Q) (source : option Source).

Definition step (c : Call) (e : Enemy) : Enemy * list Effect :=
  match c with
  | Tick dt => (update dt e, [])
  | Damage amount source =>
      let o := takeDamage amount source e in (enemy o, effects o)
  end.

Fixpoint run (cs : list Call) (e : Enemy) : Enemy * list Effect :=
  match cs with
  | [] => (e, [])
  | c :: cs' =>
      let '(e1, fx1) := step c e in
      let '(e2, fx2) := run cs' e1 in
      (e2, fx1 ++ fx2)
  end.

(** Number of [enemyKilled] notifications in a log. *)
Definition isKill (x : Effect) : bool :=
  match x with EnemyKilled _ => true | _ => false end.

Definition kills (fx : list Effect) : nat := length (List.filter isKill fx).

Definition isRemoval (x : Effect) : bool :=
  match x with ScheduleRemoval _ => true | _ => false end.

Definition removals (fx : list Effect) : nat := length (List.filter isRemoval fx).

(** The values of the [EnemyTypes] table, in declaration order
    ([Object.values(EnemyTypes)]). *)
Definition typeValues : list EnemyTypeConfig :=
  [GRUNT; SNIPER; TANK; SCOUT; BOSS].

(** [getEnemyTypeById(id)]: the first entry with that id, if any. *)
Definition getEnemyTypeById (id : Z) : option EnemyTypeConfig :=
  List.find (fun t => Z.eqb (cfg_id t) id) typeValues.

(** [getRandomEnemyType()] for a given draw of [Math.random]: the boss is
    filtered out, and the draw indexes what remains ([None] stands for
    [undefined], an index outside the array). *)
Definition getRandomEnemyType (random : Q) : option EnemyTypeConfig :=
  let types := List.filter (fun t => negb (Z.eqb (cfg_id t) 4)) typeValues in
  let randomIndex := Qfloor (random * inject_Z (Z.of_nat (length types))) in
  if (randomIndex <? 0)%Z then None
  else nth_error types (Z.to_nat randomIndex).

End Enemy.

(** ** controls/PlayerController.js (damage handling only) *)
Module PlayerController.

Record PlayerController := mkPlayer {
  health : Q;
  armor : Q;
  isAlive : bool;
  velocity : Vec3
}.

(** Requests to the engine, sent when it offers the method. *)
Inductive Effect :=
| ShowDamageEffect (intensity : Q)
| GameOver.

Definition die (p : PlayerController) : PlayerController * list Effect :=
  (mkPlayer (health p) (armor p) false zeroVec, [GameOver]).

Definition takeDamage (amount : Q) (p : PlayerController)
  : PlayerController * list Effect :=
  let damageToHealth := amount in
  let '(armor', damageToHealth) :=
    if Qltb 0 (armor p) then
      let armorAbsorption := Qmin (armor p) (amount * 0.6) in
      (armor p - armorAbsorption, damageToHealth - armorAbsorption)
    else (armor p, damageToHealth) in
  let p := mkPlayer (health p - damageToHealth) armor' (isAlive p) (velocity p) in
  let shown := [ShowDamageEffect (amount / 100)] in
  if Qle_bool (health p) 0 then
    let '(p', fx) := die (mkPlayer 0 (armor p) (isAlive p) (velocity p)) in
    (p', shown ++ fx)
  else (p, shown).

End PlayerController.

(** ** The behaviour context shared by the AI system and the backend *)

(** Modelled from the spec: the [BehaviorContext] class is exported by the
    Rust crate, which is not among the sources.  The spec gives it the entity
    position, the target position, health and maxHealth, and named float
    slots (target-visible flag, numbered cooldown slots, output action code
    and parameter).  A slot that was never written reads as 0: the
    tick of the AI system only compares such a value with [> 0], so an
    undefined value would behave alike there; [evaluateBehaviorTree] hands
    the action and parameter slots to its caller as read, and what is
    stated about them below is stated for slots that have been written. *)
Record BehaviorContext := mkContext {
  entity_position : Vec3;
  target_position : Vec3;
  entity_health : Q;
  entity_maxHealth : Q;
  values : gmap string Q
}.

Definition emptyContext : BehaviorContext := mkContext zeroVec zeroVec 0 0 ∅.

Definition get_value (key : string) (c : BehaviorContext) : Q :=
  default 0 (values c !! key).

Definition set_value (key : string) (v : Q) (c : BehaviorContext)
  : BehaviorContext :=
  mkContext (entity_position c) (target_position c) (entity_health c)
            (entity_maxHealth c) (<[key := v]> (values c)).

Definition set_entity_position (p : Vec3) (c : BehaviorContext)
  : BehaviorContext :=
  mkContext p (target_position c) (entity_health c) (entity_maxHealth c)
            (values c).

Definition set_target_position (p : Vec3) (c : BehaviorContext)
  : BehaviorContext :=
  mkContext (entity_position c) p (entity_health c) (entity_maxHealth c)
            (values c).

Definition set_entity_health (h m : Q) (c : BehaviorContext)
  : BehaviorContext :=
  mkContext (entity_position c) (target_position c) h m (values c).

(** Lines written to the console. *)
Inductive Console :=
| Warn (msg : string).

(** Result codes of a behaviour tree. *)
Definition FAILURE : Q := 0.
Definition SUCCESS : Q := 1.

(** ** wasm/wasm-interface.js *)
Module WasmInterface.

(** A behaviour tree as the interface sees it: an object that may have an
    [evaluate] method.  The method receives the context (or nothing), may
    write to it, and returns a result code or throws. *)
Record BehaviorTree := mkTree {
  evaluate :
    option (option BehaviorContext
            -> Completion Q * option BehaviorContext)
}.

(** The exports of the compiled module that the interface calls.  The Rust
    crate is not among the sources, so [apply_gravity] is a parameter; it is
    [None] when the module lacks [Vector3] or [PhysicsSystem]. *)
Record WasmModule := mkModule {
  apply_gravity : option (Vec3 -> Vec3 -> Q -> Completion (Vec3 * Vec3))
}.

(** [this.pathfinder]: an accelerated [find_path] and/or a JavaScript
    [findPath] method. *)
Record Pathfinder := mkPathfinder {
  find_path : option (Z -> Z -> Z -> Z -> Completion bool);
  findPath_js : option (Z -> Z -> Z -> Z -> bool)
}.

Record WasmInterface := mkWasm {
  isLoaded : bool;
  physicsSystem : bool;       (* the mock physics object is installed *)
  pathfinder : option Pathfinder;
  wasmModule : option WasmModule
}.

(** The state left by the constructor. *)
Definition constructor : WasmInterface := mkWasm false false None None.

(** [createMockPhysicsSystem().applyGravity]. *)
Definition mockApplyGravity (position velocity : Vec3) (deltaTime : Q)
  : Vec3 * Vec3 :=
  let velocity := set_vy (vy velocity - 9.8 * deltaTime) velocity in
  let position := set_vy (vy position + vy velocity * deltaTime) position in
  if Qltb (vy position) 0
  then (set_vy 0 position, set_vy 0 velocity)
  else (position, velocity).

(** [createMockPathfinder().findPath] on a grid of size 100. *)
Definition mockFindPath (startX startY endX endY : Z) : bool :=
  if ((100 <=? startX) || (100 <=? startY) ||
      (100 <=? endX) || (100 <=? endY))%Z
  then false else true.

Definition createMockPathfinder : Pathfinder :=
  mkPathfinder None (Some mockFindPath).

(** [createMockBehaviorTree().evaluate], for given draws of [Math.random]:
    with a context the first two draws choose the action and its parameter,
    the next one indexes [results = [0, 1, 2]]. *)
Definition mockEvaluate (r_action r_param r_result : Q)
  (context : option BehaviorContext)
  : Completion Q * option BehaviorContext :=
  let context :=
    match context with
    | Some c =>
        Some (set_value "action_parameter" (r_param * 10)
                (set_value "action" (inject_Z (Qfloor (r_action * 3))) c))
    | None => None
    end in
  (Returned (inject_Z (Qfloor (r_result * 3))), context).

Definition createMockBehaviorTree (r_action r_param r_result : Q)
  : BehaviorTree :=
  mkTree (Some (mockEvaluate r_action r_param r_result)).

(** [initFallback()]. *)
Definition initFallback (w : WasmInterface) : WasmInterface :=
  mkWasm true true (Some createMockPathfinder) (wasmModule w).

(** [applyGravity(position, velocity, deltaTime)]: the new position and
    velocity, and the console output. *)
Definition applyGravity (w : WasmInterface) (position velocity : Vec3)
  (deltaTime : Q) : Vec3 * Vec3 * list Console :=
  if physicsSystem w then
    let fallback log :=
      let '(p, v) := mockApplyGravity position velocity deltaTime in
      (p, v, log) in
    match wasmModule w with
    | Some m =>
        match apply_gravity m with
        | Some f =>
            match f position velocity deltaTime with
            | Returned (p, v) => (p, v, [])
            | Threw _ =>
                fallback [Warn "Error using WebAssembly Vector3, falling back to JS implementation:"]
            end
        | None => fallback []
        end
    | None => fallback []
    end
  else (position, velocity, []).

(** [evaluateBehaviorTree(tree, context)]: how the call ends, the context
    afterwards, and the console output. *)
Definition evaluateBehaviorTree (w : WasmInterface)
  (tree : option BehaviorTree) (context : BehaviorContext)
  : Completion Q * BehaviorContext * list Console :=
  match tree with
  | Some (mkTree (Some f)) =>
      match wasmModule w with
      | Some _ =>
          let '(r, c) := f (Some context) in
          let context := match c with Some c' => c' | None => context end in
          match r with
          | Returned code => (Returned code, context, [])
          | Threw _ =>
              (Returned 0, context,
               [Warn "Error evaluating behavior tree, using fallback:"])
          end
      | None =>
          let '(r, _) := f None in (r, context, [])
      end
  | _ => (Returned 0, context, [Warn "Invalid behavior tree provided"])
  end.

(** [findPath(startX, startY, endX, endY)]. *)
Definition findPath (w : WasmInterface) (startX startY endX endY : Z)
  : bool * list Console :=
  let last log := (true, log ++ [Warn "No pathfinding implementation available"]) in
  match pathfinder w with
  | Some pf =>
      let js log :=
        match findPath_js pf with
        | Some g => (g startX startY endX endY, log)
        | None => last log
        end in
      match wasmModule w, find_path pf with
      | Some _, Some f =>
          match f startX startY endX endY with
          | Returned b => (b, [])
          | Threw _ => js [Warn "Error finding path, using fallback:"]
          end
      | _, _ => js []
      end
  | None => last []
  end.

End WasmInterface.

(** ** systems/PhysicsSystem.js *)
Module PhysicsSystem.

(** [entity.mesh]: position, scale, and the radius of the geometry's bounding
    sphere when the mesh has a geometry. *)
Record Mesh := mkMesh {
  position : Vec3;
  scale : Vec3;
  geometry : option Q
}.

(** An element of [gameEngine.entities], with the properties the physics
    system reads or writes.  Objects are identified by their index in that
    array. *)
Record Entity := mkEntity {
  mesh : option Mesh;
  velocity : option Vec3;
  isStatic : bool;
  bouncy : bool;
  restitution : option Q;
  onCollision : bool;          (* the entity defines a collision callback *)
  onGround : option bool       (* undefined until first written *)
}.

Definition set_mesh_position (p : Vec3) (e : Entity) : Entity :=
  match mesh e with
  | Some m =>
      mkEntity (Some (mkMesh p (scale m) (geometry m))) (velocity e)
               (isStatic e) (bouncy e) (restitution e) (onCollision e)
               (onGround e)
  | None => e
  end.

Definition set_velocity (v : Vec3) (e : Entity) : Entity :=
  mkEntity (mesh e) (Some v) (isStatic e) (bouncy e) (restitution e)
           (onCollision e) (onGround e).

Definition set_onGround (b : bool) (e : Entity) : Entity :=
  mkEntity (mesh e) (velocity e) (isStatic e) (bouncy e) (restitution e)
           (onCollision e) (Some b).

(** What one update makes observable besides the entities themselves. *)
Inductive Event :=
| Checked (a b : nat)              (* [_checkCollision] on a dynamic pair *)
| Collision (callee other : nat)   (* [callee.onCollision(other)] *)
| Printed (line : Console).

Record PhysicsSystem := mkPhysics {
  gravity : Q;
  wasmInterface : option WasmInterface.WasmInterface;
  gameEngine : option (list Entity)      (* [gameEngine.entities] *)
}.

Definition batchSize : nat := 10.

(** [array.slice(startIdx, endIdx)]. *)
Definition slice {A} (startIdx endIdx : nat) (l : list A) : list A :=
  firstn (endIdx - startIdx) (skipn startIdx l).

(** The batches cut by the loop of [update]. *)
Definition batchesOf {A} (entities : list A) : list (list A) :=
  let n := length entities in
  let batches := ((n + (batchSize - 1)) / batchSize)%nat in
  map (fun b => slice (b * batchSize) (Nat.min ((b + 1) * batchSize) n)
                      entities)
      (seq 0 batches).

(** The pairs [(entities[i], entities[j])], [i < j], in loop order. *)
Fixpoint pairsOf {A} (entities : list A) : list (A * A) :=
  match entities with
  | [] => []
  | a :: rest => map (pair a) rest ++ pairsOf rest
  end.

Section WithSqrt.

(** [Math.sqrt]. *)
Variable Math_sqrt : Q -> Q.

Definition worldRadius (m : Mesh) (r : Q) : Q :=
  r * Qmax (Qmax (vx (scale m)) (vy (scale m))) (vz (scale m)).

Definition _checkCollision (meshA meshB : Mesh) : bool :=
  match geometry meshA, geometry meshB with
  | Some ra, Some rb =>
      let radiusA := worldRadius meshA ra in
      let radiusB := worldRadius meshB rb in
      let distance := distanceTo Math_sqrt (position meshA) (position meshB) in
      Qltb distance (radiusA + radiusB)
  | _, _ => false
  end.

Definition _calculateMinimumTranslationVector (meshA meshB : Mesh)
  : option Vec3 :=
  match geometry meshA, geometry meshB with
  | Some ra, Some rb =>
      let radiusA := worldRadius meshA ra in
      let radiusB := worldRadius meshB rb in
      let direction := normalize Math_sqrt (subVectors (position meshA) (position meshB)) in
      let distance := distanceTo Math_sqrt (position meshA) (position meshB) in
      let overlap := (radiusA + radiusB) - distance in
      if Qltb 0 overlap then Some (multiplyScalar overlap direction) else None
  | _, _ => None
  end.

Definition _removeVelocityComponent (velocity normal : Vec3) : Vec3 :=
  let d := dot velocity normal in
  if Qltb d 0 then subVectors velocity (multiplyScalar d normal) else velocity.

(** [entity.restitution || 0.3]. *)
Definition restitutionOr (e : Entity) : Q :=
  match restitution e with
  | Some r => if Qeq_bool r 0 then 0.3 else r
  | None => 0.3
  end.

(** The body of the loop over nearby static objects. *)
Definition resolveStatic (obj : Mesh) (entity : Entity) : Entity :=
  match mesh entity, velocity entity with
  | Some m, Some v =>
      if _checkCollision m obj then
        match _calculateMinimumTranslationVector m obj with
        | Some mtv =>
            let entity := set_mesh_position (addVectors (position m) mtv) entity in
            if bouncy entity then
              let normalizedMtv := normalize Math_sqrt mtv in
              let d := dot v normalizedMtv in
              let v := subVectors v (multiplyScalar (2 * d) normalizedMtv) in
              set_velocity (multiplyScalar (restitutionOr entity) v) entity
            else
              set_velocity (_removeVelocityComponent v (normalize Math_sqrt mtv)) entity
        | None => entity
        end
      else entity
  | _, _ => entity
  end.

(** The static objects of the engine other than entity [i]. *)
Definition staticObjects (store : list Entity) (i : nat) : list Mesh :=
  flat_map (fun '(j, e) =>
              match mesh e with
              | Some m => if isStatic e && negb (Nat.eqb j i) then [m] else []
              | None => []
              end)
           (combine (seq 0 (length store)) store).

Definition _handleStaticCollisions (store : list Entity) (i : nat)
  (entity : Entity) : Entity :=
  match mesh entity with
  | Some m =>
      let nearbyObjects :=
        List.filter (fun obj => Qltb (distanceTo Math_sqrt (position m) (position obj)) 5)
                    (staticObjects store i) in
      fold_left (fun e obj => resolveStatic obj e) nearbyObjects entity
  | None => entity
  end.

(** [this.wasmInterface && this.wasmInterface.isLoaded]. *)
Definition accelerated (sys : PhysicsSystem)
  : option WasmInterface.WasmInterface :=
  match wasmInterface sys with
  | Some w => if WasmInterface.isLoaded w then Some w else None
  | None => None
  end.

(** Gravity and ground contact for one entity: delegated to the interface
    when it is loaded, done in JavaScript otherwise. *)
Definition applyGravityStep (sys : PhysicsSystem) (deltaTime : Q)
  (entity : Entity) : Entity * list Event :=
  match mesh entity, velocity entity with
  | Some m, Some v =>
      match accelerated sys with
      | Some w =>
          let '(p, v', log) :=
            WasmInterface.applyGravity w (position m) v deltaTime in
          (set_velocity v' (set_mesh_position p entity), map Printed log)
      | None =>
          let v := set_vy (vy v - gravity sys * deltaTime) v in
          let p := set_vy (vy (position m) + vy v * deltaTime) (position m) in
          if Qltb (vy p) 0
          then (set_onGround true
                  (set_velocity (set_vy 0 v)
                     (set_mesh_position (set_vy 0 p) entity)), [])
          else (set_onGround false
                  (set_velocity v (set_mesh_position p entity)), [])
      end
  | _, _ => (entity, [])
  end.

(** One iteration of the first loop of [_processPhysicsBatch]. *)
Definition processEntity (sys : PhysicsSystem) (deltaTime : Q)
  (acc : list Entity * list Event) (i : nat) : list Entity * list Event :=
  let '(store, log) := acc in
  match store !! i with
  | Some entity =>
      let '(entity, out) := applyGravityStep sys deltaTime entity in
      let entity := _handleStaticCollisions store i entity in
      (<[i := entity]> store, log ++ out)
  | None => acc
  end.

Definition _resolveDynamicCollision (store : list Entity) (a b : nat)
  : list Event :=
  let has i := match store !! i with
               | Some e => onCollision e
               | None => false
               end in
  (if has a then [Collision a b] else []) ++
  (if has b then [Collision b a] else []).

(** The body of the inner loop of [_handleDynamicCollisions]. *)
Definition checkPair (store : list Entity) (ab : nat * nat) : list Event :=
  let '(a, b) := ab in
  match store !! a ≫= mesh, store !! b ≫= mesh with
  | Some ma, Some mb =>
      Checked a b ::
      (if _checkCollision ma mb then _resolveDynamicCollision store a b
       else [])
  | _, _ => []
  end.

Definition _handleDynamicCollisions (store : list Entity)
  (entities : list nat) : list Event :=
  flat_map (checkPair store) (pairsOf entities).

Definition _processPhysicsBatch (sys : PhysicsSystem) (deltaTime : Q)
  (acc : list Entity * list Event) (entities : list nat)
  : list Entity * list Event :=
  let '(store, log) := fold_left (processEntity sys deltaTime) entities acc in
  (store, log ++ _handleDynamicCollisions store entities).

(** The entities with physics: [entity.mesh && entity.velocity]. *)
Definition simulated (store : list Entity) : list nat :=
  List.filter (fun i => match store !! i with
                        | Some e => match mesh e, velocity e with
                                    | Some _, Some _ => true
                                    | _, _ => false
                                    end
                        | None => false
                        end)
              (seq 0 (length store)).

(** [update(deltaTime)]: the system afterwards and what happened. *)
Definition update (deltaTime : Q) (sys : PhysicsSystem)
  : PhysicsSystem * list Event :=
  match gameEngine sys with
  | None => (sys, [])
  | Some store =>
      let entities := simulated store in
      let '(store, log) :=
        fold_left (_processPhysicsBatch sys deltaTime) (batchesOf entities)
                  (store, []) in
      (mkPhysics (gravity sys) (wasmInterface sys) (Some store), log)
  end.

End WithSqrt.

(** The state left by the constructor, before the engine is attached. *)
Definition constructor : PhysicsSystem := mkPhysics 9.8 None None.

End PhysicsSystem.

(** ** systems/AISystem.js *)
Module AISystem.

(** [gameEngine.level.mesh] as the ray caster sees it: the number of
    intersections that [new THREE.Raycaster(origin, direction, near, far)]
    reports for the level mesh. *)
Record Level := mkLevel {
  intersectObject : Vec3 -> Vec3 -> Q -> Q -> nat
}.

(** [this.gameEngine]; its [level] is null until a level is set. *)
Record GameEngine := mkEngine {
  level : option Level
}.

Record AISystem := mkAI {
  gameEngine : option GameEngine;
  wasmInterface : option WasmInterface.WasmInterface;
  behaviorTrees : gmap Z WasmInterface.BehaviorTree;
  behaviorContexts : gmap Z BehaviorContext
}.

(** The state left by the constructor. *)
Definition constructor : AISystem := mkAI None None ∅ ∅.

Definition setGameEngine (g : GameEngine) (sys : AISystem) : AISystem :=
  mkAI (Some g) (wasmInterface sys) (behaviorTrees sys) (behaviorContexts sys).

(** The template string [cooldown_${i}]. *)
Definition cooldownKey (i : nat) : string :=
  "cooldown_" +:+ NilEmpty.string_of_uint (Nat.to_uint i).

(** The body of the loop over the slots. *)
Definition tickCooldown (deltaTime : Q) (context : BehaviorContext) (i : nat)
  : BehaviorContext :=
  let cooldownValue := get_value (cooldownKey i) context in
  if Qltb 0 cooldownValue
  then set_value (cooldownKey i) (cooldownValue - deltaTime) context
  else context.

(** [for (let i = 1; i <= 10; i++)] on one context. *)
Definition updateContext (deltaTime : Q) (context : BehaviorContext)
  : BehaviorContext :=
  fold_left (tickCooldown deltaTime) (seq 1 10) context.

(** [update(deltaTime)]. *)
Definition update (deltaTime : Q) (sys : AISystem) : AISystem :=
  mkAI (gameEngine sys) (wasmInterface sys) (behaviorTrees sys)
       (updateContext deltaTime <$> behaviorContexts sys).

(** [this.wasmInterface && this.wasmInterface.isLoaded]. *)
Definition accelerated (sys : AISystem) : option WasmInterface.WasmInterface :=
  match wasmInterface sys with
  | Some w => if WasmInterface.isLoaded w then Some w else None
  | None => None
  end.

(** What [evaluateBehaviorTree] returns. *)
Record Evaluation := mkEvaluation {
  result : Q;
  action : Q;
  parameter : Q
}.

Section WithSqrt.

Variable Math_sqrt : Q -> Q.

(** [hasLineOfSight(fromPosition, toPosition)].  Reading
    [this.gameEngine.level.mesh] throws when no level is set. *)
Definition hasLineOfSight (sys : AISystem) (fromPosition toPosition : Vec3)
  : Completion bool :=
  match gameEngine sys with
  | None => Returned false
  | Some g =>
      let direction := subVectors toPosition fromPosition in
      let distance := vlength Math_sqrt direction in
      let direction := normalize Math_sqrt direction in
      match level g with
      | Some lv =>
          Returned (Nat.eqb (intersectObject lv fromPosition direction 0 distance) 0)
      | None => Threw "TypeError"
      end
  end.

Definition storeContext (entityId : Z) (context : BehaviorContext)
  (sys : AISystem) : AISystem :=
  mkAI (gameEngine sys) (wasmInterface sys) (behaviorTrees sys)
       (<[entityId := context]> (behaviorContexts sys)).

(** [evaluateBehaviorTree(entityId, position, targetPosition, health,
    maxHealth)]: what the caller gets, the system afterwards (the context
    object is updated in place), and the console output. *)
Definition evaluateBehaviorTree (sys : AISystem) (entityId : Z)
  (position : Vec3) (targetPosition : option Vec3) (health maxHealth : Q)
  : Completion Evaluation * AISystem * list Console :=
  let simple := (Returned (mkEvaluation 1 0 5), sys, []) in
  match accelerated sys with
  | Some w =>
      match behaviorTrees sys !! entityId, behaviorContexts sys !! entityId with
      | Some tree, Some context =>
          let context := set_entity_position position context in
          let context :=
            match targetPosition with
            | Some t => set_target_position t context
            | None => context
            end in
          let context := set_entity_health health maxHealth context in
          let seen :=
            match targetPosition, gameEngine sys with
            | Some t, Some _ => hasLineOfSight sys position t
            | _, _ => Returned false
            end in
          match seen with
          | Threw err => (Threw err, storeContext entityId context sys, [])
          | Returned targetVisible =>
              let context :=
                set_value "target_visible"
                          (if targetVisible then 1.0 else 0.0) context in
              let '(r, context, log) :=
                WasmInterface.evaluateBehaviorTree w (Some tree) context in
              let sys := storeContext entityId context sys in
              match r with
              | Returned code =>
                  (Returned (mkEvaluation code
                               (get_value "action" context)
                               (get_value "action_parameter" context)),
                   sys, log)
              | Threw err => (Threw err, sys, log)
              end
          end
      | _, _ => simple
      end
  | None => simple
  end.

(** [Math.floor(x / gridSize) + 50] with [gridSize = 1]. *)
Definition toGrid (x : Q) : Z := (Qfloor (x / 1) + 50)%Z.

(** [findPath(startPosition, endPosition)]: the waypoints, or the exception
    that escapes, and the console output. *)
Definition findPath (sys : AISystem) (startPosition endPosition : Vec3)
  : Completion (list Vec3) * list Console :=
  let '(pathExists, log) :=
    match accelerated sys with
    | Some w =>
        WasmInterface.findPath w
          (toGrid (vx startPosition)) (toGrid (vz startPosition))
          (toGrid (vx endPosition)) (toGrid (vz endPosition))
    | None => (false, [])
    end in
  if pathExists then (Returned [endPosition], log)
  else
    match hasLineOfSight sys startPosition endPosition with
    | Threw err => (Threw err, log)
    | Returned true => (Returned [endPosition], log)
    | Returned false =>
        let midpoint := addVectors startPosition endPosition in
        let midpoint := multiplyScalar 0.5 midpoint in
        let midpoint := set_vy 1 midpoint in
        (Returned [midpoint; endPosition], log)
    end.

End WithSqrt.

(** [reset()]. *)
Definition reset (sys : AISystem) : AISystem :=
  mkAI (gameEngine sys) (wasmInterface sys) ∅ ∅.

(** [getBestAction(entity, target)], on the entity's position and attack
    range and the target's position. *)
Definition getBestAction (Math_sqrt : Q -> Q) (sys : AISystem)
  (entityPosition : Vec3) (attackRange : Q) (targetPosition : Vec3)
  : Completion string :=
  let distanceToTarget := distanceTo Math_sqrt entityPosition targetPosition in
  if Qle_bool distanceToTarget attackRange then Returned "attack"%string
  else
    match hasLineOfSight Math_sqrt sys entityPosition targetPosition with
    | Threw err => Threw err
    | Returned true => Returned "chase"%string
    | Returned false => Returned "pathfind"%string
    end.

End AISystem.

(** ** level/Level.js (position checks) *)
Module Level.

(** [isValidPosition(position)]: strictly inside the 100 x 100 square. *)
Definition isValidPosition (position : Vec3) : bool :=
  Qltb (-50) (vx position) && Qltb (vx position) 50 &&
  Qltb (-50) (vz position) && Qltb (vz position) 50.

(** [findPath(start, end)]. *)
Definition findPath (start end_ : Vec3) : list Vec3 := [end_].

End Level.

(** ** Property names that every object inherits *)

(** The members of [Object.prototype]: on a plain object used as a table,
    reading one of these keys gives an inherited value, not [undefined]. *)
Definition objectPrototypeKeys : list string :=
  ["constructor"; "hasOwnProperty"; "isPrototypeOf"; "propertyIsEnumerable";
   "toLocaleString"; "toString"; "valueOf"; "__proto__";
   "__defineGetter__"; "__defineSetter__"; "__lookupGetter__";
   "__lookupSetter__"]%string.

Definition inheritedKey (key : string) : bool :=
  existsb (String.eqb key) objectPrototypeKeys.

(** ** core/EventEmitter.js *)
Module EventEmitter.

(** A registered function.  Functions are compared by identity: a function
    handed in by a caller is named by a number, and the wrapper that [once]
    creates is a fresh function, told apart by a serial number. *)
Inductive Listener :=
| Plain (id : nat)
| Wrapper (serial : nat) (inner : nat).


(** [this.events] (its own properties), and the serial of the next
    wrapper. *)
Record EventEmitter := mkEmitter {
  events : gmap string (list Listener);
  nextSerial : nat
}.

Definition constructor : EventEmitter := mkEmitter ∅ 0.









(** [removeAllListeners(event)]: an absent or empty name clears every
    event. *)
Definition removeAllListeners (event : option string) (em : EventEmitter)
  : EventEmitter :=
  match event with
  | Some e =>
      if String.eqb e "" then mkEmitter ∅ (nextSerial em)
      else mkEmitter (<[e := []]> (events em)) (nextSerial em)
  | None => mkEmitter ∅ (nextSerial em)
  end.

End EventEmitter.

(** ** core/PlayerMetrics.js *)
Module PlayerMetrics.

Record PlayerMetrics := mkMetrics {
  shotsFired : Q;
  shotsHit : Q;
  enemiesKilled : Q;
  damageDealt : Q;
  damageTaken : Q;
  distanceTraveled : Q;
  jumpCount : Q;
  playTime : Q;
  timeInCombat : Q;
  difficultyFactor : Q
}.

(** [reset()], which is also what the constructor does. *)
Definition reset : PlayerMetrics := mkMetrics 0 0 0 0 0 0 0 0 0 0.5.

Definition getAccuracy (m : PlayerMetrics) : Q :=
  if Qeq_bool (shotsFired m) 0 then 0 else shotsHit m / shotsFired m.

Definition getKillEfficiency (m : PlayerMetrics) : Q :=
  if Qltb (playTime m) 60 then enemiesKilled m
  else enemiesKilled m / (playTime m / 60).

Definition getDamageEfficiency (m : PlayerMetrics) : Q :=
  if Qeq_bool (damageTaken m) 0
  then (if Qltb 0 (damageDealt m) then 2 else 1)
  else damageDealt m / damageTaken m.

Definition set_difficultyFactor (d : Q) (m : PlayerMetrics) : PlayerMetrics :=
  mkMetrics (shotsFired m) (shotsHit m) (enemiesKilled m) (damageDealt m)
            (damageTaken m) (distanceTraveled m) (jumpCount m) (playTime m)
            (timeInCombat m) d.

Definition updateDifficultyFactor (m : PlayerMetrics) : PlayerMetrics :=
  let accuracy := getAccuracy m in
  let killEfficiency := Qmin (getKillEfficiency m) 10 / 10 in
  let damageEfficiency := Qmin (getDamageEfficiency m) 3 / 3 in
  let weightedScore :=
    accuracy * 0.4 + killEfficiency * 0.4 + damageEfficiency * 0.2 in
  let d := difficultyFactor m * 0.7 + weightedScore * 0.3 in
  set_difficultyFactor (Qmax 0.2 (Qmin 0.8 d)) m.

Definition recordShot (hit : bool) (m : PlayerMetrics) : PlayerMetrics :=
  updateDifficultyFactor
    (mkMetrics (shotsFired m + 1) (if hit then shotsHit m + 1 else shotsHit m)
               (enemiesKilled m) (damageDealt m) (damageTaken m)
               (distanceTraveled m) (jumpCount m) (playTime m)
               (timeInCombat m) (difficultyFactor m)).

Definition recordEnemyKilled (m : PlayerMetrics) : PlayerMetrics :=
  updateDifficultyFactor
    (mkMetrics (shotsFired m) (shotsHit m) (enemiesKilled m + 1)
               (damageDealt m) (damageTaken m) (distanceTraveled m)
               (jumpCount m) (playTime m) (timeInCombat m)
               (difficultyFactor m)).

Definition recordDamageDealt (amount : Q) (m : PlayerMetrics) : PlayerMetrics :=
  mkMetrics (shotsFired m) (shotsHit m) (enemiesKilled m)
            (damageDealt m + amount) (damageTaken m) (distanceTraveled m)
            (jumpCount m) (playTime m) (timeInCombat m) (difficultyFactor m).

Definition recordDamageTaken (amount : Q) (m : PlayerMetrics) : PlayerMetrics :=
  updateDifficultyFactor
    (mkMetrics (shotsFired m) (shotsHit m) (enemiesKilled m) (damageDealt m)
               (damageTaken m + amount) (distanceTraveled m) (jumpCount m)
               (playTime m) (timeInCombat m) (difficultyFactor m)).

Definition recordMovement (distance : Q) (m : PlayerMetrics) : PlayerMetrics :=
  mkMetrics (shotsFired m) (shotsHit m) (enemiesKilled m) (damageDealt m)
            (damageTaken m) (distanceTraveled m + distance) (jumpCount m)
            (playTime m) (timeInCombat m) (difficultyFactor m).

Definition recordJump (m : PlayerMetrics) : PlayerMetrics :=
  mkMetrics (shotsFired m) (shotsHit m) (enemiesKilled m) (damageDealt m)
            (damageTaken m) (distanceTraveled m) (jumpCount m + 1)
            (playTime m) (timeInCombat m) (difficultyFactor m).

Definition updatePlayTime (deltaTime : Q) (m : PlayerMetrics) : PlayerMetrics :=
  mkMetrics (shotsFired m) (shotsHit m) (enemiesKilled m) (damageDealt m)
            (damageTaken m) (distanceTraveled m) (jumpCount m)
            (playTime m + deltaTime) (timeInCombat m) (difficultyFactor m).

Definition updateCombatTime (deltaTime : Q) (inCombat : bool)
  (m : PlayerMetrics) : PlayerMetrics :=
  if inCombat then
    mkMetrics (shotsFired m) (shotsHit m) (enemiesKilled m) (damageDealt m)
              (damageTaken m) (distanceTraveled m) (jumpCount m)
              (playTime m) (timeInCombat m + deltaTime) (difficultyFactor m)
  else m.

Definition getEnemySpawnRateMultiplier (m : PlayerMetrics) : Q :=
  0.5 + difficultyFactor m.

Definition getEnemyHealthMultiplier (m : PlayerMetrics) : Q :=
  0.7 + difficultyFactor m * 0.6.

Definition getEnemyDamageMultiplier (m : PlayerMetrics) : Q :=
  0.7 + difficultyFactor m * 0.6.

Definition getEnemySpeedMultiplier (m : PlayerMetrics) : Q :=
  0.8 + difficultyFactor m * 0.4.

(** A history of calls on the metrics. *)
Inductive Call :=
| RecordShot (hit : bool)
| RecordEnemyKilled
| RecordDamageDealt (amount : Q)
| RecordDamageTaken (amount : Q)
| RecordMovement (distance : Q)
| RecordJump
| UpdatePlayTime (deltaTime : Q)
| UpdateCombatTime (deltaTime : Q) (inCombat : bool).

Definition step (m : PlayerMetrics) (c : Call) : PlayerMetrics :=
  match c with
  | RecordShot hit => recordShot hit m
  | RecordEnemyKilled => recordEnemyKilled m
  | RecordDamageDealt a => recordDamageDealt a m
  | RecordDamageTaken a => recordDamageTaken a m
  | RecordMovement d => recordMovement d m
  | RecordJump => recordJump m
  | UpdatePlayTime dt => updatePlayTime dt m
  | UpdateCombatTime dt b => updateCombatTime dt b m
  end.

Definition run (cs : list Call) (m : PlayerMetrics) : PlayerMetrics :=
  fold_left step cs m.

End PlayerMetrics.

(** ** entities/EnemyManager.js *)
Module EnemyManager.

(** [this.gameEngine] as the manager and its enemies use it. *)
Record GameEngine := mkEngine {
  audioManager : bool;
  particleSystem : bool;
  events : bool;
  playerMetrics : option PlayerMetrics.PlayerMetrics;
  uiManager : bool
}.

(** The same engine as an enemy sees it. *)
Definition forEnemy (g : GameEngine) : Enemy.GameEngine :=
  Enemy.mkEngine (audioManager g) (particleSystem g) (events g)
                 (match playerMetrics g with Some _ => true | None => false end).

Record EnemyManager := mkManager {
  enemies : list Enemy.Enemy;
  gameEngine : option GameEngine;
  maxEnemies : Q;
  spawnRate : Q;
  lastSpawnTime : Q;
  spawnPoints : list Vec3;
  bossSpawned : bool;
  bossSpawnThreshold : Q
}.

Definition constructor : EnemyManager :=
  mkManager [] None 10 3 0 [] false 20.

(** [setGameEngine(gameEngine)].  [generateSpawnPoints] pushes eight points
    of a circle of radius 20, computed with [Math.cos] and [Math.sin]; they
    are taken as given. *)
Definition setGameEngine (g : GameEngine) (circle : list Vec3)
  (m : EnemyManager) : EnemyManager :=
  mkManager (enemies m) (Some g) (maxEnemies m) (spawnRate m)
            (lastSpawnTime m) (spawnPoints m ++ circle) (bossSpawned m)
            (bossSpawnThreshold m).

(** [this.spawnPoints[Math.floor(Math.random() * this.spawnPoints.length)]]. *)
Definition pickSpawnPoint (random : Q) (m : EnemyManager) : option Vec3 :=
  let spawnIndex :=
    Qfloor (random * inject_Z (Z.of_nat (length (spawnPoints m)))) in
  if (spawnIndex <? 0)%Z then None
  else nth_error (spawnPoints m) (Z.to_nat spawnIndex).

(** The difficulty read from the player metrics, 1 without them. *)
Definition difficultyOf (g : GameEngine) : Q :=
  match playerMetrics g with
  | Some metrics => PlayerMetrics.getEnemyHealthMultiplier metrics
  | None => 1
  end.

Definition push (enemy : Enemy.Enemy) (m : EnemyManager) : EnemyManager :=
  mkManager (enemies m ++ [enemy]) (gameEngine m) (maxEnemies m) (spawnRate m)
            (lastSpawnTime m) (spawnPoints m) (bossSpawned m)
            (bossSpawnThreshold m).

(** [spawnEnemy()] for given draws of [Math.random]: the enemy returned, if
    any, and the manager afterwards.  Calling [clone] on a missing spawn
    point, or reading [id] of a missing type, throws.  The enemy is built
    from the numeric [id] of the type drawn. *)
Definition spawnEnemy (r_point r_type : Q) (m : EnemyManager)
  : Completion (option Enemy.Enemy) * EnemyManager :=
  match gameEngine m with
  | None => (Returned None, m)
  | Some g =>
      match pickSpawnPoint r_point m with
      | None => (Threw "TypeError", m)
      | Some spawnPosition =>
          match Enemy.getRandomEnemyType r_type with
          | None => (Threw "TypeError", m)
          | Some enemyType =>
              let enemy :=
                Enemy.spawnEnemyOfType spawnPosition
                  (Enemy.TNumber (Enemy.cfg_id enemyType))
                  (difficultyOf g) (forEnemy g) in
              (Returned (Some enemy), push enemy m)
          end
      end
  end.

(** What the manager asks of the user interface. *)
Inductive Effect :=
| ShowMessage (text : string) (duration_ms : Z).

(** [spawnBoss()]. *)
Definition spawnBoss (r_point : Q) (m : EnemyManager)
  : Completion (option Enemy.Enemy) * EnemyManager * list Effect :=
  match gameEngine m with
  | None => (Returned None, m, [])
  | Some g =>
      if bossSpawned m then (Returned None, m, [])
      else
        match pickSpawnPoint r_point m with
        | None => (Threw "TypeError", m, [])
        | Some spawnPosition =>
            let boss :=
              Enemy.spawnBoss spawnPosition (difficultyOf g) (forEnemy g) in
            let m := push boss m in
            let m := mkManager (enemies m) (gameEngine m) (maxEnemies m)
                               (spawnRate m) (lastSpawnTime m) (spawnPoints m)
                               true (bossSpawnThreshold m) in
            (Returned (Some boss), m,
             if uiManager g then [ShowMessage "Boss has appeared!" 5000]
             else [])
        end
  end.

(** The draws of [Math.random] that one [update] may consume. *)
Record Draws := mkDraws {
  d_point : Q;
  d_type : Q;
  d_bossPoint : Q
}.

(** The first loop of [update]: every enemy is ticked. *)
Definition tickEnemies (deltaTime : Q) (m : EnemyManager) : EnemyManager :=
  mkManager (map (Enemy.update deltaTime) (enemies m)) (gameEngine m)
            (maxEnemies m) (spawnRate m) (lastSpawnTime m) (spawnPoints m)
            (bossSpawned m) (bossSpawnThreshold m).

(** After a regular spawn: the time is recorded, and with player metrics
    the spawn rate and the cap are recomputed. *)
Definition retune (now : Q) (m : EnemyManager) : EnemyManager :=
  match gameEngine m ≫= playerMetrics with
  | Some metrics =>
      mkManager (enemies m) (gameEngine m)
        (inject_Z (Qfloor
           (10 * PlayerMetrics.getEnemySpawnRateMultiplier metrics)))
        (3 / PlayerMetrics.getEnemySpawnRateMultiplier metrics)
        now (spawnPoints m) (bossSpawned m) (bossSpawnThreshold m)
  | None =>
      mkManager (enemies m) (gameEngine m) (maxEnemies m) (spawnRate m)
                now (spawnPoints m) (bossSpawned m) (bossSpawnThreshold m)
  end.

(** The regular spawn of [update]: below the cap and after the spawn
    interval (in milliseconds) has passed. *)
Definition regularSpawn (now : Q) (draws : Draws) (m : EnemyManager)
  : Completion unit * EnemyManager :=
  if Qltb (inject_Z (Z.of_nat (length (enemies m)))) (maxEnemies m)
     && Qltb (spawnRate m * 1000) (now - lastSpawnTime m)
  then
    match spawnEnemy (d_point draws) (d_type draws) m with
    | (Threw err, m') => (Threw err, m')
    | (Returned _, m') => (Returned tt, retune now m')
    end
  else (Returned tt, m).

(** The condition of the boss spawn. *)
Definition bossDue (m : EnemyManager) : bool :=
  match gameEngine m ≫= playerMetrics with
  | Some metrics =>
      negb (bossSpawned m)
      && Qle_bool (bossSpawnThreshold m) (PlayerMetrics.enemiesKilled metrics)
  | None => false
  end.

Definition bossSpawn (draws : Draws) (m : EnemyManager)
  : Completion unit * EnemyManager * list Effect :=
  if bossDue m then
    match spawnBoss (d_bossPoint draws) m with
    | (Threw err, m', fx) => (Threw err, m', fx)
    | (Returned _, m', fx) => (Returned tt, m', fx)
    end
  else (Returned tt, m, []).

(** [update(deltaTime)], with the reading [now] of [performance.now()]. *)
Definition update (deltaTime now : Q) (draws : Draws) (m : EnemyManager)
  : Completion unit * EnemyManager * list Effect :=
  match regularSpawn now draws (tickEnemies deltaTime m) with
  | (Threw err, m') => (Threw err, m', [])
  | (Returned _, m') => bossSpawn draws m'
  end.

(** [reset()]. *)
Definition reset (m : EnemyManager) : EnemyManager :=
  mkManager [] (gameEngine m) (maxEnemies m) (spawnRate m) 0 (spawnPoints m)
            false (bossSpawnThreshold m).

End EnemyManager.

(** ** systems/CurrencySystem.js *)
Module CurrencySystem.

(** The balance, the registered listeners (functions named by numbers, in
    registration order), and whether the engine has a user interface. *)
Record CurrencySystem := mkCurrency {
  credits : Q;
  listeners : list nat;
  uiManager : bool
}.

Inductive Effect :=
| Notified (listener : nat) (balance : Q)
| ShowCreditGain (amount : Q).

Definition constructor : CurrencySystem := mkCurrency 500 [] false.

Definition _notifyListeners (c : CurrencySystem) : list Effect :=
  map (fun l => Notified l (credits c)) (listeners c).

Definition addCredits (amount : Q) (c : CurrencySystem)
  : CurrencySystem * list Effect :=
  let c := mkCurrency (credits c + amount) (listeners c) (uiManager c) in
  (c, _notifyListeners c).

(** [removeCredits(amount)]: the answer, the system and the notifications. *)
Definition removeCredits (amount : Q) (c : CurrencySystem)
  : bool * CurrencySystem * list Effect :=
  if Qle_bool amount (credits c) then
    let c := mkCurrency (credits c - amount) (listeners c) (uiManager c) in
    (true, c, _notifyListeners c)
  else (false, c, []).

Definition getCredits (c : CurrencySystem) : Q := credits c.

Definition addListener (listener : nat) (c : CurrencySystem) : CurrencySystem :=
  mkCurrency (credits c) (listeners c ++ [listener]) (uiManager c).

(** [indexOf] followed by [splice(index, 1)]: the first occurrence goes. *)
Fixpoint removeFirst (x : nat) (l : list nat) : list nat :=
  match l with
  | [] => []
  | y :: rest => if Nat.eqb y x then rest else y :: removeFirst x rest
  end.

Definition removeListener (listener : nat) (c : CurrencySystem)
  : CurrencySystem :=
  mkCurrency (credits c) (removeFirst listener (listeners c)) (uiManager c).

(** The [switch] of [awardCreditsForKill]. *)
Definition killReward (enemyType : string) : Q :=
  if String.eqb enemyType "basic" then 50
  else if String.eqb enemyType "fast" then 75
  else if String.eqb enemyType "heavy" then 100
  else if String.eqb enemyType "boss" then 500
  else 25.

Definition awardCreditsForKill (enemyType : string) (c : CurrencySystem)
  : CurrencySystem * list Effect :=
  let amount := killReward enemyType in
  let '(c, fx) := addCredits amount c in
  (c, fx ++ (if uiManager c then [ShowCreditGain amount] else [])).

Definition reset (c : CurrencySystem) : CurrencySystem * list Effect :=
  let c := mkCurrency 500 (listeners c) (uiManager c) in
  (c, _notifyListeners c).

End CurrencySystem.

(** * Scenes and auxiliary notions used by the properties *)

(** ** Enemies and damage sources *)

Definition fullEngine : Enemy.GameEngine := Enemy.mkEngine true true true true.

Definition thePlayer : Enemy.Source :=
  Enemy.mkSource true (Some (mkVec3 3 0 4)) (Some "rifle"%string).

Definition grunt : Enemy.Enemy :=
  Enemy.setGameEngine fullEngine (Enemy.new (Enemy.TString "GRUNT")).

(** The boss created by the manager at difficulty 1, once its point value has
    been computed. *)
Definition boss : Enemy.Enemy :=
  Enemy.calculatePointValue (Enemy.spawnBoss zeroVec 1 fullEngine).

(** A call that cannot raise health: a tick, or damage of non-negative amount. *)
Definition nonNegative (c : Enemy.Call) : Prop :=
  match c with
  | Enemy.Tick _ => True
  | Enemy.Damage amount _ => 0 <= amount
  end.


(** The point values carried by the [enemyKilled] notifications of a log. *)
Definition killPoints (fx : list Enemy.Effect) : list Z :=
  flat_map (fun x => match x with
                     | Enemy.EnemyKilled ev => [Enemy.ev_points ev]
                     | _ => []
                     end) fx.

(** ** Physics scenes *)

(** The pairs handed to [_checkCollision] by the dynamic pass, and the
    callbacks invoked, as [(callee, other)]. *)
Definition checkedPairs (log : list PhysicsSystem.Event) : list (nat * nat) :=
  flat_map (fun ev => match ev with
                      | PhysicsSystem.Checked a b => [(a, b)]
                      | _ => []
                      end) log.

Definition callbacks (log : list PhysicsSystem.Event) : list (nat * nat) :=
  flat_map (fun ev => match ev with
                      | PhysicsSystem.Collision a b => [(a, b)]
                      | _ => []
                      end) log.

Definition pair_eqb (p q : nat * nat) : bool :=
  Nat.eqb (fst p) (fst q) && Nat.eqb (snd p) (snd q).

(** How often a pair occurs in a list of pairs. *)
Definition occurrences (p : nat * nat) (l : list (nat * nat)) : nat :=
  length (List.filter (pair_eqb p) l).

(** A unit sphere resting at the origin, with a collision callback. *)
Definition ball : PhysicsSystem.Entity :=
  PhysicsSystem.mkEntity
    (Some (PhysicsSystem.mkMesh zeroVec (mkVec3 1 1 1) (Some 1)))
    (Some zeroVec) false false None true None.

(** Eleven such spheres, all at the same place, and no accelerated backend. *)
Definition elevenBalls : PhysicsSystem.PhysicsSystem :=
  PhysicsSystem.mkPhysics 9.8 None (Some (repeat ball 11)).

(** An entity released at height 5 with no velocity, not grounded. *)
Definition dropped : PhysicsSystem.Entity :=
  PhysicsSystem.mkEntity
    (Some (PhysicsSystem.mkMesh (mkVec3 0 5 0) (mkVec3 1 1 1) (Some 1)))
    (Some zeroVec) false false None false (Some false).

(** The interface as [initFallback] leaves it: loaded, with the JavaScript
    gravity routine and no compiled module. *)
Definition fallbackInterface : WasmInterface.WasmInterface :=
  WasmInterface.initFallback WasmInterface.constructor.

Definition softwareWorld : PhysicsSystem.PhysicsSystem :=
  PhysicsSystem.mkPhysics 9.8 None (Some [dropped]).

Definition acceleratedWorld : PhysicsSystem.PhysicsSystem :=
  PhysicsSystem.mkPhysics 9.8 (Some fallbackInterface) (Some [dropped]).

(** [n] updates in a row. *)
Definition ticks (n : nat) (deltaTime : Q) (sys : PhysicsSystem.PhysicsSystem)
  : PhysicsSystem.PhysicsSystem :=
  Nat.iter n (fun s => fst (PhysicsSystem.update sqrtQ deltaTime s)) sys.

(** The first entity of the world, if any. *)
Definition firstEntity (sys : PhysicsSystem.PhysicsSystem)
  : option PhysicsSystem.Entity :=
  PhysicsSystem.gameEngine sys ≫= head.

Definition heightOf (e : PhysicsSystem.Entity) : option Q :=
  (fun m => vy (PhysicsSystem.position m)) <$> PhysicsSystem.mesh e.

Definition fallSpeedOf (e : PhysicsSystem.Entity) : option Q :=
  vy <$> PhysicsSystem.velocity e.

(** Does the entity have a mesh; does the entity stored at [i] have one? *)
Definition meshed (e : PhysicsSystem.Entity) : bool :=
  match PhysicsSystem.mesh e with Some _ => true | None => false end.

Definition hasMesh (store : list PhysicsSystem.Entity) (i : nat) : bool :=
  match store !! i with Some e => meshed e | None => false end.

(** The [onGround] property of the entity stored at [i]. *)
Definition groundFlag (store : list PhysicsSystem.Entity) (i : nat)
  : option bool :=
  store !! i ≫= PhysicsSystem.onGround.

(** Do the bounding spheres of entities [a] and [b] overlap? *)
Definition overlapping (sys : PhysicsSystem.PhysicsSystem) (a b : nat) : bool :=
  match PhysicsSystem.gameEngine sys with
  | Some store =>
      match store !! a ≫= PhysicsSystem.mesh,
            store !! b ≫= PhysicsSystem.mesh with
      | Some ma, Some mb => PhysicsSystem._checkCollision sqrtQ ma mb
      | _, _ => false
      end
  | None => false
  end.

(** ** AI scenes *)

(** One context, of entity 7, whose first cooldown slot holds 1. *)
Definition coolingSystem : AISystem.AISystem :=
  AISystem.mkAI None None ∅
    {[ 7%Z := set_value "cooldown_1" 1 emptyContext ]}.

(** One cooldown step on a value. *)
Definition cooled (deltaTime v : Q) : Q :=
  if Qltb 0 v then v - deltaTime else v.

(** A level with no geometry: no ray hits anything. *)
Definition openLevel : AISystem.Level := AISystem.mkLevel (fun _ _ _ _ => 0%nat).

(** A compiled tree whose [evaluate] always throws. *)
Definition brokenTree : WasmInterface.BehaviorTree :=
  WasmInterface.mkTree (Some (fun c => (Threw "unreachable executed", c))).

(** A loaded interface with a compiled module. *)
Definition compiledInterface : WasmInterface.WasmInterface :=
  WasmInterface.mkWasm true true (Some WasmInterface.createMockPathfinder)
    (Some (WasmInterface.mkModule None)).

(** An AI system on the accelerated path, with the broken tree registered
    for entity 7. *)
Definition brokenSystem : AISystem.AISystem :=
  AISystem.mkAI (Some (AISystem.mkEngine (Some openLevel)))
                (Some compiledInterface)
                {[ 7%Z := brokenTree ]}
                {[ 7%Z := set_value "action" 2 emptyContext ]}.

(** The visibility test that [evaluateBehaviorTree] makes before it
    evaluates the tree. *)
Definition targetSeen (Math_sqrt : Q -> Q) (sys : AISystem.AISystem)
  (position : Vec3) (targetPosition : option Vec3) : Completion bool :=
  match targetPosition, AISystem.gameEngine sys with
  | Some t, Some _ => AISystem.hasLineOfSight Math_sqrt sys position t
  | _, _ => Returned false
  end.

(** The context as [evaluateBehaviorTree] hands it to the tree: the entity's
    context after the writes of the position, the target, the health and
    the visibility flag. *)
Definition handedContext (position : Vec3) (targetPosition : option Vec3)
  (health maxHealth : Q) (targetVisible : bool) (context : BehaviorContext)
  : BehaviorContext :=
  let context := set_entity_position position context in
  let context :=
    match targetPosition with
    | Some t => set_target_position t context
    | None => context
    end in
  let context := set_entity_health health maxHealth context in
  set_value "target_visible" (if targetVisible then 1.0 else 0.0) context.





(** The engine, when attached, has its level set, so that the ray cast of
    [hasLineOfSight] has a mesh to test. *)
Definition levelReady (sys : AISystem.AISystem) : bool :=
  match AISystem.gameEngine sys with
  | Some g => match AISystem.level g with Some _ => true | None => false end
  | None => true
  end.

(** The answer of the accelerated existence check for a path from a point to
    itself; [false] when there is no loaded interface. *)
Definition pathExists (sys : AISystem.AISystem) (P : Vec3) : bool :=
  match AISystem.accelerated sys with
  | Some w =>
      fst (WasmInterface.findPath w
             (AISystem.toGrid (vx P)) (AISystem.toGrid (vz P))
             (AISystem.toGrid (vx P)) (AISystem.toGrid (vz P)))
  | None => false
  end.

(** The midpoint computed by the fallback of [findPath]. *)
Definition midpoint (a b : Vec3) : Vec3 :=
  set_vy 1 (multiplyScalar 0.5 (addVectors a b)).

(** ** Further notions and scenes *)

(** The states a live enemy can be in. *)
Definition liveStates : list string :=
  ["idle"; "patrol"; "chase"; "attack"; "search"; "takeCover"; "flank"]%string.

(** A call that keeps a corpse a corpse: a tick, or damage of non-negative
    amount whose source, if any, has a mesh. *)
Definition tame (c : Enemy.Call) : Prop :=
  match c with
  | Enemy.Tick _ => True
  | Enemy.Damage amount None => 0 <= amount
  | Enemy.Damage amount (Some s) => 0 <= amount /\ Enemy.src_mesh s <> None
  end.

(** Dead for good: not alive, in state [dead], health at or below zero. *)
Definition deadForGood (e : Enemy.Enemy) : Prop :=
  Enemy.isAlive e = false /\ Enemy.state e = "dead"%string /\
  Enemy.health e <= 0.

(** The grunt after a lethal hit from the player. *)
Definition deadGrunt : Enemy.Enemy :=
  Enemy.enemy (Enemy.takeDamage 100 (Some thePlayer) grunt).

(** A live enemy whose state is not one the controller knows (the
    multiplayer synchronisation writes whatever it receives), sliding
    sideways after a hit. *)
Definition confusedGrunt : Enemy.Enemy :=
  Enemy.set_velocity (mkVec3 1 0 0.005) (Enemy.set_state "stunned" grunt).

(** An engine with every collaborator and fresh player metrics. *)
Definition managerEngine : EnemyManager.GameEngine :=
  EnemyManager.mkEngine true true true (Some PlayerMetrics.reset) true.

(** A manager attached to that engine, with two spawn points. *)
Definition readyManager : EnemyManager.EnemyManager :=
  EnemyManager.setGameEngine managerEngine [mkVec3 20 0 0; mkVec3 0 0 20]
                             EnemyManager.constructor.

(** The number of enemies configured as the boss. *)
Definition bossCount (es : list Enemy.Enemy) : nat :=
  length (List.filter
            (fun e => Z.eqb (Enemy.cfg_id (Enemy.enemyType e)) 4) es).

(** The player metrics belong to the engine and change between updates (the
    player shoots, enemies die): the manager with the metrics as they are at
    the next update. *)
Definition withMetrics (metrics : option PlayerMetrics.PlayerMetrics)
  (m : EnemyManager.EnemyManager) : EnemyManager.EnemyManager :=
  match EnemyManager.gameEngine m with
  | Some g =>
      EnemyManager.mkManager
        (EnemyManager.enemies m)
        (Some (EnemyManager.mkEngine
                 (EnemyManager.audioManager g) (EnemyManager.particleSystem g)
                 (EnemyManager.events g) metrics (EnemyManager.uiManager g)))
        (EnemyManager.maxEnemies m) (EnemyManager.spawnRate m)
        (EnemyManager.lastSpawnTime m) (EnemyManager.spawnPoints m)
        (EnemyManager.bossSpawned m) (EnemyManager.bossSpawnThreshold m)
  | None => m
  end.

(** One frame of the manager: the tick length, the clock reading, the draws
    and the state of the player metrics at that moment. *)
Record Frame := mkFrame {
  f_deltaTime : Q;
  f_now : Q;
  f_draws : EnemyManager.Draws;
  f_metrics : option PlayerMetrics.PlayerMetrics
}.

(** Updates of the manager in a row; an update that throws ends the run. *)
Fixpoint managerRun (frames : list Frame) (m : EnemyManager.EnemyManager)
  : EnemyManager.EnemyManager :=
  match frames with
  | [] => m
  | f :: rest =>
      match EnemyManager.update (f_deltaTime f) (f_now f) (f_draws f)
                                (withMetrics (f_metrics f) m) with
      | (Returned _, m', _) => managerRun rest m'
      | (Threw _, m', _) => m'
      end
  end.

(** A player with 50 health and 40 armor. *)
Definition armoredPlayer : PlayerController.PlayerController :=
  PlayerController.mkPlayer 50 40 true (mkVec3 1 0 0).

(** A history of calls on the currency system. *)
Inductive CurrencyCall :=
| AddCredits (amount : Q)
| RemoveCredits (amount : Q)
| AwardCreditsForKill (enemyType : string)
| ResetCredits.

Definition currencyStep (c : CurrencySystem.CurrencySystem) (call : CurrencyCall)
  : CurrencySystem.CurrencySystem :=
  match call with
  | AddCredits a => fst (CurrencySystem.addCredits a c)
  | RemoveCredits a => snd (fst (CurrencySystem.removeCredits a c))
  | AwardCreditsForKill t => fst (CurrencySystem.awardCreditsForKill t c)
  | ResetCredits => fst (CurrencySystem.reset c)
  end.

Definition currencyRun (calls : list CurrencyCall)
  (c : CurrencySystem.CurrencySystem) : CurrencySystem.CurrencySystem :=
  fold_left currencyStep calls c.

(** No call adds a negative amount. *)
Definition addsNonNegative (call : CurrencyCall) : Prop :=
  match call with
  | AddCredits a => 0 <= a
  | _ => True
  end.

(** How many notifications of a log went to a listener. *)
Definition notifiedCount (listener : nat) (fx : list CurrencySystem.Effect)
  : nat :=
  length (List.filter
            (fun e => match e with
                      | CurrencySystem.Notified l _ => Nat.eqb l listener
                      | _ => false
                      end) fx).




(** Ticks of the AI system in a row, one per step of the list. *)
Definition aiRun (dts : list Q) (sys : AISystem.AISystem)
  : AISystem.AISystem :=
  fold_left (fun s dt => AISystem.update dt s) dts sys.

(** The keys of the ten cooldown slots. *)
Definition cooldownKeys : list string := map AISystem.cooldownKey (seq 1 10).

(** An AI system whose interface was set up by [initFallback], with a level
    in which every ray is blocked. *)
Definition fallbackAI : AISystem.AISystem :=
  AISystem.mkAI
    (Some (AISystem.mkEngine (Some (AISystem.mkLevel (fun _ _ _ _ => 1%nat)))))
    (Some fallbackInterface) ∅ ∅.

(** A static wall: a mesh and no velocity. *)
Definition wall : PhysicsSystem.Entity :=
  PhysicsSystem.mkEntity
    (Some (PhysicsSystem.mkMesh (mkVec3 20 0 0) (mkVec3 1 1 1) (Some 1)))
    None true false None false None.

Definition worldWithWall : PhysicsSystem.PhysicsSystem :=
  PhysicsSystem.mkPhysics 9.8 None (Some [dropped; wall]).

(** * Properties *)

(** ** Numbers *)

Lemma Qltb_lt (x y : Q) : Qltb x y = true <-> x < y.
Proof.
  unfold Qltb. rewrite negb_true_iff.
  split; intros H.
  - apply Qnot_le_lt. intros Hle. apply Qle_bool_iff in Hle. congruence.
  - destruct (Qle_bool y x) eqn:E; [|reflexivity].
    apply Qle_bool_iff in E. exfalso. apply (Qlt_not_le _ _ H E).
Qed.

Lemma Qltb_ge (x y : Q) : Qltb x y = false <-> y <= x.
Proof.
  unfold Qltb. rewrite negb_false_iff. apply Qle_bool_iff.
Qed.

Lemma Qle_bool_gt (x y : Q) : Qle_bool x y = false <-> y < x.
Proof.
  rewrite <- Qltb_lt. unfold Qltb. rewrite negb_true_iff. reflexivity.
Qed.

(** ** Enemy: health *)

Lemma update_health (dt : Q) (e : Enemy.Enemy) :
  Enemy.health (Enemy.update dt e) = Enemy.health e /\
  Enemy.maxHealth (Enemy.update dt e) = Enemy.maxHealth e.
Proof.
  unfold Enemy.update.
  destruct (Enemy.isAlive e); cbn [negb]; cbv beta iota zeta; [|tauto].
  match goal with
  | |- context [existsb ?f ?l] => destruct (existsb f l)
  end; split; reflexivity.
Qed.

Lemma die_health (source : option Enemy.Source) (e : Enemy.Enemy) :
  Enemy.health (fst (Enemy.die source e)) = Enemy.health e /\
  Enemy.maxHealth (fst (Enemy.die source e)) = Enemy.maxHealth e.
Proof.
  unfold Enemy.die. simpl.
  destruct source as [s|]; simpl; [destruct (Enemy.isPlayer s)|]; simpl; tauto.
Qed.

Lemma checkDead_health (source : option Enemy.Source) (e : Enemy.Enemy) :
  Enemy.health (Enemy.enemy (Enemy.checkDead source e)) = Enemy.health e /\
  Enemy.maxHealth (Enemy.enemy (Enemy.checkDead source e)) = Enemy.maxHealth e.
Proof.
  unfold Enemy.checkDead.
  destruct (Qle_bool (Enemy.health e) 0); [|simpl; tauto].
  pose proof (die_health source e) as H.
  destruct (Enemy.die source e) as [e' fx]. exact H.
Qed.

(** [takeDamage] subtracts the amount and does nothing else to health: there
    is no lower clamp. *)
Lemma takeDamage_health (amount : Q) (source : option Enemy.Source)
  (e : Enemy.Enemy) :
  Enemy.health (Enemy.enemy (Enemy.takeDamage amount source e))
    = Enemy.health e - amount /\
  Enemy.maxHealth (Enemy.enemy (Enemy.takeDamage amount source e))
    = Enemy.maxHealth e.
Proof.
  unfold Enemy.takeDamage.
  set (e1 := Enemy.set_health (Enemy.health e - amount) e).
  assert (H1 : Enemy.health e1 = Enemy.health e - amount /\
               Enemy.maxHealth e1 = Enemy.maxHealth e) by (split; reflexivity).
  destruct source as [s|].
  - destruct (negb (Enemy.isAware e1)).
    + destruct (Enemy.src_mesh s) as [p|]; [|exact H1].
      destruct (checkDead_health (Some s)
                  (Enemy.set_lastKnownTargetPosition p
                     (Enemy.set_state "chase"
                        (Enemy.set_target (Some s)
                           (Enemy.set_isAware true e1))))) as [-> ->].
      exact H1.
    + destruct (checkDead_health (Some s) e1) as [-> ->]. exact H1.
  - destruct (checkDead_health None e1) as [-> ->]. exact H1.
Qed.

(** Damage larger than the remaining health leaves a negative health, for
    every enemy. *)
Lemma takeDamage_overkill_negative (amount : Q)
  (source : option Enemy.Source) (e : Enemy.Enemy) :
  Enemy.health e < amount ->
  Enemy.health (Enemy.enemy (Enemy.takeDamage amount source e)) < 0.
Proof.
  intros H. destruct (takeDamage_health amount source e) as [-> _]. lra.
Qed.

(** The upper bound is kept by ticks and by damage of non-negative amount. *)
Lemma run_health_le_maxHealth (cs : list Enemy.Call) :
  forall e : Enemy.Enemy,
    Forall nonNegative cs ->
    Enemy.health e <= Enemy.maxHealth e ->
    Enemy.health (fst (Enemy.run cs e)) <= Enemy.maxHealth (fst (Enemy.run cs e)).
Proof.
  induction cs as [|c cs IH]; intros e Hnn Hle; [exact Hle|].
  inversion Hnn as [|? ? Hc Hcs]; subst.
  simpl.
  destruct (Enemy.step c e) as [e1 fx1] eqn:Hs.
  specialize (IH e1 Hcs).
  destruct (Enemy.run cs e1) as [e2 fx2]. simpl in *.
  apply IH. clear IH.
  destruct c as [dt|amount source]; simpl in Hs; inversion Hs; subst; clear Hs.
  - destruct (update_health dt e) as [-> ->]. exact Hle.
  - destruct (takeDamage_health amount source e) as [-> ->].
    simpl in Hc. lra.
Qed.

(** The player's controller resets health to 0 when it drops to 0 or below:
    its health is never negative after a hit. *)
Lemma PlayerController_takeDamage_nonneg (amount : Q)
  (p : PlayerController.PlayerController) :
  0 <= PlayerController.health (fst (PlayerController.takeDamage amount p)).
Proof.
  unfold PlayerController.takeDamage.
  destruct (Qltb 0 (PlayerController.armor p)); simpl.
  - destruct (Qle_bool _ 0) eqn:E; simpl; [lra|].
    apply Qle_bool_gt in E. lra.
  - destruct (Qle_bool _ 0) eqn:E; simpl; [lra|].
    apply Qle_bool_gt in E. lra.
Qed.

(** C1 (the code departs from the claim).  A grunt spawned with 100 health
    that takes 150 damage is left with health -50, below zero, and a
    following tick does not repair it; the claim asks for a clamp at 0. *)
Theorem C1_enemy_health_goes_negative :
  let e := fst (Enemy.run [Enemy.Damage 150 None; Enemy.Tick 1] grunt) in
  Enemy.health grunt == 100 /\ Enemy.maxHealth grunt == 100 /\
  Enemy.health e == -50 /\ Enemy.health e < 0.
Proof.
  vm_compute. repeat split; discriminate.
Qed.

(** ** Enemy: the death transition *)

(** [die] leaves the enemy dead whatever it was before, and always schedules
    a removal. *)
Lemma die_state (source : option Enemy.Source) (e : Enemy.Enemy) :
  Enemy.isAlive (fst (Enemy.die source e)) = false /\
  Enemy.state (fst (Enemy.die source e)) = "dead"%string /\
  Enemy.removals (snd (Enemy.die source e)) = 1%nat.
Proof.
  unfold Enemy.die, Enemy.removals. cbv zeta.
  set (by_ := match source with
              | Some s => Enemy.isPlayer s
              | None => false
              end).
  cbn [fst snd].
  repeat split.
  - destruct by_; reflexivity.
  - destruct by_; reflexivity.
  - rewrite !List.filter_app, !length_app.
    repeat match goal with
           | |- context [if ?c then _ else _] => destruct c
           end; reflexivity.
Qed.

(** [takeDamage] does not look at [isAlive]: every call that leaves the
    health at or below zero runs [die], also on an enemy that is dead
    already. *)
Lemma takeDamage_lethal_always_dies (amount : Q) (e : Enemy.Enemy) :
  Enemy.health e - amount <= 0 ->
  Enemy.removals (Enemy.effects (Enemy.takeDamage amount None e)) = 1%nat.
Proof.
  intros H. unfold Enemy.takeDamage, Enemy.checkDead.
  set (e1 := Enemy.set_health (Enemy.health e - amount) e).
  assert (E : Qle_bool (Enemy.health e1) 0 = true)
    by (apply Qle_bool_iff; exact H).
  rewrite E.
  pose proof (die_state None e1) as (_ & _ & Hr).
  destruct (Enemy.die None e1) as [e' fx]. exact Hr.
Qed.

(** C2 (the code departs from the claim).  A grunt killed by a first hit is
    dead ([isAlive] false, state [dead]); a second hit on the corpse runs the
    death transition again: a second kill notification is emitted, a second
    removal is scheduled, and the kill counter is incremented again. *)
Theorem C2_death_transition_fires_twice :
  let first := Enemy.takeDamage 100 (Some thePlayer) grunt in
  let second := Enemy.takeDamage 1 (Some thePlayer) (Enemy.enemy first) in
  Enemy.isAlive grunt = true /\
  Enemy.isAlive (Enemy.enemy first) = false /\
  Enemy.state (Enemy.enemy first) = "dead"%string /\
  Enemy.kills (Enemy.effects first) = 1%nat /\
  Enemy.kills (Enemy.effects second) = 1%nat /\
  Enemy.removals (Enemy.effects second) = 1%nat /\
  In Enemy.MetricsKill (Enemy.effects second) /\
  Enemy.kills (snd (Enemy.run [Enemy.Damage 100 (Some thePlayer);
                         Enemy.Damage 1 (Some thePlayer)] grunt)) = 2%nat.
Proof.
  vm_compute. repeat split; auto.
Qed.

(** ** Enemy: point value *)

(** The value of the function itself on an aware boss at full health. *)
Lemma getPointValue_aware_full_health :
  Enemy.getPointValue (Enemy.set_isAware true boss) = 750%Z.
Proof. vm_compute. reflexivity. Qed.

(** When [die] computes the point value the damage has been subtracted
    already: with health at or below zero and a positive [maxHealth] the
    quick-kill test fails, and only the awareness bonus can apply. *)
Lemma getPointValue_at_death (e : Enemy.Enemy) :
  0 < Enemy.maxHealth e ->
  Enemy.health e <= 0 ->
  Enemy.getPointValue e =
    Qfloor (Enemy.pointValue e +
            (if Enemy.isAware e then 0 + Enemy.pointValue e * 0.2 else 0)).
Proof.
  intros Hm Hh. unfold Enemy.getPointValue.
  assert (E : Qltb (Enemy.maxHealth e * 0.9) (Enemy.health e) = false).
  { apply Qltb_ge. lra. }
  rewrite E. reflexivity.
Qed.

(** C3 (the code departs from the claim).  The boss stands at full health
    (500 of 500); one hit of 500 from the player makes it aware and kills it.
    The notification carries 600 points, base plus awareness bonus, not the
    750 that the stacked bonuses would give. *)
Theorem C3_boss_quick_kill_awards_600 :
  Enemy.health boss == Enemy.maxHealth boss /\
  Enemy.pointValue boss == 500 /\
  Enemy.isAware (Enemy.enemy (Enemy.takeDamage 500 (Some thePlayer) boss)) = true /\
  Enemy.state (Enemy.enemy (Enemy.takeDamage 500 (Some thePlayer) boss)) = "dead"%string /\
  killPoints (Enemy.effects (Enemy.takeDamage 500 (Some thePlayer) boss)) = [600%Z] /\
  killPoints (Enemy.effects
                (Enemy.takeDamage 500 (Some thePlayer)
                   (Enemy.set_isAware true boss))) = [600%Z].
Proof.
  vm_compute. repeat split; reflexivity.
Qed.

(** ** Enemy: behaviour flags *)

(** What [configureEnemyType] alone does: it raises the flag of the type. *)
Lemma configureEnemyType_sets_flags :
  Enemy.takeCover (Enemy.configureEnemyType (Enemy.TString "SNIPER")
                     (Enemy.initial (Enemy.TString "SNIPER"))) = true /\
  Enemy.flanking (Enemy.configureEnemyType (Enemy.TString "SCOUT")
                    (Enemy.initial (Enemy.TString "SCOUT"))) = true /\
  Enemy.callReinforcements
    (Enemy.configureEnemyType (Enemy.TString "BOSS")
       (Enemy.initial (Enemy.TString "BOSS"))) = true.
Proof. repeat split; reflexivity. Qed.

(** The constructor assigns [false] to the three flags after the type has
    been configured, for every type argument. *)
Lemma constructor_flags (type : Enemy.TypeArg) :
  Enemy.takeCover (Enemy.new type) = false /\
  Enemy.flanking (Enemy.new type) = false /\
  Enemy.callReinforcements (Enemy.new type) = false.
Proof. repeat split; reflexivity. Qed.

Lemma update_flags (dt : Q) (e : Enemy.Enemy) :
  Enemy.takeCover (Enemy.update dt e) = Enemy.takeCover e /\
  Enemy.flanking (Enemy.update dt e) = Enemy.flanking e /\
  Enemy.callReinforcements (Enemy.update dt e) = Enemy.callReinforcements e.
Proof.
  unfold Enemy.update.
  destruct (Enemy.isAlive e); cbn [negb]; cbv beta iota zeta; [|tauto].
  match goal with
  | |- context [existsb ?f ?l] => destruct (existsb f l)
  end; repeat split; reflexivity.
Qed.

Lemma checkDead_flags (source : option Enemy.Source) (e : Enemy.Enemy) :
  Enemy.takeCover (Enemy.enemy (Enemy.checkDead source e)) = Enemy.takeCover e /\
  Enemy.flanking (Enemy.enemy (Enemy.checkDead source e)) = Enemy.flanking e /\
  Enemy.callReinforcements (Enemy.enemy (Enemy.checkDead source e))
    = Enemy.callReinforcements e.
Proof.
  unfold Enemy.checkDead, Enemy.die.
  destruct (Qle_bool (Enemy.health e) 0); [|simpl; tauto].
  destruct source as [s|]; [destruct (Enemy.isPlayer s)|]; simpl; tauto.
Qed.

Lemma takeDamage_flags (amount : Q) (source : option Enemy.Source)
  (e : Enemy.Enemy) :
  Enemy.takeCover (Enemy.enemy (Enemy.takeDamage amount source e))
    = Enemy.takeCover e /\
  Enemy.flanking (Enemy.enemy (Enemy.takeDamage amount source e))
    = Enemy.flanking e /\
  Enemy.callReinforcements (Enemy.enemy (Enemy.takeDamage amount source e))
    = Enemy.callReinforcements e.
Proof.
  unfold Enemy.takeDamage.
  set (e1 := Enemy.set_health (Enemy.health e - amount) e).
  destruct source as [s|].
  - destruct (negb (Enemy.isAware e1)).
    + destruct (Enemy.src_mesh s) as [p|]; [|simpl; tauto].
      destruct (checkDead_flags (Some s)
                  (Enemy.set_lastKnownTargetPosition p
                     (Enemy.set_state "chase"
                        (Enemy.set_target (Some s)
                           (Enemy.set_isAware true e1))))) as (-> & -> & ->).
      simpl; tauto.
    + destruct (checkDead_flags (Some s) e1) as (-> & -> & ->). simpl; tauto.
  - destruct (checkDead_flags None e1) as (-> & -> & ->). simpl; tauto.
Qed.

(** Ticks and damage never write the flags. *)
Lemma run_flags (cs : list Enemy.Call) :
  forall e : Enemy.Enemy,
    Enemy.takeCover (fst (Enemy.run cs e)) = Enemy.takeCover e /\
    Enemy.flanking (fst (Enemy.run cs e)) = Enemy.flanking e /\
    Enemy.callReinforcements (fst (Enemy.run cs e)) = Enemy.callReinforcements e.
Proof.
  induction cs as [|c cs IH]; intros e; [simpl; tauto|].
  simpl.
  destruct (Enemy.step c e) as [e1 fx1] eqn:Hs.
  specialize (IH e1).
  destruct (Enemy.run cs e1) as [e2 fx2]. simpl in *.
  destruct IH as (-> & -> & ->).
  destruct c as [dt|amount source]; simpl in Hs; inversion Hs; subst; clear Hs.
  - apply update_flags.
  - apply takeDamage_flags.
Qed.

(** C4 (the code departs from the claim).  Right after construction a
    sniper has [takeCover = false], a scout [flanking = false] and a boss
    [callReinforcements = false]: the constructor overwrites what
    [configureEnemyType] has just derived from the type. *)
Theorem C4_flags_false_after_spawn :
  Enemy.takeCover (Enemy.new (Enemy.TString "SNIPER")) = false /\
  Enemy.flanking (Enemy.new (Enemy.TString "SCOUT")) = false /\
  Enemy.callReinforcements (Enemy.new (Enemy.TString "BOSS")) = false /\
  Enemy.callReinforcements (Enemy.spawnBoss zeroVec 1 fullEngine) = false /\
  Enemy.takeCover
    (Enemy.spawnEnemyOfType zeroVec (Enemy.TObject Enemy.SNIPER) 1 fullEngine)
    = false.
Proof. repeat split; reflexivity. Qed.

(** ** Enemy: damage without a source *)

(** Without a source, a hit that leaves positive health only writes
    [health]. *)
Lemma takeDamage_no_source_survives (amount : Q) (e : Enemy.Enemy) :
  0 < Enemy.health e - amount ->
  Enemy.takeDamage amount None e =
    Enemy.mkOutcome (Enemy.set_health (Enemy.health e - amount) e) []
                    (Returned tt).
Proof.
  intros H. unfold Enemy.takeDamage, Enemy.checkDead.
  set (e1 := Enemy.set_health (Enemy.health e - amount) e).
  assert (E : Qle_bool (Enemy.health e1) 0 = false)
    by (apply Qle_bool_gt; exact H).
  rewrite E. reflexivity.
Qed.

(** A source that has no mesh (the player's controller passes a bare
    position) makes the first hit on an unaware enemy throw, after the enemy
    has become aware and before the death check. *)
Lemma takeDamage_source_without_mesh (amount : Q) (s : Enemy.Source)
  (e : Enemy.Enemy) :
  Enemy.isAware e = false ->
  Enemy.src_mesh s = None ->
  let o := Enemy.takeDamage amount (Some s) e in
  Enemy.completion o = Threw "TypeError" /\
  Enemy.isAware (Enemy.enemy o) = true /\
  Enemy.state (Enemy.enemy o) = "chase"%string /\
  Enemy.isAlive (Enemy.enemy o) = Enemy.isAlive e /\
  Enemy.effects o = [].
Proof.
  intros Ha Hm. unfold Enemy.takeDamage. cbn. rewrite Ha, Hm. cbn.
  repeat split; reflexivity.
Qed.

(** C10.  On a live enemy, [takeDamage] with a positive amount that is not
    lethal and with no source returns normally, sends nothing to the
    collaborators and changes only [health], which it lowers by the amount:
    the enemy afterwards is the enemy before with that one field replaced.
    In particular the awareness flag, the state, the target and the last
    known target position are as they were, and so are maxHealth, the
    state time, the position, the velocity, the point value and the
    killed-by-player mark. *)
Theorem C10_takeDamage_without_source_frame (amount : Q) (e : Enemy.Enemy) :
  Enemy.isAlive e = true ->
  0 < amount ->
  0 < Enemy.health e - amount ->
  let o := Enemy.takeDamage amount None e in
  Enemy.completion o = Returned tt /\
  Enemy.effects o = [] /\
  Enemy.enemy o =
    Enemy.mkEnemy (Enemy.health e - amount) (Enemy.maxHealth e)
      (Enemy.stats e) (Enemy.isAlive e) (Enemy.isAware e) (Enemy.state e)
      (Enemy.stateTime e) (Enemy.target e) (Enemy.lastKnownTargetPosition e)
      (Enemy.type e) (Enemy.enemyType e) (Enemy.takeCover e)
      (Enemy.flanking e) (Enemy.callReinforcements e) (Enemy.position e)
      (Enemy.velocity e) (Enemy.pointValue e) (Enemy.wasKilledByPlayer e)
      (Enemy.gameEngine e) /\
  Enemy.health (Enemy.enemy o) = Enemy.health e - amount /\
  Enemy.health (Enemy.enemy o) < Enemy.health e /\
  Enemy.isAware (Enemy.enemy o) = Enemy.isAware e /\
  Enemy.state (Enemy.enemy o) = Enemy.state e /\
  Enemy.target (Enemy.enemy o) = Enemy.target e /\
  Enemy.lastKnownTargetPosition (Enemy.enemy o)
    = Enemy.lastKnownTargetPosition e /\
  Enemy.isAlive (Enemy.enemy o) = true.
Proof.
  intros Halive Hamount Hpos o. subst o.
  rewrite (takeDamage_no_source_survives amount e Hpos).
  cbn [Enemy.completion Enemy.effects Enemy.enemy].
  split; [reflexivity|]. split; [reflexivity|]. split; [reflexivity|].
  simpl. repeat split; auto. lra.
Qed.

(** C10 on a fresh grunt hit for 30 without a source. *)
Lemma C10_witness :
  let o := Enemy.takeDamage 30 None grunt in
  Enemy.completion o = Returned tt /\
  Enemy.effects o = [] /\
  Enemy.enemy o =
    Enemy.mkEnemy (Enemy.health grunt - 30) (Enemy.maxHealth grunt)
      (Enemy.stats grunt) (Enemy.isAlive grunt) (Enemy.isAware grunt)
      (Enemy.state grunt) (Enemy.stateTime grunt) (Enemy.target grunt)
      (Enemy.lastKnownTargetPosition grunt) (Enemy.type grunt)
      (Enemy.enemyType grunt) (Enemy.takeCover grunt) (Enemy.flanking grunt)
      (Enemy.callReinforcements grunt) (Enemy.position grunt)
      (Enemy.velocity grunt) (Enemy.pointValue grunt)
      (Enemy.wasKilledByPlayer grunt) (Enemy.gameEngine grunt) /\
  Enemy.health (Enemy.enemy o) = Enemy.health grunt - 30 /\
  Enemy.health (Enemy.enemy o) < Enemy.health grunt /\
  Enemy.isAware (Enemy.enemy o) = Enemy.isAware grunt /\
  Enemy.state (Enemy.enemy o) = Enemy.state grunt /\
  Enemy.target (Enemy.enemy o) = Enemy.target grunt /\
  Enemy.lastKnownTargetPosition (Enemy.enemy o)
    = Enemy.lastKnownTargetPosition grunt /\
  Enemy.isAlive (Enemy.enemy o) = true.
Proof.
  apply (C10_takeDamage_without_source_frame 30 grunt).
  - reflexivity.
  - reflexivity.
  - reflexivity.
Defined.

(** ** Physics: gravity and ground contact *)

(** The JavaScript path: when the integrated height is negative the entity
    ends at height 0 with no vertical velocity and is marked grounded. *)
Lemma software_ground_clamp
  (sys : PhysicsSystem.PhysicsSystem) (dt : Q) (e : PhysicsSystem.Entity)
  (m : PhysicsSystem.Mesh) (v : Vec3) :
  PhysicsSystem.accelerated sys = None ->
  PhysicsSystem.mesh e = Some m ->
  PhysicsSystem.velocity e = Some v ->
  vy (PhysicsSystem.position m)
    + (vy v - PhysicsSystem.gravity sys * dt) * dt < 0 ->
  let e' := fst (PhysicsSystem.applyGravityStep sys dt e) in
  heightOf e' = Some 0 /\ fallSpeedOf e' = Some 0 /\
  PhysicsSystem.onGround e' = Some true.
Proof.
  intros Hacc Hm Hv Hneg. unfold PhysicsSystem.applyGravityStep.
  rewrite Hm, Hv, Hacc. cbv zeta.
  apply Qltb_lt in Hneg. cbn [vy set_vy]. rewrite Hneg.
  unfold heightOf, fallSpeedOf. cbn.
  unfold PhysicsSystem.set_mesh_position. rewrite Hm.
  repeat split; reflexivity.
Qed.

(** The JavaScript routine behind the loaded interface clamps position and
    velocity in the same way. *)
Lemma mockApplyGravity_ground_clamp (p v : Vec3) (dt : Q) :
  vy p + (vy v - 9.8 * dt) * dt < 0 ->
  vy (fst (WasmInterface.mockApplyGravity p v dt)) = 0 /\
  vy (snd (WasmInterface.mockApplyGravity p v dt)) = 0.
Proof.
  intros Hneg. unfold WasmInterface.mockApplyGravity.
  apply Qltb_lt in Hneg. cbn [vy set_vy]. rewrite Hneg.
  split; reflexivity.
Qed.

(** Whatever the loaded interface does, the accelerated branch never writes
    [onGround]. *)
Lemma accelerated_keeps_onGround (sys : PhysicsSystem.PhysicsSystem)
  (w : WasmInterface.WasmInterface) (dt : Q) (e : PhysicsSystem.Entity) :
  PhysicsSystem.accelerated sys = Some w ->
  PhysicsSystem.onGround (fst (PhysicsSystem.applyGravityStep sys dt e))
    = PhysicsSystem.onGround e.
Proof.
  intros Hacc. unfold PhysicsSystem.applyGravityStep.
  destruct (PhysicsSystem.mesh e) as [m|] eqn:Hm; [|reflexivity].
  destruct (PhysicsSystem.velocity e) as [v|] eqn:Hv; [|reflexivity].
  rewrite Hacc.
  destruct (WasmInterface.applyGravity w (PhysicsSystem.position m) v dt)
    as [[p v'] log].
  cbn. unfold PhysicsSystem.set_mesh_position. rewrite Hm. reflexivity.
Qed.

Section AcceleratedGround.

Variable Math_sqrt : Q -> Q.
Variable sys : PhysicsSystem.PhysicsSystem.
Variable w : WasmInterface.WasmInterface.
Variable dt : Q.
(** The interface is attached and loaded. *)
Hypothesis loaded : PhysicsSystem.accelerated sys = Some w.

Lemma set_mesh_position_onGround (p : Vec3) (e : PhysicsSystem.Entity) :
  PhysicsSystem.onGround (PhysicsSystem.set_mesh_position p e)
    = PhysicsSystem.onGround e.
Proof.
  unfold PhysicsSystem.set_mesh_position.
  destruct (PhysicsSystem.mesh e); reflexivity.
Qed.

Lemma resolveStatic_onGround (obj : PhysicsSystem.Mesh)
  (e : PhysicsSystem.Entity) :
  PhysicsSystem.onGround (PhysicsSystem.resolveStatic Math_sqrt obj e)
    = PhysicsSystem.onGround e.
Proof.
  unfold PhysicsSystem.resolveStatic.
  destruct (PhysicsSystem.mesh e) as [m|] eqn:Hm; [|reflexivity].
  destruct (PhysicsSystem.velocity e) as [v|]; [|reflexivity].
  destruct (PhysicsSystem._checkCollision Math_sqrt m obj); [|reflexivity].
  destruct (PhysicsSystem._calculateMinimumTranslationVector Math_sqrt m obj)
    as [mtv|]; [|reflexivity].
  cbv zeta.
  destruct (PhysicsSystem.bouncy _);
    (etransitivity;
     [|apply (set_mesh_position_onGround
                (addVectors (PhysicsSystem.position m) mtv))]);
    reflexivity.
Qed.

Lemma _handleStaticCollisions_onGround (store : list PhysicsSystem.Entity)
  (i : nat) (e : PhysicsSystem.Entity) :
  PhysicsSystem.onGround
    (PhysicsSystem._handleStaticCollisions Math_sqrt store i e)
    = PhysicsSystem.onGround e.
Proof.
  unfold PhysicsSystem._handleStaticCollisions.
  destruct (PhysicsSystem.mesh e) as [m|]; [|reflexivity].
  generalize (List.filter
                (fun obj => Qltb (distanceTo Math_sqrt (PhysicsSystem.position m)
                                             (PhysicsSystem.position obj)) 5)
                (PhysicsSystem.staticObjects store i)).
  intros objs. revert e.
  induction objs as [|obj objs IH]; intros e; [reflexivity|].
  cbn [fold_left]. rewrite IH. apply resolveStatic_onGround.
Qed.

Lemma processEntity_onGround (store : list PhysicsSystem.Entity)
  (log : list PhysicsSystem.Event) (i j : nat) :
  groundFlag (fst (PhysicsSystem.processEntity Math_sqrt sys dt (store, log) i)) j
    = groundFlag store j.
Proof.
  unfold PhysicsSystem.processEntity.
  destruct (store !! i) as [e|] eqn:Hi; [|reflexivity].
  pose proof (accelerated_keeps_onGround sys w dt e loaded) as Hg.
  destruct (PhysicsSystem.applyGravityStep sys dt e) as [e1 out].
  cbn [fst] in *. unfold groundFlag.
  destruct (decide (i = j)) as [->|Hne].
  - rewrite list_lookup_insert_eq by (eapply lookup_lt_Some; eauto).
    rewrite Hi. cbn. rewrite _handleStaticCollisions_onGround. exact Hg.
  - rewrite list_lookup_insert_ne by exact Hne. reflexivity.
Qed.

Lemma _processPhysicsBatch_onGround (batch : list nat) (j : nat) :
  forall (store : list PhysicsSystem.Entity) (log : list PhysicsSystem.Event),
    groundFlag
      (fst (PhysicsSystem._processPhysicsBatch Math_sqrt sys dt (store, log) batch))
      j = groundFlag store j.
Proof.
  unfold PhysicsSystem._processPhysicsBatch.
  induction batch as [|i batch IH]; intros store log; [reflexivity|].
  cbn [fold_left].
  pose proof (processEntity_onGround store log i j) as H1.
  destruct (PhysicsSystem.processEntity Math_sqrt sys dt (store, log) i)
    as [store1 log1].
  specialize (IH store1 log1).
  destruct (fold_left _ batch (store1, log1)) as [store2 log2].
  cbn [fst] in *. rewrite IH. exact H1.
Qed.

Lemma fold_batches_onGround (batches : list (list nat)) (j : nat) :
  forall (store : list PhysicsSystem.Entity) (log : list PhysicsSystem.Event),
    groundFlag
      (fst (fold_left (PhysicsSystem._processPhysicsBatch Math_sqrt sys dt)
                      batches (store, log)))
      j = groundFlag store j.
Proof.
  induction batches as [|batch batches IH]; intros store log; [reflexivity|].
  cbn [fold_left].
  pose proof (_processPhysicsBatch_onGround batch j store log) as H1.
  destruct (PhysicsSystem._processPhysicsBatch Math_sqrt sys dt (store, log) batch)
    as [store1 log1].
  cbn [fst] in *. rewrite IH. exact H1.
Qed.

(** With the interface loaded, no update writes any entity's [onGround]. *)
Lemma update_accelerated_onGround (store : list PhysicsSystem.Entity) :
  PhysicsSystem.gameEngine sys = Some store ->
  exists store' : list PhysicsSystem.Entity,
    PhysicsSystem.gameEngine (fst (PhysicsSystem.update Math_sqrt dt sys))
      = Some store' /\
    forall j : nat, groundFlag store' j = groundFlag store j.
Proof.
  intros Hs. unfold PhysicsSystem.update. rewrite Hs.
  pose proof (fun j => fold_batches_onGround
                (PhysicsSystem.batchesOf (PhysicsSystem.simulated store)) j
                store []) as H.
  destruct (fold_left _ _ (store, [])) as [store1 log1].
  cbn [fst] in *. exists store1. split; [reflexivity|exact H].
Qed.

End AcceleratedGround.

(** On the JavaScript path the world with the dropped entity reaches a fixed
    state after the first one-second tick. *)
Lemma software_drop_fixed (n : nat) :
  ticks (S n) 1 softwareWorld = ticks 1 1 softwareWorld.
Proof.
  induction n as [|n IH]; [reflexivity|].
  change (ticks (S (S n)) 1 softwareWorld)
    with (fst (PhysicsSystem.update sqrtQ 1 (ticks (S n) 1 softwareWorld))).
  rewrite IH. vm_compute. reflexivity.
Qed.

(** In that state the entity is at height 0 with no vertical velocity, and
    grounded: dropped from height 5, it is on the ground after every positive
    number of ticks. *)
Lemma software_drop_converges (n : nat) :
  (firstEntity (ticks (S n) 1 softwareWorld) ≫= heightOf) = Some 0 /\
  (firstEntity (ticks (S n) 1 softwareWorld) ≫= fallSpeedOf) = Some 0 /\
  (firstEntity (ticks (S n) 1 softwareWorld) ≫= PhysicsSystem.onGround)
    = Some true.
Proof.
  rewrite software_drop_fixed. repeat split; reflexivity.
Qed.

(** C7 (the code departs from the claim).  With the interface loaded, the
    entity dropped from height 5 reaches height 0 with no vertical velocity
    after one tick, and stays so, but it is never marked grounded: the flag
    keeps the value it had.  The JavaScript path marks it. *)
Theorem C7_accelerated_path_never_grounds :
  (firstEntity (ticks 1 1 acceleratedWorld) ≫= heightOf) = Some 0 /\
  (firstEntity (ticks 1 1 acceleratedWorld) ≫= fallSpeedOf) = Some 0 /\
  (firstEntity (ticks 1 1 acceleratedWorld) ≫= PhysicsSystem.onGround)
    = Some false /\
  (firstEntity (ticks 5 1 acceleratedWorld) ≫= PhysicsSystem.onGround)
    = Some false /\
  (firstEntity (ticks 1 1 softwareWorld) ≫= PhysicsSystem.onGround)
    = Some true.
Proof.
  vm_compute. repeat split; reflexivity.
Qed.

(** ** Physics: which pairs the dynamic pass tests *)

(** The pairs formed from a list are the pairs of its positions, in order. *)
Lemma pairsOf_In {A} (l : list A) (a b : A) :
  In (a, b) (PhysicsSystem.pairsOf l) <->
  exists p q : nat, (p < q)%nat /\ l !! p = Some a /\ l !! q = Some b.
Proof.
  induction l as [|x l IH]; simpl.
  - split; [tauto|]. intros (p & q & _ & H & _). discriminate.
  - rewrite in_app_iff, in_map_iff, IH. split.
    + intros [(y & E & Hy)|(p & q & Hpq & Hp & Hq)].
      * inversion E; subst. apply list_elem_of_In in Hy.
        apply list_elem_of_lookup in Hy as [q Hq].
        exists 0%nat, (S q). repeat split; [lia|exact Hq].
      * exists (S p), (S q). repeat split; [lia|exact Hp|exact Hq].
    + intros (p & q & Hpq & Hp & Hq).
      destruct q as [|q]; [lia|]. simpl in Hq.
      destruct p as [|p]; simpl in Hp.
      * left. exists b. inversion Hp; subst. split; [reflexivity|].
        apply list_elem_of_In. apply list_elem_of_lookup. eauto.
      * right. exists p, q. repeat split; [lia|exact Hp|exact Hq].
Qed.

(** [slice] reads the positions from [s] up to [e]. *)
Lemma slice_lookup {A} (l : list A) (s e p : nat) :
  PhysicsSystem.slice s e l !! p =
    if decide (p < e - s)%nat then l !! (s + p)%nat else None.
Proof.
  unfold PhysicsSystem.slice.
  case_decide as H.
  - rewrite lookup_take_lt by exact H. apply lookup_drop.
  - apply lookup_take_ge. lia.
Qed.

(** Batch [k] holds the positions [10 k .. 10 k + 9] that exist. *)
Lemma batchesOf_lookup {A} (l : list A) (k : nat) :
  PhysicsSystem.batchesOf l !! k =
    if decide (k * 10 < length l)%nat
    then Some (PhysicsSystem.slice (k * 10) (Nat.min ((k + 1) * 10) (length l)) l)
    else None.
Proof.
  unfold PhysicsSystem.batchesOf, PhysicsSystem.batchSize. cbv zeta.
  rewrite list_lookup_fmap.
  case_decide as H.
  - rewrite lookup_seq_lt; [reflexivity|].
    assert (k + 1 <= (length l + (10 - 1)) / 10)%nat; [|lia].
    apply Nat.div_le_lower_bound; lia.
  - rewrite lookup_seq_ge; [reflexivity|].
    assert ((length l + (10 - 1)) / 10 < k + 1)%nat; [|lia].
    apply Nat.Div0.div_lt_upper_bound. lia.
Qed.

(** Position [p] of the list lies in batch [p / 10], at offset [p mod 10]. *)
Lemma batch_member {A} (l : list A) (p : nat) (a : A) :
  l !! p = Some a ->
  exists batch, PhysicsSystem.batchesOf l !! (p / 10)%nat = Some batch /\
                batch !! (p mod 10)%nat = Some a.
Proof.
  intros Hp. apply lookup_lt_Some in Hp as Hlt.
  pose proof (Nat.div_mod_eq p 10) as Hdm.
  pose proof (Nat.mod_upper_bound p 10 ltac:(lia)) as Hmod.
  rewrite batchesOf_lookup. rewrite decide_True by lia.
  eexists. split; [reflexivity|].
  rewrite slice_lookup. rewrite decide_True by lia.
  rewrite <- Hp. f_equal. lia.
Qed.

(** Conversely, offset [p'] of batch [k] is position [10 k + p']. *)
Lemma batch_position {A} (l : list A) (k p' : nat) (batch : list A) (a : A) :
  PhysicsSystem.batchesOf l !! k = Some batch ->
  batch !! p' = Some a ->
  (p' < 10)%nat /\ l !! (k * 10 + p')%nat = Some a.
Proof.
  rewrite batchesOf_lookup. case_decide as Hk; [|discriminate].
  intros [= <-]. rewrite slice_lookup. case_decide as Hp; [|discriminate].
  intros H. split; [lia|exact H].
Qed.

(** The pairs formed inside the batches are the pairs of positions that fall
    in the same batch. *)
Lemma batched_pairs {A} (l : list A) (a b : A) :
  In (a, b) (flat_map PhysicsSystem.pairsOf (PhysicsSystem.batchesOf l)) <->
  exists p q : nat,
    (p < q)%nat /\ l !! p = Some a /\ l !! q = Some b /\
    (p / 10 = q / 10)%nat.
Proof.
  rewrite in_flat_map. split.
  - intros (batch & Hb & Hin).
    apply list_elem_of_In, list_elem_of_lookup in Hb as [k Hk].
    apply pairsOf_In in Hin as (p' & q' & Hlt & Hp & Hq).
    destruct (batch_position l k p' batch a Hk Hp) as [Hp10 Hpa].
    destruct (batch_position l k q' batch b Hk Hq) as [Hq10 Hqb].
    exists (k * 10 + p')%nat, (k * 10 + q')%nat.
    repeat split; [lia|exact Hpa|exact Hqb|].
    rewrite !(Nat.add_comm (k * 10)), !Nat.div_add by lia.
    rewrite !Nat.div_small by lia. reflexivity.
  - intros (p & q & Hlt & Hp & Hq & Hsame).
    destruct (batch_member l p a Hp) as (batch & Hk & Hpa).
    destruct (batch_member l q b Hq) as (batch' & Hk' & Hqb).
    rewrite <- Hsame, Hk in Hk'. inversion Hk'; subst batch'.
    exists batch. split.
    + apply list_elem_of_In, list_elem_of_lookup. eauto.
    + apply pairsOf_In. exists (p mod 10)%nat, (q mod 10)%nat.
      repeat split; [|exact Hpa|exact Hqb].
      pose proof (Nat.div_mod_eq p 10). pose proof (Nat.div_mod_eq q 10). lia.
Qed.

Section Batches.

Variable Math_sqrt : Q -> Q.
Variable sys : PhysicsSystem.PhysicsSystem.
Variable dt : Q.

(** Processing an entity never removes or adds a mesh, and prints at most
    console lines. *)
Lemma set_mesh_position_meshed (p : Vec3) (e : PhysicsSystem.Entity) :
  meshed (PhysicsSystem.set_mesh_position p e) = meshed e.
Proof.
  unfold meshed, PhysicsSystem.set_mesh_position.
  destruct (PhysicsSystem.mesh e) eqn:E; [reflexivity|]. rewrite E. reflexivity.
Qed.

Lemma resolveStatic_meshed (obj : PhysicsSystem.Mesh) (e : PhysicsSystem.Entity) :
  meshed (PhysicsSystem.resolveStatic Math_sqrt obj e) = meshed e.
Proof.
  unfold PhysicsSystem.resolveStatic.
  destruct (PhysicsSystem.mesh e) as [m|] eqn:Hm; [|reflexivity].
  destruct (PhysicsSystem.velocity e) as [v|]; [|reflexivity].
  destruct (PhysicsSystem._checkCollision Math_sqrt m obj); [|reflexivity].
  destruct (PhysicsSystem._calculateMinimumTranslationVector Math_sqrt m obj)
    as [mtv|]; [|reflexivity].
  cbv zeta.
  destruct (PhysicsSystem.bouncy _);
    (etransitivity; [|apply (set_mesh_position_meshed (addVectors (PhysicsSystem.position m) mtv))]);
    reflexivity.
Qed.

Lemma _handleStaticCollisions_meshed (store : list PhysicsSystem.Entity)
  (i : nat) (e : PhysicsSystem.Entity) :
  meshed (PhysicsSystem._handleStaticCollisions Math_sqrt store i e) = meshed e.
Proof.
  unfold PhysicsSystem._handleStaticCollisions.
  destruct (PhysicsSystem.mesh e) as [m|]; [|reflexivity].
  generalize (List.filter
                (fun obj => Qltb (distanceTo Math_sqrt (PhysicsSystem.position m)
                                             (PhysicsSystem.position obj)) 5)
                (PhysicsSystem.staticObjects store i)).
  intros objs. revert e.
  induction objs as [|obj objs IH]; intros e; [reflexivity|].
  simpl. rewrite IH. apply resolveStatic_meshed.
Qed.

Lemma applyGravityStep_meshed (e : PhysicsSystem.Entity) :
  meshed (fst (PhysicsSystem.applyGravityStep sys dt e)) = meshed e.
Proof.
  unfold PhysicsSystem.applyGravityStep.
  destruct (PhysicsSystem.mesh e) as [m|] eqn:Hm; [|reflexivity].
  destruct (PhysicsSystem.velocity e) as [v|]; [|reflexivity].
  destruct (PhysicsSystem.accelerated sys) as [w|].
  - destruct (WasmInterface.applyGravity w (PhysicsSystem.position m) v dt)
      as [[p v'] log].
    cbn [fst]. etransitivity; [|apply (set_mesh_position_meshed p)]. reflexivity.
  - cbv zeta.
    match goal with |- context [if ?c then _ else _] => destruct c end;
      cbn [fst];
      (etransitivity; [|eapply set_mesh_position_meshed]); reflexivity.
Qed.

Lemma applyGravityStep_log (e : PhysicsSystem.Entity) :
  checkedPairs (snd (PhysicsSystem.applyGravityStep sys dt e)) = [] /\
  callbacks (snd (PhysicsSystem.applyGravityStep sys dt e)) = [].
Proof.
  unfold PhysicsSystem.applyGravityStep.
  destruct (PhysicsSystem.mesh e) as [m|]; [|split; reflexivity].
  destruct (PhysicsSystem.velocity e) as [v|]; [|split; reflexivity].
  destruct (PhysicsSystem.accelerated sys) as [w|].
  - destruct (WasmInterface.applyGravity w (PhysicsSystem.position m) v dt)
      as [[p v'] log].
    cbn [snd]. induction log as [|x log [IH1 IH2]]; split; auto.
  - cbv zeta.
    match goal with |- context [if ?c then _ else _] => destruct c end;
      split; reflexivity.
Qed.

Lemma checkedPairs_app (l1 l2 : list PhysicsSystem.Event) :
  checkedPairs (l1 ++ l2) = checkedPairs l1 ++ checkedPairs l2.
Proof. apply flat_map_app. Qed.

Lemma processEntity_spec (store : list PhysicsSystem.Entity)
  (log : list PhysicsSystem.Event) (i : nat) :
  let r := PhysicsSystem.processEntity Math_sqrt sys dt (store, log) i in
  (forall j, hasMesh (fst r) j = hasMesh store j) /\
  checkedPairs (snd r) = checkedPairs log.
Proof.
  unfold PhysicsSystem.processEntity.
  destruct (store !! i) as [e|] eqn:Hi; [|split; auto].
  pose proof (applyGravityStep_meshed e) as Hg.
  pose proof (applyGravityStep_log e) as [Hl _].
  destruct (PhysicsSystem.applyGravityStep sys dt e) as [e1 out].
  cbn [fst snd] in *. split.
  - intros j. unfold hasMesh.
    destruct (decide (i = j)) as [->|Hne].
    + rewrite list_lookup_insert_eq by (eapply lookup_lt_Some; eauto).
      rewrite Hi, _handleStaticCollisions_meshed. exact Hg.
    + rewrite list_lookup_insert_ne by exact Hne. reflexivity.
  - rewrite checkedPairs_app, Hl. apply app_nil_r.
Qed.

Lemma fold_processEntity_spec (batch : list nat) :
  forall (store : list PhysicsSystem.Entity) (log : list PhysicsSystem.Event),
    let r := fold_left (PhysicsSystem.processEntity Math_sqrt sys dt) batch
                       (store, log) in
    (forall j, hasMesh (fst r) j = hasMesh store j) /\
    checkedPairs (snd r) = checkedPairs log.
Proof.
  induction batch as [|i batch IH]; intros store log; [split; auto|].
  cbn [fold_left].
  pose proof (processEntity_spec store log i) as [H1 H2].
  destruct (PhysicsSystem.processEntity Math_sqrt sys dt (store, log) i)
    as [store1 log1].
  cbn [fst snd] in *.
  destruct (IH store1 log1) as [H3 H4]. cbv zeta. split.
  - intros j. rewrite H3. apply H1.
  - rewrite H4. exact H2.
Qed.

Lemma checkPair_checked (store : list PhysicsSystem.Entity) (a b : nat) :
  hasMesh store a = true -> hasMesh store b = true ->
  checkedPairs (PhysicsSystem.checkPair Math_sqrt store (a, b)) = [(a, b)].
Proof.
  unfold hasMesh, meshed, PhysicsSystem.checkPair. intros Ha Hb.
  destruct (store !! a) as [ea|]; [|discriminate].
  destruct (store !! b) as [eb|]; [|discriminate].
  cbn. destruct (PhysicsSystem.mesh ea) as [ma|]; [|discriminate].
  destruct (PhysicsSystem.mesh eb) as [mb|]; [|discriminate].
  cbn. f_equal.
  destruct (PhysicsSystem._checkCollision Math_sqrt ma mb); [|reflexivity].
  unfold PhysicsSystem._resolveDynamicCollision.
  repeat match goal with |- context [if ?c then _ else _] => destruct c end;
    reflexivity.
Qed.

Lemma _handleDynamicCollisions_checked (store : list PhysicsSystem.Entity)
  (batch : list nat) :
  (forall i, In i batch -> hasMesh store i = true) ->
  checkedPairs (PhysicsSystem._handleDynamicCollisions Math_sqrt store batch)
    = PhysicsSystem.pairsOf batch.
Proof.
  intros Hm. unfold PhysicsSystem._handleDynamicCollisions.
  assert (Hp : forall a b, In (a, b) (PhysicsSystem.pairsOf batch) ->
                           hasMesh store a = true /\ hasMesh store b = true).
  { intros a b Hin. apply pairsOf_In in Hin as (p & q & _ & Hp & Hq).
    split; apply Hm; apply list_elem_of_In; eapply list_elem_of_lookup_2; eauto. }
  induction (PhysicsSystem.pairsOf batch) as [|[a b] ps IH]; [reflexivity|].
  cbn [flat_map]. rewrite checkedPairs_app.
  destruct (Hp a b (or_introl eq_refl)) as [Ha Hb].
  rewrite (checkPair_checked store a b Ha Hb). cbn [app]. f_equal.
  apply IH. intros a' b' Hin. apply Hp. right. exact Hin.
Qed.

Lemma _processPhysicsBatch_spec (store : list PhysicsSystem.Entity)
  (log : list PhysicsSystem.Event) (batch : list nat) :
  (forall i, In i batch -> hasMesh store i = true) ->
  let r := PhysicsSystem._processPhysicsBatch Math_sqrt sys dt (store, log) batch in
  (forall j, hasMesh (fst r) j = hasMesh store j) /\
  checkedPairs (snd r) = checkedPairs log ++ PhysicsSystem.pairsOf batch.
Proof.
  intros Hm. unfold PhysicsSystem._processPhysicsBatch.
  pose proof (fold_processEntity_spec batch store log) as [H1 H2].
  destruct (fold_left _ batch (store, log)) as [store1 log1].
  cbn [fst snd] in *. split; [exact H1|].
  rewrite checkedPairs_app, H2. f_equal.
  apply _handleDynamicCollisions_checked.
  intros i Hi. rewrite H1. apply Hm. exact Hi.
Qed.

Lemma fold_batches_spec (batches : list (list nat)) :
  forall (store : list PhysicsSystem.Entity) (log : list PhysicsSystem.Event),
    (forall batch i, In batch batches -> In i batch -> hasMesh store i = true) ->
    checkedPairs
      (snd (fold_left (PhysicsSystem._processPhysicsBatch Math_sqrt sys dt)
                      batches (store, log)))
      = checkedPairs log ++ flat_map PhysicsSystem.pairsOf batches.
Proof.
  induction batches as [|batch batches IH]; intros store log Hm.
  - simpl. symmetry. apply app_nil_r.
  - cbn [fold_left flat_map].
    pose proof (_processPhysicsBatch_spec store log batch
                  (fun i Hi => Hm batch i (or_introl eq_refl) Hi)) as [H1 H2].
    destruct (PhysicsSystem._processPhysicsBatch Math_sqrt sys dt (store, log) batch)
      as [store1 log1].
    cbn [fst snd] in *.
    rewrite IH.
    + rewrite H2, <- app_assoc. reflexivity.
    + intros b i Hb Hi. rewrite H1. apply (Hm b i); [right; exact Hb|exact Hi].
Qed.

End Batches.

Lemma simulated_hasMesh (store : list PhysicsSystem.Entity) (i : nat) :
  In i (PhysicsSystem.simulated store) -> hasMesh store i = true.
Proof.
  unfold PhysicsSystem.simulated. rewrite filter_In. intros [_ H].
  unfold hasMesh, meshed.
  destruct (store !! i) as [e|]; [|discriminate].
  destruct (PhysicsSystem.mesh e); [reflexivity|discriminate].
Qed.

Lemma batchesOf_members {A} (l : list A) (batch : list A) (a : A) :
  In batch (PhysicsSystem.batchesOf l) -> In a batch -> In a l.
Proof.
  intros Hb Ha.
  apply list_elem_of_In, list_elem_of_lookup in Hb as [k Hk].
  apply list_elem_of_In, list_elem_of_lookup in Ha as [p Hp].
  destruct (batch_position l k p batch a Hk Hp) as [_ H].
  apply list_elem_of_In. eapply list_elem_of_lookup_2; eauto.
Qed.

(** The overlap tests made by one update are the pairs formed inside the
    batches of the simulated entities, in batch order. *)
Lemma update_checkedPairs (Math_sqrt : Q -> Q) (dt : Q)
  (sys : PhysicsSystem.PhysicsSystem) (store : list PhysicsSystem.Entity) :
  PhysicsSystem.gameEngine sys = Some store ->
  checkedPairs (snd (PhysicsSystem.update Math_sqrt dt sys))
    = flat_map PhysicsSystem.pairsOf
               (PhysicsSystem.batchesOf (PhysicsSystem.simulated store)).
Proof.
  intros Hs. unfold PhysicsSystem.update. rewrite Hs.
  pose proof (fold_batches_spec Math_sqrt sys dt
                (PhysicsSystem.batchesOf (PhysicsSystem.simulated store))
                store []) as H.
  destruct (fold_left _ _ (store, [])) as [store1 log1].
  cbn [snd] in *. apply H.
  intros batch i Hb Hi. apply simulated_hasMesh.
  eapply batchesOf_members; eauto.
Qed.

(** A pair of simulated entities is tested for overlap exactly when both
    fall in the same batch of ten. *)
Lemma checked_iff_same_batch (Math_sqrt : Q -> Q) (dt : Q)
  (sys : PhysicsSystem.PhysicsSystem) (store : list PhysicsSystem.Entity)
  (a b : nat) :
  PhysicsSystem.gameEngine sys = Some store ->
  In (a, b) (checkedPairs (snd (PhysicsSystem.update Math_sqrt dt sys))) <->
  exists p q : nat,
    (p < q)%nat /\
    PhysicsSystem.simulated store !! p = Some a /\
    PhysicsSystem.simulated store !! q = Some b /\
    (p / 10 = q / 10)%nat.
Proof.
  intros Hs. rewrite (update_checkedPairs Math_sqrt dt sys store Hs).
  apply batched_pairs.
Qed.

(** ** Physics: dynamic collisions and batches *)

(** C5 (the code departs from the claim).  Eleven overlapping spheres are
    cut into a batch of ten and a batch of one, and the dynamic pass runs
    inside each batch.  Spheres 0 and 10 overlap, yet the pair is never
    handed to the overlap test and neither callback runs; a pair inside the
    first batch, such as 0 and 9, is tested once and each of its callbacks
    runs once. *)
Theorem C5_pairs_across_batches_unchecked :
  let sys' := fst (PhysicsSystem.update sqrtQ 1 elevenBalls) in
  let log := snd (PhysicsSystem.update sqrtQ 1 elevenBalls) in
  PhysicsSystem.simulated (repeat ball 11) = seq 0 11 /\
  overlapping elevenBalls 0 10 = true /\
  overlapping sys' 0 10 = true /\
  occurrences (0, 10)%nat (checkedPairs log) = 0%nat /\
  occurrences (0, 10)%nat (callbacks log) = 0%nat /\
  occurrences (10, 0)%nat (callbacks log) = 0%nat /\
  occurrences (0, 9)%nat (checkedPairs log) = 1%nat /\
  occurrences (0, 9)%nat (callbacks log) = 1%nat /\
  occurrences (9, 0)%nat (callbacks log) = 1%nat.
Proof.
  vm_compute. repeat split; reflexivity.
Qed.

(** ** AI: cooldown slots *)

Lemma get_set_value_eq (k : string) (v : Q) (c : BehaviorContext) :
  get_value k (set_value k v c) = v.
Proof.
  unfold get_value, set_value. simpl. rewrite lookup_insert_eq. reflexivity.
Qed.

Lemma get_set_value_ne (k k' : string) (v : Q) (c : BehaviorContext) :
  k <> k' -> get_value k' (set_value k v c) = get_value k' c.
Proof.
  intros H. unfold get_value, set_value. simpl.
  rewrite lookup_insert_ne by exact H. reflexivity.
Qed.

Lemma tickCooldown_same (dt : Q) (c : BehaviorContext) (i : nat) :
  get_value (AISystem.cooldownKey i) (AISystem.tickCooldown dt c i)
    = cooled dt (get_value (AISystem.cooldownKey i) c).
Proof.
  unfold AISystem.tickCooldown, cooled.
  destruct (Qltb 0 (get_value (AISystem.cooldownKey i) c)); [|reflexivity].
  apply get_set_value_eq.
Qed.

Lemma tickCooldown_other (dt : Q) (c : BehaviorContext) (i : nat) (k : string) :
  AISystem.cooldownKey i <> k ->
  get_value k (AISystem.tickCooldown dt c i) = get_value k c.
Proof.
  intros H. unfold AISystem.tickCooldown.
  destruct (Qltb 0 (get_value (AISystem.cooldownKey i) c)); [|reflexivity].
  apply get_set_value_ne. exact H.
Qed.

(** A loop over slots whose keys do not contain [k] leaves [k] alone. *)
Lemma fold_tickCooldown_other (dt : Q) (k : string) (slots : list nat) :
  forall c : BehaviorContext,
    ~ In k (map AISystem.cooldownKey slots) ->
    get_value k (fold_left (AISystem.tickCooldown dt) slots c) = get_value k c.
Proof.
  induction slots as [|j slots IH]; intros c Hk; [reflexivity|].
  simpl. rewrite IH.
  - apply tickCooldown_other. intros E. apply Hk. left. exact E.
  - intros Hin. apply Hk. right. exact Hin.
Qed.

(** A loop over slots with pairwise distinct keys steps each of them once. *)
Lemma fold_tickCooldown_same (dt : Q) (slots : list nat) :
  forall (c : BehaviorContext) (i : nat),
    List.NoDup (map AISystem.cooldownKey slots) ->
    In i slots ->
    get_value (AISystem.cooldownKey i)
              (fold_left (AISystem.tickCooldown dt) slots c)
      = cooled dt (get_value (AISystem.cooldownKey i) c).
Proof.
  induction slots as [|j slots IH]; intros c i Hnd Hin; [contradiction|].
  simpl in Hnd. inversion Hnd as [|? ? Hj Hnd']; subst.
  simpl. destruct Hin as [->|Hin].
  - rewrite fold_tickCooldown_other by exact Hj.
    apply tickCooldown_same.
  - rewrite (IH _ _ Hnd' Hin).
    rewrite tickCooldown_other; [reflexivity|].
    intros E. apply Hj. rewrite E. apply in_map. exact Hin.
Qed.

Lemma cooldownKeys_distinct :
  List.NoDup (map AISystem.cooldownKey (seq 1 10)).
Proof.
  cbv.
  repeat (constructor;
          [intros H; repeat (destruct H as [H|H]; [discriminate H|]); exact H|]).
  constructor.
Qed.

Lemma updateContext_slot (dt : Q) (c : BehaviorContext) (i : nat) :
  (1 <= i <= 10)%nat ->
  get_value (AISystem.cooldownKey i) (AISystem.updateContext dt c)
    = cooled dt (get_value (AISystem.cooldownKey i) c).
Proof.
  intros Hi. unfold AISystem.updateContext.
  apply fold_tickCooldown_same; [exact cooldownKeys_distinct|].
  apply in_seq. lia.
Qed.

(** C6 as stated fails: a slot holding 1 is left at -1 by a tick of 2. *)
Lemma C6_cooldown_goes_negative :
  exists c : BehaviorContext,
    AISystem.behaviorContexts (AISystem.update 2 coolingSystem) !! 7%Z = Some c /\
    get_value (AISystem.cooldownKey 1) c == -1 /\
    get_value (AISystem.cooldownKey 1) c < 0.
Proof.
  eexists. split; [vm_compute; reflexivity|].
  split; vm_compute; reflexivity.
Qed.

(** C6, amended.  In every tick with [dt > 0], for every context and every
    slot 1..10: a positive value is replaced by the value minus [dt], with no
    clamp, so the new value is at most the old one and at least [-dt], and
    may be negative; a value that is zero or negative is left as it is.  The
    two bounds are the non-strict ones: they are the ones that the rounded
    subtraction of the program keeps (a tiny positive remainder minus [dt]
    is stored as [-dt] itself, and a huge value minus [dt] as the value). *)
Theorem C6_cooldown_step (dt : Q) (sys : AISystem.AISystem) (id : Z)
  (c : BehaviorContext) (i : nat) :
  0 < dt ->
  AISystem.behaviorContexts sys !! id = Some c ->
  (1 <= i <= 10)%nat ->
  exists c' : BehaviorContext,
    AISystem.behaviorContexts (AISystem.update dt sys) !! id = Some c' /\
    let v := get_value (AISystem.cooldownKey i) c in
    let v' := get_value (AISystem.cooldownKey i) c' in
    (0 < v -> v' = v - dt /\ v' <= v /\ - dt <= v') /\
    (v <= 0 -> v' = v).
Proof.
  intros Hdt Hc Hi.
  exists (AISystem.updateContext dt c). split.
  - unfold AISystem.update. simpl. rewrite lookup_fmap, Hc. reflexivity.
  - cbv zeta. rewrite (updateContext_slot dt c i Hi). unfold cooled. split.
    + intros Hv. apply Qltb_lt in Hv as Hb. rewrite Hb.
      split; [reflexivity|]. split; lra.
    + intros Hv. apply Qltb_ge in Hv. rewrite Hv. reflexivity.
Qed.

(** The amended C6 on the slot holding 1, with a tick of 2. *)
Lemma C6_cooldown_step_witness :
  exists c' : BehaviorContext,
    AISystem.behaviorContexts (AISystem.update 2 coolingSystem) !! 7%Z = Some c' /\
    let v := get_value (AISystem.cooldownKey 1)
                       (set_value "cooldown_1" 1 emptyContext) in
    let v' := get_value (AISystem.cooldownKey 1) c' in
    (0 < v -> v' = v - 2 /\ v' <= v /\ - (2) <= v') /\
    (v <= 0 -> v' = v).
Proof.
  apply (C6_cooldown_step 2 coolingSystem 7%Z
           (set_value "cooldown_1" 1 emptyContext) 1%nat).
  - reflexivity.
  - vm_compute. reflexivity.
  - lia.
Defined.

(** ** AI: behaviour tree evaluation *)

(** With a compiled module present, an [evaluate] that throws on the context
    it is given is caught by the interface, which warns and answers the
    constant 0 (FAILURE); the context is as the failed call left it. *)
Lemma interface_contains_throw (w : WasmInterface.WasmInterface)
  (m : WasmInterface.WasmModule)
  (f : option BehaviorContext -> Completion Q * option BehaviorContext)
  (c : BehaviorContext) (err : string) (left : option BehaviorContext) :
  WasmInterface.wasmModule w = Some m ->
  f (Some c) = (Threw err, left) ->
  WasmInterface.evaluateBehaviorTree w (Some (WasmInterface.mkTree (Some f))) c
    = (Returned FAILURE, default c left,
       [Warn "Error evaluating behavior tree, using fallback:"]).
Proof.
  intros Hm Hf. unfold WasmInterface.evaluateBehaviorTree.
  rewrite Hm, Hf. destruct left; reflexivity.
Qed.

(** Line of sight returns a boolean as soon as the level is set. *)
Lemma hasLineOfSight_returns (Math_sqrt : Q -> Q) (sys : AISystem.AISystem)
  (a b : Vec3) :
  levelReady sys = true ->
  exists los : bool, AISystem.hasLineOfSight Math_sqrt sys a b = Returned los.
Proof.
  unfold levelReady, AISystem.hasLineOfSight. intros H.
  destruct (AISystem.gameEngine sys) as [g|]; [|eexists; reflexivity].
  destruct (AISystem.level g) as [lv|]; [eexists; reflexivity|discriminate].
Qed.

(** Without a loaded interface the caller gets the fixed record of the
    simple AI. *)
Lemma evaluateBehaviorTree_simple (Math_sqrt : Q -> Q)
  (sys : AISystem.AISystem) (id : Z) (position : Vec3)
  (targetPosition : option Vec3) (health maxHealth : Q) :
  AISystem.accelerated sys = None ->
  AISystem.evaluateBehaviorTree Math_sqrt sys id position targetPosition
                                health maxHealth
    = (Returned (AISystem.mkEvaluation SUCCESS 0 5), sys, []).
Proof.
  intros H. unfold AISystem.evaluateBehaviorTree. rewrite H. reflexivity.
Qed.

(** The software tree answers with one of the three result codes, whatever
    the draws of [Math.random] in [0, 1). *)
Lemma mockEvaluate_code (r_action r_param r_result : Q)
  (context : option BehaviorContext) :
  0 <= r_result -> r_result < 1 ->
  exists k : Z,
    (0 <= k <= 2)%Z /\
    fst (WasmInterface.mockEvaluate r_action r_param r_result context)
      = Returned (inject_Z k).
Proof.
  intros H0 H1. exists (Qfloor (r_result * 3)). split; [|reflexivity].
  split.
  - change 0%Z with (Qfloor 0). apply Qfloor_resp_le. lra.
  - assert (H : (Qfloor (r_result * 3) < 3)%Z); [|lia].
    rewrite Zlt_Qlt.
    apply Qle_lt_trans with (r_result * 3); [apply Qfloor_le|].
    change (inject_Z 3) with 3. lra.
Qed.

(** The catch belongs to the branch that has a compiled module: with the
    interface loaded but no module, an [evaluate] that throws reaches the
    caller. *)
Lemma evaluate_throw_escapes_without_module (Math_sqrt : Q -> Q)
  (sys : AISystem.AISystem) (w : WasmInterface.WasmInterface) (id : Z)
  (f : option BehaviorContext -> Completion Q * option BehaviorContext)
  (c : BehaviorContext) (position : Vec3) (health maxHealth : Q)
  (err : string) (x : option BehaviorContext) :
  AISystem.accelerated sys = Some w ->
  WasmInterface.wasmModule w = None ->
  AISystem.behaviorTrees sys !! id = Some (WasmInterface.mkTree (Some f)) ->
  AISystem.behaviorContexts sys !! id = Some c ->
  f None = (Threw err, x) ->
  fst (fst (AISystem.evaluateBehaviorTree Math_sqrt sys id position None
                                          health maxHealth))
    = Threw err.
Proof.
  intros Hacc Hm Ht Hc Hf.
  unfold AISystem.evaluateBehaviorTree. rewrite Hacc, Ht, Hc.
  unfold WasmInterface.evaluateBehaviorTree. rewrite Hm, Hf. reflexivity.
Qed.

(** Whenever the compiled tree throws on the context handed to it, the
    caller of [evaluateBehaviorTree] gets no exception and one warning; the
    result code is the constant FAILURE, and the action and the parameter
    are read from the context as the failed call left it.  Nothing is
    evaluated in place of the failed call. *)
Lemma evaluate_throw_gives_failure (Math_sqrt : Q -> Q)
  (sys : AISystem.AISystem) (w : WasmInterface.WasmInterface)
  (m : WasmInterface.WasmModule) (id : Z)
  (f : option BehaviorContext -> Completion Q * option BehaviorContext)
  (c : BehaviorContext) (position : Vec3) (targetPosition : option Vec3)
  (health maxHealth : Q) (visible : bool) (err : string)
  (left : option BehaviorContext) :
  AISystem.accelerated sys = Some w ->
  WasmInterface.wasmModule w = Some m ->
  AISystem.behaviorTrees sys !! id = Some (WasmInterface.mkTree (Some f)) ->
  AISystem.behaviorContexts sys !! id = Some c ->
  targetSeen Math_sqrt sys position targetPosition = Returned visible ->
  let handed := handedContext position targetPosition health maxHealth
                              visible c in
  f (Some handed) = (Threw err, left) ->
  AISystem.evaluateBehaviorTree Math_sqrt sys id position targetPosition
                                health maxHealth
    = (Returned (AISystem.mkEvaluation FAILURE
                   (get_value "action" (default handed left))
                   (get_value "action_parameter" (default handed left))),
       AISystem.storeContext id (default handed left) sys,
       [Warn "Error evaluating behavior tree, using fallback:"]).
Proof.
  intros Hacc Hm Ht Hc Hseen handed Hf.
  unfold AISystem.evaluateBehaviorTree. rewrite Hacc, Ht, Hc.
  unfold targetSeen in Hseen. rewrite Hseen.
  fold (handedContext position targetPosition health maxHealth visible c).
  fold handed.
  rewrite (interface_contains_throw w m f handed err left Hm Hf).
  reflexivity.
Qed.



(** ** AI: paths from a point to itself *)

(** [normalize] never divides by zero. *)
Lemma normDivisor_nonzero (Math_sqrt : Q -> Q) (v : Vec3) :
  ~ normDivisor Math_sqrt v == 0.
Proof.
  unfold normDivisor. cbv zeta.
  destruct (Qeq_bool (vlength Math_sqrt v) 0) eqn:E.
  - discriminate.
  - apply Qeq_bool_neq. exact E.
Qed.

Lemma midpoint_same (P : Vec3) : Veq (midpoint P P) (mkVec3 (vx P) 1 (vz P)).
Proof.
  unfold Veq, midpoint. simpl. repeat split; try reflexivity; field.
Qed.

(** C9 as stated fails.  A system that has no engine attached (nor a loaded
    interface) answers [findPath(P, P)] at the origin with two waypoints; so
    does a system with the fallback interface loaded for a point outside the
    grid of the path finder. *)
Lemma C9_same_point_two_waypoints :
  fst (AISystem.findPath sqrtQ AISystem.constructor zeroVec zeroVec)
    = Returned [midpoint zeroVec zeroVec; zeroVec] /\
  fst (AISystem.findPath sqrtQ AISystem.constructor zeroVec zeroVec)
    <> Returned [zeroVec] /\
  fst (AISystem.findPath sqrtQ
         (AISystem.mkAI None (Some fallbackInterface) ∅ ∅)
         (mkVec3 60 0 0) (mkVec3 60 0 0))
    = Returned [midpoint (mkVec3 60 0 0) (mkVec3 60 0 0); mkVec3 60 0 0].
Proof.
  split; [reflexivity|]. split; [|reflexivity].
  vm_compute. discriminate.
Qed.

(** C9, amended.  When the engine, if attached, has its level set,
    [findPath(P, P)] raises nothing, and normalising the zero direction
    divides by a non-zero number.  The answer is [[P]] when the accelerated
    existence check reports a path or the line-of-sight test from [P] to [P]
    succeeds; otherwise (no engine attached, or the ray cast reports a hit)
    it is the two waypoints [[(P.x, 1, P.z), P]]. *)
Theorem C9_findPath_same_point (Math_sqrt : Q -> Q) (sys : AISystem.AISystem)
  (P : Vec3) :
  levelReady sys = true ->
  exists (los : bool) (log : list Console),
    AISystem.hasLineOfSight Math_sqrt sys P P = Returned los /\
    (AISystem.gameEngine sys = None -> los = false) /\
    AISystem.findPath Math_sqrt sys P P
      = (Returned (if pathExists sys P || los then [P]
                   else [midpoint P P; P]), log) /\
    Veq (midpoint P P) (mkVec3 (vx P) 1 (vz P)) /\
    ~ normDivisor Math_sqrt (subVectors P P) == 0.
Proof.
  intros Hlv.
  destruct (hasLineOfSight_returns Math_sqrt sys P P Hlv) as [los Hlos].
  exists los.
  unfold AISystem.findPath, pathExists. rewrite Hlos.
  destruct (AISystem.accelerated sys) as [w|].
  - destruct (WasmInterface.findPath w _ _ _ _) as [b log].
    exists log. split; [reflexivity|]. split.
    + intros Hg. unfold AISystem.hasLineOfSight in Hlos. rewrite Hg in Hlos.
      congruence.
    + split; [|split; [apply midpoint_same|apply normDivisor_nonzero]].
      cbn [fst]. destruct b; [reflexivity|]. destruct los; reflexivity.
  - exists []. split; [reflexivity|]. split.
    + intros Hg. unfold AISystem.hasLineOfSight in Hlos. rewrite Hg in Hlos.
      congruence.
    + split; [|split; [apply midpoint_same|apply normDivisor_nonzero]].
      destruct los; reflexivity.
Qed.

(** The amended C9 at the point (1, 2, 3) of a level without geometry. *)
Lemma C9_witness :
  exists (los : bool) (log : list Console),
    AISystem.hasLineOfSight sqrtQ brokenSystem (mkVec3 1 2 3) (mkVec3 1 2 3)
      = Returned los /\
    (AISystem.gameEngine brokenSystem = None -> los = false) /\
    AISystem.findPath sqrtQ brokenSystem (mkVec3 1 2 3) (mkVec3 1 2 3)
      = (Returned (if pathExists brokenSystem (mkVec3 1 2 3) || los
                   then [mkVec3 1 2 3]
                   else [midpoint (mkVec3 1 2 3) (mkVec3 1 2 3); mkVec3 1 2 3]),
         log) /\
    Veq (midpoint (mkVec3 1 2 3) (mkVec3 1 2 3))
        (mkVec3 (vx (mkVec3 1 2 3)) 1 (vz (mkVec3 1 2 3))) /\
    ~ normDivisor sqrtQ (subVectors (mkVec3 1 2 3) (mkVec3 1 2 3)) == 0.
Proof.
  apply (C9_findPath_same_point sqrtQ brokenSystem (mkVec3 1 2 3)).
  reflexivity.
Defined.

(** * Further properties of the code *)

(** ** Enemy: construction, damage, ticks *)

Lemma EnemyTypes_None (name : string) :
  Enemy.EnemyTypes name = None ->
  String.eqb name "GRUNT" = false /\ String.eqb name "SNIPER" = false /\
  String.eqb name "TANK" = false /\ String.eqb name "SCOUT" = false /\
  String.eqb name "BOSS" = false.
Proof.
  unfold Enemy.EnemyTypes.
  destruct (String.eqb name "GRUNT"); [discriminate|].
  destruct (String.eqb name "SNIPER"); [discriminate|].
  destruct (String.eqb name "TANK"); [discriminate|].
  destruct (String.eqb name "SCOUT"); [discriminate|].
  destruct (String.eqb name "BOSS"); [discriminate|].
  tauto.
Qed.

(** X1.  A type name that is not a key of the type table (and not a name
    that every object inherits) gives an enemy with the statistics of the
    grunt: 100 health of 100, the grunt's combat statistics, 50 base points,
    idle, alive and unaware. *)
Theorem X1_unknown_type_is_a_grunt (name : string) :
  Enemy.EnemyTypes name = None ->
  inheritedKey name = false ->
  let e := Enemy.new (Enemy.TString name) in
  Enemy.enemyType e = Enemy.GRUNT /\
  Enemy.health e = 100 /\ Enemy.maxHealth e = 100 /\
  Enemy.stats e = Enemy.stats (Enemy.new (Enemy.TString "GRUNT")) /\
  Enemy.pointValue e = 50 /\
  Enemy.state e = "idle"%string /\
  Enemy.isAlive e = true /\ Enemy.isAware e = false.
Proof.
  intros Hn _. destruct (EnemyTypes_None name Hn) as (H1 & H2 & H3 & H4 & H5).
  unfold Enemy.new, Enemy.constructor, Enemy.configureEnemyType,
    Enemy.resolveType, Enemy.calculatePointValue.
  rewrite Hn. cbn. rewrite H1, H2, H3, H4, H5.
  repeat split; reflexivity.
Qed.

(** X1 on the type name "ZOMBIE". *)
Lemma X1_witness :
  let e := Enemy.new (Enemy.TString "ZOMBIE") in
  Enemy.enemyType e = Enemy.GRUNT /\
  Enemy.health e = 100 /\ Enemy.maxHealth e = 100 /\
  Enemy.stats e = Enemy.stats (Enemy.new (Enemy.TString "GRUNT")) /\
  Enemy.pointValue e = 50 /\
  Enemy.state e = "idle"%string /\
  Enemy.isAlive e = true /\ Enemy.isAware e = false.
Proof.
  apply (X1_unknown_type_is_a_grunt "ZOMBIE"); reflexivity.
Defined.

(** X2.  A hit that an unaware enemy survives, from a source that has a
    mesh, makes the enemy aware, sets its target to the source, moves it to
    state [chase] and records the source's position; health drops by the
    amount and nothing is sent to the collaborators. *)
Theorem X2_hit_from_source_alerts (amount : Q) (s : Enemy.Source) (p : Vec3)
  (e : Enemy.Enemy) :
  Enemy.isAware e = false ->
  Enemy.src_mesh s = Some p ->
  0 < Enemy.health e - amount ->
  let o := Enemy.takeDamage amount (Some s) e in
  Enemy.completion o = Returned tt /\
  Enemy.effects o = [] /\
  Enemy.health (Enemy.enemy o) = Enemy.health e - amount /\
  Enemy.isAware (Enemy.enemy o) = true /\
  Enemy.state (Enemy.enemy o) = "chase"%string /\
  Enemy.target (Enemy.enemy o) = Some s /\
  Enemy.lastKnownTargetPosition (Enemy.enemy o) = p /\
  Enemy.isAlive (Enemy.enemy o) = Enemy.isAlive e.
Proof.
  intros Ha Hm Hpos. unfold Enemy.takeDamage. cbn. rewrite Ha, Hm. cbn.
  unfold Enemy.checkDead. cbn.
  assert (E : Qle_bool (Enemy.health e - amount) 0 = false)
    by (apply Qle_bool_gt; exact Hpos).
  rewrite E. cbn. repeat split; reflexivity.
Qed.

(** X2 on a fresh grunt hit for 30 by the player. *)
Lemma X2_witness :
  let o := Enemy.takeDamage 30 (Some thePlayer) grunt in
  Enemy.completion o = Returned tt /\
  Enemy.effects o = [] /\
  Enemy.health (Enemy.enemy o) = Enemy.health grunt - 30 /\
  Enemy.isAware (Enemy.enemy o) = true /\
  Enemy.state (Enemy.enemy o) = "chase"%string /\
  Enemy.target (Enemy.enemy o) = Some thePlayer /\
  Enemy.lastKnownTargetPosition (Enemy.enemy o) = mkVec3 3 0 4 /\
  Enemy.isAlive (Enemy.enemy o) = Enemy.isAlive grunt.
Proof.
  apply (X2_hit_from_source_alerts 30 thePlayer (mkVec3 3 0 4) grunt);
    reflexivity.
Defined.

Lemma update_isAware (dt : Q) (e : Enemy.Enemy) :
  Enemy.isAware (Enemy.update dt e) = Enemy.isAware e.
Proof.
  unfold Enemy.update.
  destruct (Enemy.isAlive e); cbn [negb]; cbv beta iota zeta; [|reflexivity].
  match goal with
  | |- context [existsb ?f ?l] => destruct (existsb f l)
  end; reflexivity.
Qed.

Lemma checkDead_isAware (source : option Enemy.Source) (e : Enemy.Enemy) :
  Enemy.isAware (Enemy.enemy (Enemy.checkDead source e)) = Enemy.isAware e.
Proof.
  unfold Enemy.checkDead, Enemy.die.
  destruct (Qle_bool (Enemy.health e) 0); [|reflexivity].
  destruct source as [s|]; [destruct (Enemy.isPlayer s)|]; reflexivity.
Qed.

Lemma takeDamage_isAware (amount : Q) (source : option Enemy.Source)
  (e : Enemy.Enemy) :
  Enemy.isAware e = true ->
  Enemy.isAware (Enemy.enemy (Enemy.takeDamage amount source e)) = true.
Proof.
  intros Ha. unfold Enemy.takeDamage.
  set (e1 := Enemy.set_health (Enemy.health e - amount) e).
  assert (H1 : Enemy.isAware e1 = true) by exact Ha.
  destruct source as [s|].
  - rewrite H1. cbn [negb]. rewrite checkDead_isAware. exact H1.
  - rewrite checkDead_isAware. exact H1.
Qed.

(** X3.  Awareness never reverts: once an enemy is aware, it is still aware
    after any history of ticks and hits, lethal or not, with or without a
    source. *)
Theorem X3_awareness_never_reverts (cs : list Enemy.Call) (e : Enemy.Enemy) :
  Enemy.isAware e = true ->
  Enemy.isAware (fst (Enemy.run cs e)) = true.
Proof.
  revert e. induction cs as [|c cs IH]; intros e Ha; [exact Ha|].
  simpl.
  destruct (Enemy.step c e) as [e1 fx1] eqn:Hs.
  specialize (IH e1).
  destruct (Enemy.run cs e1) as [e2 fx2]. simpl in *.
  apply IH.
  destruct c as [dt|amount source]; simpl in Hs; inversion Hs; subst.
  - rewrite update_isAware. exact Ha.
  - apply takeDamage_isAware. exact Ha.
Qed.

(** X3 on the grunt alerted by a first hit, then ticked, hit without a
    source and killed. *)
Lemma X3_witness :
  Enemy.isAware
    (fst (Enemy.run [Enemy.Tick 1; Enemy.Damage 10 None;
                     Enemy.Damage 500 (Some thePlayer); Enemy.Tick 1]
            (Enemy.enemy (Enemy.takeDamage 30 (Some thePlayer) grunt))))
  = true.
Proof.
  apply (X3_awareness_never_reverts
           [Enemy.Tick 1; Enemy.Damage 10 None;
            Enemy.Damage 500 (Some thePlayer); Enemy.Tick 1]
           (Enemy.enemy (Enemy.takeDamage 30 (Some thePlayer) grunt))).
  reflexivity.
Defined.

Lemma die_deadForGood (source : option Enemy.Source) (e : Enemy.Enemy) :
  Enemy.health e <= 0 -> deadForGood (fst (Enemy.die source e)).
Proof.
  intros H. destruct (die_state source e) as (Ha & Hs & _).
  destruct (die_health source e) as [Hh _].
  unfold deadForGood. rewrite Ha, Hs, Hh. auto.
Qed.

Lemma checkDead_deadForGood (source : option Enemy.Source) (e : Enemy.Enemy) :
  Enemy.health e <= 0 ->
  deadForGood (Enemy.enemy (Enemy.checkDead source e)).
Proof.
  intros H. unfold Enemy.checkDead.
  assert (E : Qle_bool (Enemy.health e) 0 = true) by (apply Qle_bool_iff; exact H).
  rewrite E.
  pose proof (die_deadForGood source e H) as Hd.
  destruct (Enemy.die source e) as [e' fx]. exact Hd.
Qed.

Lemma step_deadForGood (c : Enemy.Call) (e : Enemy.Enemy) :
  tame c -> deadForGood e -> deadForGood (fst (Enemy.step c e)).
Proof.
  intros Hc (Ha & Hs & Hh). destruct c as [dt|amount source]; simpl.
  - unfold Enemy.update. rewrite Ha. simpl. unfold deadForGood. auto.
  - unfold Enemy.takeDamage.
    set (e1 := Enemy.set_health (Enemy.health e - amount) e).
    destruct source as [s|]; simpl in Hc.
    + destruct Hc as [Hamt Hmesh].
      destruct (negb (Enemy.isAware e1)).
      * destruct (Enemy.src_mesh s) as [p|]; [|congruence].
        apply checkDead_deadForGood. simpl. lra.
      * apply checkDead_deadForGood. simpl. lra.
    + apply checkDead_deadForGood. simpl. lra.
Qed.

(** X4.  Death is final under ticks and ordinary hits: an enemy that is not
    alive, in state [dead] and with health at or below zero stays so through
    any history of ticks and of hits of non-negative amount whose source, if
    there is one, has a mesh. *)
Theorem X4_dead_stays_dead (cs : list Enemy.Call) (e : Enemy.Enemy) :
  Forall tame cs ->
  deadForGood e ->
  deadForGood (fst (Enemy.run cs e)).
Proof.
  revert e. induction cs as [|c cs IH]; intros e Hcs Hd; [exact Hd|].
  inversion Hcs as [|? ? Hc Hcs']; subst.
  simpl.
  pose proof (step_deadForGood c e Hc Hd) as H1.
  destruct (Enemy.step c e) as [e1 fx1].
  specialize (IH e1 Hcs' H1).
  destruct (Enemy.run cs e1) as [e2 fx2]. exact IH.
Qed.

(** X4 on the killed grunt: two ticks around two further hits. *)
Lemma X4_witness :
  deadForGood
    (fst (Enemy.run [Enemy.Tick 1; Enemy.Damage 5 None;
                     Enemy.Damage 7 (Some thePlayer); Enemy.Tick 2] deadGrunt)).
Proof.
  apply (X4_dead_stays_dead
           [Enemy.Tick 1; Enemy.Damage 5 None;
            Enemy.Damage 7 (Some thePlayer); Enemy.Tick 2] deadGrunt).
  - repeat constructor; simpl; try discriminate.
  - repeat split; vm_compute; congruence.
Defined.

(** X5.  For a non-negative base value the point value of a kill lies
    between the base value and one and a half times the base value, both
    rounded down: the bonuses never subtract and never exceed 50%. *)
Theorem X5_point_value_bounds (e : Enemy.Enemy) :
  0 <= Enemy.pointValue e ->
  (Qfloor (Enemy.pointValue e) <= Enemy.getPointValue e)%Z /\
  (Enemy.getPointValue e <= Qfloor (Enemy.pointValue e * 1.5))%Z.
Proof.
  intros H. unfold Enemy.getPointValue. cbv zeta.
  destruct (Enemy.isAware e);
    destruct (Qltb (Enemy.maxHealth e * 0.9) (Enemy.health e));
    split; apply Qfloor_resp_le; lra.
Qed.

(** X5 on the boss. *)
Lemma X5_witness :
  (Qfloor (Enemy.pointValue boss) <= Enemy.getPointValue boss)%Z /\
  (Enemy.getPointValue boss <= Qfloor (Enemy.pointValue boss * 1.5))%Z.
Proof.
  apply (X5_point_value_bounds boss). vm_compute. discriminate.
Defined.

Lemma existsb_eqb_In (s : string) (l : list string) :
  existsb (String.eqb s) l = true <-> In s l.
Proof.
  rewrite existsb_exists. split.
  - intros (x & Hin & E). apply String.eqb_eq in E. subst. exact Hin.
  - intros Hin. exists s. split; [exact Hin|apply String.eqb_refl].
Qed.

(** X6.  After a tick of a live enemy the state is one of the seven states
    of a live controller: a state among them is kept, any other string is
    replaced by [idle]. *)
Theorem X6_tick_normalises_state (dt : Q) (e : Enemy.Enemy) :
  Enemy.isAlive e = true ->
  In (Enemy.state (Enemy.update dt e)) liveStates /\
  Enemy.state (Enemy.update dt e)
    = (if existsb (String.eqb (Enemy.state e)) liveStates
       then Enemy.state e else "idle"%string).
Proof.
  intros Ha. unfold Enemy.update. rewrite Ha. cbn [negb]. cbv beta iota zeta.
  change (Enemy.state (Enemy.set_stateTime (Enemy.stateTime e + dt) e))
    with (Enemy.state e).
  fold liveStates.
  destruct (existsb (String.eqb (Enemy.state e)) liveStates) eqn:E;
    cbn [Enemy.state Enemy.set_velocity Enemy.set_position Enemy.set_state
         Enemy.set_stateTime].
  - split; [|reflexivity]. apply existsb_eqb_In. exact E.
  - split; [|reflexivity]. left. reflexivity.
Qed.

(** X6 on a live grunt whose state was overwritten with "stunned". *)
Lemma X6_witness :
  In (Enemy.state (Enemy.update 1 confusedGrunt)) liveStates /\
  Enemy.state (Enemy.update 1 confusedGrunt)
    = (if existsb (String.eqb (Enemy.state confusedGrunt)) liveStates
       then Enemy.state confusedGrunt else "idle"%string).
Proof.
  apply (X6_tick_normalises_state 1 confusedGrunt). reflexivity.
Defined.

Lemma snap_abs (x : Q) : Qabs (Enemy.snap x) <= Qabs x.
Proof.
  unfold Enemy.snap. destruct (Qltb (Qabs x) 0.01).
  - apply Qabs_nonneg.
  - apply Qle_refl.
Qed.

Lemma snap_small (x : Q) : Qabs x < 0.01 -> Enemy.snap x = 0.
Proof.
  intros H. unfold Enemy.snap. apply Qltb_lt in H. rewrite H. reflexivity.
Qed.

(** X7.  A tick of a live enemy applies friction to the horizontal velocity
    only: each horizontal component shrinks to at most nine tenths of its
    size and is exactly zero once that is below 0.01; the vertical velocity
    and the height are not touched. *)
Theorem X7_tick_friction (dt : Q) (e : Enemy.Enemy) :
  Enemy.isAlive e = true ->
  let v := Enemy.velocity e in
  let v' := Enemy.velocity (Enemy.update dt e) in
  Qabs (vx v') <= 0.9 * Qabs (vx v) /\
  Qabs (vz v') <= 0.9 * Qabs (vz v) /\
  (0.9 * Qabs (vx v) < 0.01 -> vx v' = 0) /\
  (0.9 * Qabs (vz v) < 0.01 -> vz v' = 0) /\
  vy v' = vy v /\
  vy (Enemy.position (Enemy.update dt e)) = vy (Enemy.position e).
Proof.
  intros Ha. unfold Enemy.update. rewrite Ha. cbn [negb]. cbv beta iota zeta.
  assert (Hx : Qabs (vx (Enemy.velocity e) * 0.9)
               == 0.9 * Qabs (vx (Enemy.velocity e))).
  { rewrite Qabs_Qmult. change (Qabs 0.9) with 0.9. ring. }
  assert (Hz : Qabs (vz (Enemy.velocity e) * 0.9)
               == 0.9 * Qabs (vz (Enemy.velocity e))).
  { rewrite Qabs_Qmult. change (Qabs 0.9) with 0.9. ring. }
  match goal with
  | |- context [existsb ?f ?l] => destruct (existsb f l)
  end; cbn; repeat split; try reflexivity.
  all: try (rewrite <- Hx; apply snap_abs).
  all: try (rewrite <- Hz; apply snap_abs).
  all: try (intros H; apply snap_small; rewrite Hx; exact H).
  all: try (intros H; apply snap_small; rewrite Hz; exact H).
Qed.

(** X7 on the grunt sliding with velocity (1, 0, 0.005). *)
Lemma X7_witness :
  let v := Enemy.velocity confusedGrunt in
  let v' := Enemy.velocity (Enemy.update 1 confusedGrunt) in
  Qabs (vx v') <= 0.9 * Qabs (vx v) /\
  Qabs (vz v') <= 0.9 * Qabs (vz v) /\
  (0.9 * Qabs (vx v) < 0.01 -> vx v' = 0) /\
  (0.9 * Qabs (vz v) < 0.01 -> vz v' = 0) /\
  vy v' = vy v /\
  vy (Enemy.position (Enemy.update 1 confusedGrunt))
    = vy (Enemy.position confusedGrunt).
Proof.
  apply (X7_tick_friction 1 confusedGrunt). reflexivity.
Defined.

(** ** Enemy types and the enemy manager *)

(** X8.  Looking a type up by id inverts the [id] field: every entry of the
    table is found under its own id, the ids 0 to 4 are the positions of the
    table, and any other id finds nothing. *)
Theorem X8_getEnemyTypeById_inverts_ids :
  Forall (fun t => Enemy.getEnemyTypeById (Enemy.cfg_id t) = Some t)
         Enemy.typeValues /\
  forall id : Z,
    Enemy.getEnemyTypeById id =
      (if ((0 <=? id) && (id <=? 4))%Z
       then nth_error Enemy.typeValues (Z.to_nat id) else None).
Proof.
  split.
  - repeat constructor.
  - intros id. destruct id as [|p|p]; [reflexivity| |reflexivity].
    destruct p as [[[p|p|]|[p|p|]|]|[[p|p|]|[p|p|]|]|]; reflexivity.
Qed.

(** A draw in [0, 1) scaled by a positive length and rounded down is an
    index of the array. *)
Lemma floor_index (r : Q) (n : nat) :
  0 <= r -> r < 1 -> (0 < n)%nat ->
  (0 <= Qfloor (r * inject_Z (Z.of_nat n)) < Z.of_nat n)%Z.
Proof.
  intros H0 H1 Hn.
  assert (HN : 0 < inject_Z (Z.of_nat n)).
  { change 0 with (inject_Z 0). rewrite <- Zlt_Qlt. lia. }
  split.
  - change 0%Z with (Qfloor 0). apply Qfloor_resp_le.
    apply Qmult_le_0_compat; [exact H0|apply Qlt_le_weak; exact HN].
  - rewrite Zlt_Qlt.
    apply Qle_lt_trans with (r * inject_Z (Z.of_nat n)); [apply Qfloor_le|].
    rewrite <- (Qmult_1_l (inject_Z (Z.of_nat n))) at 2.
    apply Qmult_lt_compat_r; assumption.
Qed.

Lemma index_lookup {A} (l : list A) (k : Z) :
  (0 <= k < Z.of_nat (length l))%Z ->
  exists x : A, (if (k <? 0)%Z then None else nth_error l (Z.to_nat k)) = Some x
                /\ In x l.
Proof.
  intros Hk. assert (E : (k <? 0)%Z = false) by (apply Z.ltb_ge; lia).
  rewrite E.
  destruct (nth_error l (Z.to_nat k)) as [x|] eqn:Hx.
  - exists x. split; [reflexivity|]. eapply nth_error_In; eauto.
  - apply nth_error_None in Hx. lia.
Qed.

Lemma random_type_some (random : Q) :
  0 <= random -> random < 1 ->
  exists t : Enemy.EnemyTypeConfig,
    Enemy.getRandomEnemyType random = Some t /\
    In t Enemy.typeValues /\ Enemy.cfg_id t <> 4%Z.
Proof.
  intros H0 H1. unfold Enemy.getRandomEnemyType. cbv zeta.
  set (types := List.filter _ Enemy.typeValues).
  destruct (index_lookup types _ (floor_index random (length types) H0 H1
                                    ltac:(cbn; lia))) as (t & -> & Hin).
  exists t. split; [reflexivity|].
  subst types. apply filter_In in Hin as [Hin Hid].
  split; [exact Hin|].
  apply negb_true_iff, Z.eqb_neq in Hid. exact Hid.
Qed.

(** X9.  For every draw of [Math.random], that is every number in [0, 1),
    the random type is an entry of the table and never the boss. *)
Theorem X9_random_type_never_boss (random : Q) :
  0 <= random -> random < 1 ->
  exists t : Enemy.EnemyTypeConfig,
    Enemy.getRandomEnemyType random = Some t /\
    In t Enemy.typeValues /\ Enemy.cfg_id t <> 4%Z.
Proof. exact (random_type_some random). Qed.

(** X9 on the draw 0.99. *)
Lemma X9_witness :
  exists t : Enemy.EnemyTypeConfig,
    Enemy.getRandomEnemyType 0.99 = Some t /\
    In t Enemy.typeValues /\ Enemy.cfg_id t <> 4%Z.
Proof.
  apply (X9_random_type_never_boss 0.99).
  - vm_compute. discriminate.
  - vm_compute. reflexivity.
Defined.

Lemma pickSpawnPoint_some (r : Q) (m : EnemyManager.EnemyManager) :
  0 <= r -> r < 1 -> EnemyManager.spawnPoints m <> [] ->
  exists p : Vec3, EnemyManager.pickSpawnPoint r m = Some p /\
                   In p (EnemyManager.spawnPoints m).
Proof.
  intros H0 H1 Hne. unfold EnemyManager.pickSpawnPoint. cbv zeta.
  apply index_lookup. apply floor_index; [exact H0|exact H1|].
  destruct (EnemyManager.spawnPoints m); [congruence|cbn; lia].
Qed.

(** An enemy built from a number has the grunt's configuration, at the
    difficulty asked for. *)
Lemma spawn_from_number (pos : Vec3) (n : Z) (d : Q) (g : Enemy.GameEngine) :
  let e := Enemy.spawnEnemyOfType pos (Enemy.TNumber n) d g in
  Enemy.enemyType e = Enemy.GRUNT /\
  Enemy.health e = 100 * d /\ Enemy.maxHealth e = 100 * d /\
  Enemy.position e = pos /\
  Enemy.pointValue (Enemy.calculatePointValue e) = 50.
Proof. repeat split; reflexivity. Qed.

(** X10.  Whatever type is drawn, [spawnEnemy] adds an enemy with the
    grunt's configuration: the constructor is given the numeric id of the
    type, which it does not recognise.  With an engine attached and spawn
    points present, the call returns that enemy, placed on a spawn point,
    with health and maxHealth both 100 times the difficulty and a base
    value of 50 points, and appends it to the manager's list. *)
Theorem X10_spawnEnemy_always_grunt (r_point r_type : Q)
  (m : EnemyManager.EnemyManager) (g : EnemyManager.GameEngine) :
  EnemyManager.gameEngine m = Some g ->
  EnemyManager.spawnPoints m <> [] ->
  0 <= r_point -> r_point < 1 -> 0 <= r_type -> r_type < 1 ->
  exists e : Enemy.Enemy,
    EnemyManager.spawnEnemy r_point r_type m
      = (Returned (Some e), EnemyManager.push e m) /\
    Enemy.enemyType e = Enemy.GRUNT /\
    Enemy.health e = 100 * EnemyManager.difficultyOf g /\
    Enemy.maxHealth e = Enemy.health e /\
    In (Enemy.position e) (EnemyManager.spawnPoints m) /\
    Enemy.pointValue (Enemy.calculatePointValue e) = 50.
Proof.
  intros Hg Hsp Hp0 Hp1 Ht0 Ht1. unfold EnemyManager.spawnEnemy. rewrite Hg.
  destruct (pickSpawnPoint_some r_point m Hp0 Hp1 Hsp) as (p & -> & Hin).
  destruct (random_type_some r_type Ht0 Ht1) as (t & -> & _).
  eexists. split; [reflexivity|].
  repeat split; try reflexivity. exact Hin.
Qed.

(** X10 on the ready manager with draws 0.3 and 0.7. *)
Lemma X10_witness :
  exists e : Enemy.Enemy,
    EnemyManager.spawnEnemy 0.3 0.7 readyManager
      = (Returned (Some e), EnemyManager.push e readyManager) /\
    Enemy.enemyType e = Enemy.GRUNT /\
    Enemy.health e = 100 * EnemyManager.difficultyOf managerEngine /\
    Enemy.maxHealth e = Enemy.health e /\
    In (Enemy.position e) (EnemyManager.spawnPoints readyManager) /\
    Enemy.pointValue (Enemy.calculatePointValue e) = 50.
Proof.
  apply (X10_spawnEnemy_always_grunt 0.3 0.7 readyManager managerEngine).
  - reflexivity.
  - vm_compute. discriminate.
  - vm_compute. discriminate.
  - vm_compute. reflexivity.
  - vm_compute. discriminate.
  - vm_compute. reflexivity.
Defined.

(** What a successful [spawnBoss] returns and leaves behind. *)
Lemma spawnBoss_returns (r : Q) (m m1 : EnemyManager.EnemyManager)
  (b : Enemy.Enemy) (fx : list EnemyManager.Effect) :
  EnemyManager.spawnBoss r m = (Returned (Some b), m1, fx) ->
  EnemyManager.bossSpawned m = false /\
  EnemyManager.bossSpawned m1 = true /\
  EnemyManager.gameEngine m1 = EnemyManager.gameEngine m /\
  EnemyManager.gameEngine m <> None /\
  EnemyManager.enemies m1 = EnemyManager.enemies m ++ [b] /\
  Enemy.enemyType b = Enemy.BOSS.
Proof.
  unfold EnemyManager.spawnBoss.
  destruct (EnemyManager.gameEngine m) as [g|] eqn:Hg; [|discriminate].
  destruct (EnemyManager.bossSpawned m) eqn:Hb; [discriminate|].
  destruct (EnemyManager.pickSpawnPoint r m) as [p|]; [|discriminate].
  intros H. inversion H; subst. cbn. rewrite Hg.
  repeat split; try reflexivity. discriminate.
Qed.

(** X11.  The boss is spawned once: after a [spawnBoss] that returned a
    boss, the flag is set, the boss (configured from the table's BOSS entry,
    health equal to maxHealth) is the last enemy of the list, and any later
    [spawnBoss] returns nothing, changes nothing and shows no message. *)
Theorem X11_spawnBoss_only_once (r1 r2 : Q)
  (m m1 : EnemyManager.EnemyManager) (b : Enemy.Enemy)
  (fx : list EnemyManager.Effect) :
  EnemyManager.spawnBoss r1 m = (Returned (Some b), m1, fx) ->
  EnemyManager.spawnBoss r2 m1 = (Returned None, m1, []) /\
  EnemyManager.enemies m1 = EnemyManager.enemies m ++ [b] /\
  Enemy.enemyType b = Enemy.BOSS /\
  Enemy.maxHealth b = Enemy.health b.
Proof.
  intros H.
  destruct (spawnBoss_returns r1 m m1 b fx H) as (_ & Hb & Hg & Hne & He & Ht).
  split; [|split; [exact He|split; [exact Ht|]]].
  - unfold EnemyManager.spawnBoss. rewrite Hb.
    destruct (EnemyManager.gameEngine m1); reflexivity.
  - revert H. unfold EnemyManager.spawnBoss.
    destruct (EnemyManager.gameEngine m) as [g|]; [|discriminate].
    destruct (EnemyManager.bossSpawned m); [discriminate|].
    destruct (EnemyManager.pickSpawnPoint r1 m) as [p|]; [|discriminate].
    intros H. inversion H; subst. reflexivity.
Qed.

(** X11 on the ready manager. *)
Lemma X11_witness :
  EnemyManager.spawnBoss 0.9
    (snd (fst (EnemyManager.spawnBoss 0.5 readyManager)))
    = (Returned None, snd (fst (EnemyManager.spawnBoss 0.5 readyManager)), []) /\
  EnemyManager.enemies (snd (fst (EnemyManager.spawnBoss 0.5 readyManager)))
    = EnemyManager.enemies readyManager
      ++ [Enemy.spawnBoss (mkVec3 0 0 20)
            (EnemyManager.difficultyOf managerEngine)
            (EnemyManager.forEnemy managerEngine)] /\
  Enemy.enemyType (Enemy.spawnBoss (mkVec3 0 0 20)
                     (EnemyManager.difficultyOf managerEngine)
                     (EnemyManager.forEnemy managerEngine)) = Enemy.BOSS /\
  Enemy.maxHealth (Enemy.spawnBoss (mkVec3 0 0 20)
                     (EnemyManager.difficultyOf managerEngine)
                     (EnemyManager.forEnemy managerEngine))
    = Enemy.health (Enemy.spawnBoss (mkVec3 0 0 20)
                      (EnemyManager.difficultyOf managerEngine)
                      (EnemyManager.forEnemy managerEngine)).
Proof.
  apply (X11_spawnBoss_only_once 0.5 0.9 readyManager
           (snd (fst (EnemyManager.spawnBoss 0.5 readyManager)))
           (Enemy.spawnBoss (mkVec3 0 0 20)
              (EnemyManager.difficultyOf managerEngine)
              (EnemyManager.forEnemy managerEngine))
           [EnemyManager.ShowMessage "Boss has appeared!" 5000]).
  reflexivity.
Defined.

(** ** Player metrics *)

Lemma updateDifficultyFactor_range (m : PlayerMetrics.PlayerMetrics) :
  0.2 <= PlayerMetrics.difficultyFactor (PlayerMetrics.updateDifficultyFactor m)
  /\ PlayerMetrics.difficultyFactor (PlayerMetrics.updateDifficultyFactor m)
     <= 0.8.
Proof.
  unfold PlayerMetrics.updateDifficultyFactor. cbv zeta. cbn.
  split.
  - apply Q.le_max_l.
  - apply Q.max_lub; [lra|apply Q.le_min_l].
Qed.

Lemma metrics_step_range (m : PlayerMetrics.PlayerMetrics)
  (c : PlayerMetrics.Call) :
  0.2 <= PlayerMetrics.difficultyFactor m <= 0.8 ->
  0.2 <= PlayerMetrics.difficultyFactor (PlayerMetrics.step m c) <= 0.8.
Proof.
  intros H. destruct c as [hit| |a|a|d| |dt|dt b]; cbn [PlayerMetrics.step].
  - apply updateDifficultyFactor_range.
  - apply updateDifficultyFactor_range.
  - exact H.
  - apply updateDifficultyFactor_range.
  - exact H.
  - exact H.
  - exact H.
  - destruct b; exact H.
Qed.

Lemma metrics_run_range (cs : list PlayerMetrics.Call) :
  forall m : PlayerMetrics.PlayerMetrics,
    0.2 <= PlayerMetrics.difficultyFactor m <= 0.8 ->
    0.2 <= PlayerMetrics.difficultyFactor (PlayerMetrics.run cs m) <= 0.8.
Proof.
  unfold PlayerMetrics.run.
  induction cs as [|c cs IH]; intros m H; [exact H|].
  cbn [fold_left]. apply IH. apply metrics_step_range. exact H.
Qed.

(** X12.  Starting from [reset], after any history of recorded shots, kills,
    damage, movement, jumps and time, the difficulty factor lies in
    [0.2, 0.8]; hence the enemy health and damage multipliers lie in
    [0.82, 1.18], the speed multiplier in [0.88, 1.12] and the spawn-rate
    multiplier in [0.7, 1.3].  The recorded amounts and the totals are
    numbers of the model, that is finite ones: a history that records NaN,
    a missing or an infinite amount, or whose totals overflow, is outside
    the statement. *)
Theorem X12_difficulty_stays_in_range (cs : list PlayerMetrics.Call) :
  let m := PlayerMetrics.run cs PlayerMetrics.reset in
  (0.2 <= PlayerMetrics.difficultyFactor m <= 0.8) /\
  (0.82 <= PlayerMetrics.getEnemyHealthMultiplier m <= 1.18) /\
  (0.82 <= PlayerMetrics.getEnemyDamageMultiplier m <= 1.18) /\
  (0.88 <= PlayerMetrics.getEnemySpeedMultiplier m <= 1.12) /\
  (0.7 <= PlayerMetrics.getEnemySpawnRateMultiplier m <= 1.3).
Proof.
  intros m.
  assert (H : 0.2 <= PlayerMetrics.difficultyFactor m <= 0.8).
  { apply metrics_run_range. cbn. split; lra. }
  unfold PlayerMetrics.getEnemyHealthMultiplier,
    PlayerMetrics.getEnemyDamageMultiplier,
    PlayerMetrics.getEnemySpeedMultiplier,
    PlayerMetrics.getEnemySpawnRateMultiplier.
  repeat split; lra.
Qed.

(** ** Enemy manager: at most one boss *)

Lemma update_enemyType (dt : Q) (e : Enemy.Enemy) :
  Enemy.enemyType (Enemy.update dt e) = Enemy.enemyType e.
Proof.
  unfold Enemy.update.
  destruct (Enemy.isAlive e); cbn [negb]; cbv beta iota zeta; [|reflexivity].
  match goal with
  | |- context [existsb ?f ?l] => destruct (existsb f l)
  end; reflexivity.
Qed.

Lemma bossCount_map_update (dt : Q) (es : list Enemy.Enemy) :
  bossCount (map (Enemy.update dt) es) = bossCount es.
Proof.
  unfold bossCount. induction es as [|e es IH]; [reflexivity|].
  cbn [map List.filter]. rewrite update_enemyType.
  destruct (Z.eqb _ 4); cbn [length]; rewrite IH; reflexivity.
Qed.

Lemma bossCount_push (es : list Enemy.Enemy) (e : Enemy.Enemy) :
  bossCount (es ++ [e]) =
    (bossCount es
     + (if Z.eqb (Enemy.cfg_id (Enemy.enemyType e)) 4 then 1 else 0))%nat.
Proof.
  unfold bossCount. rewrite List.filter_app, length_app. cbn [List.filter].
  destruct (Z.eqb _ 4); reflexivity.
Qed.

(** The invariant: no boss before the flag is set, one at most after. *)
Lemma spawnEnemy_bosses (r1 r2 : Q) (m : EnemyManager.EnemyManager) :
  let m' := snd (EnemyManager.spawnEnemy r1 r2 m) in
  EnemyManager.bossSpawned m' = EnemyManager.bossSpawned m /\
  bossCount (EnemyManager.enemies m') = bossCount (EnemyManager.enemies m) /\
  EnemyManager.gameEngine m' = EnemyManager.gameEngine m.
Proof.
  unfold EnemyManager.spawnEnemy.
  destruct (EnemyManager.gameEngine m) as [g|] eqn:Hg; [|cbn; auto].
  destruct (EnemyManager.pickSpawnPoint r1 m) as [p|]; [|cbn; auto].
  destruct (Enemy.getRandomEnemyType r2) as [t|]; [|cbn; auto].
  cbn [snd EnemyManager.push EnemyManager.bossSpawned EnemyManager.enemies
       EnemyManager.gameEngine].
  rewrite bossCount_push. cbn. split; [reflexivity|]. split; [lia|exact Hg].
Qed.

Lemma spawnBoss_bosses (r : Q) (m : EnemyManager.EnemyManager) :
  let m' := snd (fst (EnemyManager.spawnBoss r m)) in
  (EnemyManager.bossSpawned m = false -> bossCount (EnemyManager.enemies m) = 0%nat) ->
  (bossCount (EnemyManager.enemies m) <= 1)%nat ->
  (EnemyManager.bossSpawned m' = false -> bossCount (EnemyManager.enemies m') = 0%nat)
  /\ (bossCount (EnemyManager.enemies m') <= 1)%nat.
Proof.
  unfold EnemyManager.spawnBoss. intros H0 H1.
  destruct (EnemyManager.gameEngine m) as [g|]; [|cbn; auto].
  destruct (EnemyManager.bossSpawned m) eqn:Hb; [cbn; rewrite Hb; auto|].
  destruct (EnemyManager.pickSpawnPoint r m) as [p|]; [|cbn; rewrite Hb; auto].
  cbn [snd fst EnemyManager.push EnemyManager.bossSpawned EnemyManager.enemies].
  rewrite bossCount_push. cbn. rewrite (H0 eq_refl).
  split; [discriminate|lia].
Qed.

Lemma regularSpawn_bosses (now : Q) (draws : EnemyManager.Draws)
  (m : EnemyManager.EnemyManager) :
  let m' := snd (EnemyManager.regularSpawn now draws m) in
  EnemyManager.bossSpawned m' = EnemyManager.bossSpawned m /\
  bossCount (EnemyManager.enemies m') = bossCount (EnemyManager.enemies m).
Proof.
  unfold EnemyManager.regularSpawn.
  match goal with
  | |- context [if ?c then _ else _] => destruct c
  end; [|split; reflexivity].
  pose proof (spawnEnemy_bosses (EnemyManager.d_point draws)
                (EnemyManager.d_type draws) m) as (Hb & Hc & _).
  destruct (EnemyManager.spawnEnemy _ _ m) as [[x|err] m2];
    cbn [snd] in *; [|split; assumption].
  unfold EnemyManager.retune.
  destruct (EnemyManager.gameEngine m2 ≫= EnemyManager.playerMetrics);
    cbn [EnemyManager.bossSpawned EnemyManager.enemies]; split; assumption.
Qed.

Lemma bossSpawn_bosses (draws : EnemyManager.Draws)
  (m : EnemyManager.EnemyManager) :
  let m' := snd (fst (EnemyManager.bossSpawn draws m)) in
  (EnemyManager.bossSpawned m = false -> bossCount (EnemyManager.enemies m) = 0%nat) ->
  (bossCount (EnemyManager.enemies m) <= 1)%nat ->
  (EnemyManager.bossSpawned m' = false -> bossCount (EnemyManager.enemies m') = 0%nat)
  /\ (bossCount (EnemyManager.enemies m') <= 1)%nat.
Proof.
  unfold EnemyManager.bossSpawn. intros H0 H1.
  destruct (EnemyManager.bossDue m); [|cbn [fst snd]; auto].
  pose proof (spawnBoss_bosses (EnemyManager.d_bossPoint draws) m H0 H1) as J.
  destruct (EnemyManager.spawnBoss _ m) as [[[y|err] m4] fx];
    cbn [fst snd] in *; exact J.
Qed.

Lemma manager_update_bosses (dt now : Q) (draws : EnemyManager.Draws)
  (m : EnemyManager.EnemyManager) :
  let m' := snd (fst (EnemyManager.update dt now draws m)) in
  (EnemyManager.bossSpawned m = false -> bossCount (EnemyManager.enemies m) = 0%nat) ->
  (bossCount (EnemyManager.enemies m) <= 1)%nat ->
  (EnemyManager.bossSpawned m' = false -> bossCount (EnemyManager.enemies m') = 0%nat)
  /\ (bossCount (EnemyManager.enemies m') <= 1)%nat.
Proof.
  intros m' H0 H1. subst m'. unfold EnemyManager.update.
  pose proof (regularSpawn_bosses now draws (EnemyManager.tickEnemies dt m))
    as [Hb Hc].
  cbn [EnemyManager.tickEnemies EnemyManager.bossSpawned EnemyManager.enemies]
    in Hb, Hc.
  rewrite bossCount_map_update in Hc.
  destruct (EnemyManager.regularSpawn now draws (EnemyManager.tickEnemies dt m))
    as [[x|err] m2]; cbn [snd] in Hb, Hc.
  - apply bossSpawn_bosses; rewrite ?Hb, ?Hc; assumption.
  - cbn [fst snd]. rewrite Hb, Hc. auto.
Qed.

Lemma withMetrics_bosses (metrics : option PlayerMetrics.PlayerMetrics)
  (m : EnemyManager.EnemyManager) :
  EnemyManager.bossSpawned (withMetrics metrics m) = EnemyManager.bossSpawned m
  /\ EnemyManager.enemies (withMetrics metrics m) = EnemyManager.enemies m.
Proof.
  unfold withMetrics. destruct (EnemyManager.gameEngine m); auto.
Qed.

Lemma managerRun_bosses (frames : list Frame) :
  forall m : EnemyManager.EnemyManager,
    (EnemyManager.bossSpawned m = false ->
     bossCount (EnemyManager.enemies m) = 0%nat) ->
    (bossCount (EnemyManager.enemies m) <= 1)%nat ->
    (bossCount (EnemyManager.enemies (managerRun frames m)) <= 1)%nat.
Proof.
  induction frames as [|f frames IH]; intros m H0 H1; [exact H1|].
  cbn [managerRun].
  destruct (withMetrics_bosses (f_metrics f) m) as [Eb Ee].
  rewrite <- Eb, <- Ee in H0. rewrite <- Ee in H1.
  pose proof (manager_update_bosses (f_deltaTime f) (f_now f) (f_draws f)
                (withMetrics (f_metrics f) m) H0 H1) as [J0 J1].
  destruct (EnemyManager.update _ _ _ (withMetrics (f_metrics f) m))
    as [[[x|err] m'] fx]; cbn [fst snd] in J0, J1.
  - apply IH; assumption.
  - exact J1.
Qed.

(** X13.  A manager that starts empty never holds more than one boss,
    whatever engine it is attached to and whatever the clock readings, the
    draws and the player metrics are over any number of updates: regular
    spawns are never bosses, and the boss spawn is guarded by its flag. *)
Theorem X13_at_most_one_boss (g : EnemyManager.GameEngine)
  (circle : list Vec3) (frames : list Frame) :
  (bossCount
     (EnemyManager.enemies
        (managerRun frames
           (EnemyManager.setGameEngine g circle EnemyManager.constructor)))
   <= 1)%nat.
Proof.
  apply managerRun_bosses.
  - intros _. reflexivity.
  - cbv. lia.
Qed.

(** ** Player controller: armor and death *)

(** X14.  A hit never heals and never leaves a negative value: for a
    non-negative hit on a player with non-negative armor, the armor
    afterwards is between 0 and the armor before, the health afterwards is
    between 0 and the health before (or 0 if that was negative), and a
    player who is still alive afterwards has positive health. *)
Theorem X14_hit_never_heals (amount : Q)
  (p : PlayerController.PlayerController) :
  0 <= amount ->
  0 <= PlayerController.armor p ->
  let p' := fst (PlayerController.takeDamage amount p) in
  0 <= PlayerController.armor p' /\
  PlayerController.armor p' <= PlayerController.armor p /\
  0 <= PlayerController.health p' /\
  PlayerController.health p' <= Qmax 0 (PlayerController.health p) /\
  (PlayerController.isAlive p' = true -> 0 < PlayerController.health p').
Proof.
  intros Ha Hr. unfold PlayerController.takeDamage.
  pose proof (Q.le_min_l (PlayerController.armor p) (amount * 0.6)) as Hl.
  pose proof (Q.le_min_r (PlayerController.armor p) (amount * 0.6)) as Hrr.
  assert (Hmin : 0 <= Qmin (PlayerController.armor p) (amount * 0.6)).
  { apply Q.min_glb; lra. }
  pose proof (Q.le_max_l 0 (PlayerController.health p)) as Hm0.
  pose proof (Q.le_max_r 0 (PlayerController.health p)) as Hm1.
  destruct (Qltb 0 (PlayerController.armor p)) eqn:Earm; cbn;
    destruct (Qle_bool _ 0) eqn:E; cbn;
    try apply Qle_bool_gt in E;
    repeat split; try lra; try discriminate; intros _; lra.
Qed.

(** X14 on a hit of 30 on a player with 50 health and 40 armor. *)
Lemma X14_witness :
  let p' := fst (PlayerController.takeDamage 30 armoredPlayer) in
  0 <= PlayerController.armor p' /\
  PlayerController.armor p' <= PlayerController.armor armoredPlayer /\
  0 <= PlayerController.health p' /\
  PlayerController.health p'
    <= Qmax 0 (PlayerController.health armoredPlayer) /\
  (PlayerController.isAlive p' = true -> 0 < PlayerController.health p').
Proof.
  apply (X14_hit_never_heals 30 armoredPlayer).
  - vm_compute. discriminate.
  - vm_compute. discriminate.
Defined.

(** X15.  A hit at least as large as health and armor together always
    kills: health is set to exactly 0, the player is no longer alive, the
    velocity is zeroed and the game-over request is sent. *)
Theorem X15_hit_covering_health_and_armor_kills (amount : Q)
  (p : PlayerController.PlayerController) :
  0 <= PlayerController.armor p ->
  PlayerController.health p + PlayerController.armor p <= amount ->
  let r := PlayerController.takeDamage amount p in
  PlayerController.health (fst r) = 0 /\
  PlayerController.isAlive (fst r) = false /\
  PlayerController.velocity (fst r) = zeroVec /\
  In PlayerController.GameOver (snd r).
Proof.
  intros Hr Hk. unfold PlayerController.takeDamage.
  pose proof (Q.le_min_l (PlayerController.armor p) (amount * 0.6)) as Hl.
  destruct (Qltb 0 (PlayerController.armor p)) eqn:Earm; cbn.
  - assert (E : Qle_bool
                  (PlayerController.health p -
                   (amount - Qmin (PlayerController.armor p) (amount * 0.6)))
                  0 = true) by (apply Qle_bool_iff; lra).
    rewrite E. cbn. repeat split; auto.
  - apply Qltb_ge in Earm.
    assert (E : Qle_bool (PlayerController.health p - amount) 0 = true)
      by (apply Qle_bool_iff; lra).
    rewrite E. cbn. repeat split; auto.
Qed.

(** X15 on a hit of 90 on a player with 50 health and 40 armor. *)
Lemma X15_witness :
  let r := PlayerController.takeDamage 90 armoredPlayer in
  PlayerController.health (fst r) = 0 /\
  PlayerController.isAlive (fst r) = false /\
  PlayerController.velocity (fst r) = zeroVec /\
  In PlayerController.GameOver (snd r).
Proof.
  apply (X15_hit_covering_health_and_armor_kills 90 armoredPlayer).
  - vm_compute. discriminate.
  - vm_compute. discriminate.
Defined.

(** ** Currency *)

Lemma killReward_positive (t : string) : 0 <= CurrencySystem.killReward t.
Proof.
  unfold CurrencySystem.killReward.
  repeat match goal with
         | |- context [if ?c then _ else _] => destruct c
         end; lra.
Qed.

Lemma currencyStep_nonneg (c : CurrencySystem.CurrencySystem)
  (call : CurrencyCall) :
  addsNonNegative call ->
  0 <= CurrencySystem.credits c ->
  0 <= CurrencySystem.credits (currencyStep c call).
Proof.
  intros Hc H. destruct call as [a|a|t|]; cbn [currencyStep].
  - cbn in *. lra.
  - unfold CurrencySystem.removeCredits.
    destruct (Qle_bool a (CurrencySystem.credits c)) eqn:E; cbn; [|exact H].
    apply Qle_bool_iff in E. lra.
  - pose proof (killReward_positive t). cbn. lra.
  - cbn. lra.
Qed.

(** X16.  The balance is never negative: starting from the constructor's
    500 credits, after any history of additions of non-negative amounts,
    removals of any amount (a removal that the balance does not cover is
    refused), kill rewards and resets, the balance is at least 0.  The
    amounts are numbers of the model, that is finite ones: a call with NaN
    or an infinite amount is outside the statement. *)
Theorem X16_balance_never_negative (calls : list CurrencyCall) :
  Forall addsNonNegative calls ->
  0 <= CurrencySystem.credits (currencyRun calls CurrencySystem.constructor).
Proof.
  unfold currencyRun.
  assert (G : forall c, Forall addsNonNegative calls ->
                        0 <= CurrencySystem.credits c ->
                        0 <= CurrencySystem.credits
                               (fold_left currencyStep calls c)).
  { induction calls as [|call calls IH]; intros c Hf H; [exact H|].
    inversion Hf; subst. cbn [fold_left]. apply IH; [assumption|].
    apply currencyStep_nonneg; assumption. }
  intros Hf. apply G; [exact Hf|]. cbn. lra.
Qed.

(** X16 on a history with an over-sized removal. *)
Lemma X16_witness :
  0 <= CurrencySystem.credits
         (currencyRun [RemoveCredits 450; RemoveCredits 100; AddCredits 20;
                       AwardCreditsForKill "BOSS"; RemoveCredits 95]
                      CurrencySystem.constructor).
Proof.
  apply (X16_balance_never_negative
           [RemoveCredits 450; RemoveCredits 100; AddCredits 20;
            AwardCreditsForKill "BOSS"; RemoveCredits 95]).
  repeat constructor. vm_compute. discriminate.
Defined.

Lemma removeFirst_count (l x : nat) (ls : list nat) (b : Q) :
  notifiedCount x (map (fun y => CurrencySystem.Notified y b)
                       (CurrencySystem.removeFirst l ls))
  = if Nat.eqb l x
    then Nat.pred (notifiedCount x (map (fun y => CurrencySystem.Notified y b) ls))
    else notifiedCount x (map (fun y => CurrencySystem.Notified y b) ls).
Proof.
  unfold notifiedCount.
  induction ls as [|y ls IH]; [destruct (Nat.eqb l x); reflexivity|].
  cbn [CurrencySystem.removeFirst].
  destruct (Nat.eqb y l) eqn:Eyl.
  - apply Nat.eqb_eq in Eyl. subst y. cbn [map List.filter].
    destruct (Nat.eqb l x); reflexivity.
  - cbn [map List.filter]. destruct (Nat.eqb y x) eqn:Eyx.
    + cbn [length]. rewrite IH.
      destruct (Nat.eqb l x) eqn:Elx; [|reflexivity].
      apply Nat.eqb_eq in Elx, Eyx. subst. rewrite Nat.eqb_refl in Eyl.
      discriminate.
    + exact IH.
Qed.

(** X17.  [removeListener] takes away exactly one registration: on the next
    change of the balance the removed listener is notified once less than it
    would have been (not at all if it was registered once), and every other
    listener exactly as often as before. *)
Theorem X17_removeListener_removes_one_registration (l x : nat) (amount : Q)
  (c : CurrencySystem.CurrencySystem) :
  notifiedCount x
    (snd (CurrencySystem.addCredits amount (CurrencySystem.removeListener l c)))
  = if Nat.eqb l x
    then Nat.pred (notifiedCount x (snd (CurrencySystem.addCredits amount c)))
    else notifiedCount x (snd (CurrencySystem.addCredits amount c)).
Proof.
  unfold CurrencySystem.addCredits, CurrencySystem._notifyListeners,
    CurrencySystem.removeListener. cbn.
  apply removeFirst_count.
Qed.

(** ** Event emitter *)










(** ** AI system: registry, cooldowns, routes *)

(** X21.  An entity that has no tree or no context registered gets the fixed
    record of the simple AI (SUCCESS, action 0, parameter 5): nothing is
    evaluated, the system is unchanged and nothing is printed, also when the
    interface is loaded and when no level is set. *)
Theorem X21_unregistered_entity_gets_simple_record (Math_sqrt : Q -> Q)
  (sys : AISystem.AISystem) (id : Z) (position : Vec3)
  (targetPosition : option Vec3) (health maxHealth : Q) :
  AISystem.behaviorTrees sys !! id = None \/
  AISystem.behaviorContexts sys !! id = None ->
  AISystem.evaluateBehaviorTree Math_sqrt sys id position targetPosition
                                health maxHealth
    = (Returned (AISystem.mkEvaluation SUCCESS 0 5), sys, []).
Proof.
  intros H. unfold AISystem.evaluateBehaviorTree.
  destruct (AISystem.accelerated sys); [|reflexivity].
  destruct H as [-> | H]; [reflexivity|].
  rewrite H. destruct (AISystem.behaviorTrees sys !! id); reflexivity.
Qed.

(** X21 on entity 8 of a system that only knows entity 7. *)
Lemma X21_witness :
  AISystem.evaluateBehaviorTree sqrtQ brokenSystem 8 zeroVec
                                (Some (mkVec3 3 0 4)) 80 100
    = (Returned (AISystem.mkEvaluation SUCCESS 0 5), brokenSystem, []).
Proof.
  apply (X21_unregistered_entity_gets_simple_record sqrtQ brokenSystem 8).
  left. vm_compute. reflexivity.
Defined.

Lemma tickCooldown_frame (dt : Q) (c : BehaviorContext) (i : nat) :
  entity_position (AISystem.tickCooldown dt c i) = entity_position c /\
  target_position (AISystem.tickCooldown dt c i) = target_position c /\
  entity_health (AISystem.tickCooldown dt c i) = entity_health c /\
  entity_maxHealth (AISystem.tickCooldown dt c i) = entity_maxHealth c.
Proof.
  unfold AISystem.tickCooldown.
  destruct (Qltb 0 (get_value (AISystem.cooldownKey i) c));
    repeat split; reflexivity.
Qed.

Lemma updateContext_frame (dt : Q) (c : BehaviorContext) :
  entity_position (AISystem.updateContext dt c) = entity_position c /\
  target_position (AISystem.updateContext dt c) = target_position c /\
  entity_health (AISystem.updateContext dt c) = entity_health c /\
  entity_maxHealth (AISystem.updateContext dt c) = entity_maxHealth c.
Proof.
  unfold AISystem.updateContext. generalize (seq 1 10). intros slots.
  revert c. induction slots as [|i slots IH]; intros c; [tauto|].
  cbn [fold_left].
  destruct (IH (AISystem.tickCooldown dt c i)) as (-> & -> & -> & ->).
  apply tickCooldown_frame.
Qed.

(** X22.  A tick of the AI system touches the ten cooldown slots only: each
    context keeps its entity position, target position, health and
    maxHealth and every value stored under another key (the action, its
    parameter, the visibility flag); the registered contexts and trees stay
    the same ones. *)
Theorem X22_update_touches_cooldowns_only (dt : Q) (sys : AISystem.AISystem)
  (id : Z) (c : BehaviorContext) (key : string) :
  AISystem.behaviorContexts sys !! id = Some c ->
  ~ In key cooldownKeys ->
  exists c' : BehaviorContext,
    AISystem.behaviorContexts (AISystem.update dt sys) !! id = Some c' /\
    get_value key c' = get_value key c /\
    entity_position c' = entity_position c /\
    target_position c' = target_position c /\
    entity_health c' = entity_health c /\
    entity_maxHealth c' = entity_maxHealth c /\
    AISystem.behaviorTrees (AISystem.update dt sys) = AISystem.behaviorTrees sys /\
    dom (AISystem.behaviorContexts (AISystem.update dt sys))
      = dom (AISystem.behaviorContexts sys).
Proof.
  intros Hc Hk. exists (AISystem.updateContext dt c).
  destruct (updateContext_frame dt c) as (Hp & Ht & Hh & Hm).
  split; [unfold AISystem.update; cbn; rewrite lookup_fmap, Hc; reflexivity|].
  split; [apply fold_tickCooldown_other; exact Hk|].
  repeat split; try assumption.
  unfold AISystem.update. cbn. apply dom_fmap_L.
Qed.

(** X22 on the action stored for entity 7. *)
Lemma X22_witness :
  exists c' : BehaviorContext,
    AISystem.behaviorContexts (AISystem.update 1 brokenSystem) !! 7%Z = Some c' /\
    get_value "action" c' = get_value "action" (set_value "action" 2 emptyContext) /\
    entity_position c' = entity_position (set_value "action" 2 emptyContext) /\
    target_position c' = target_position (set_value "action" 2 emptyContext) /\
    entity_health c' = entity_health (set_value "action" 2 emptyContext) /\
    entity_maxHealth c' = entity_maxHealth (set_value "action" 2 emptyContext) /\
    AISystem.behaviorTrees (AISystem.update 1 brokenSystem)
      = AISystem.behaviorTrees brokenSystem /\
    dom (AISystem.behaviorContexts (AISystem.update 1 brokenSystem))
      = dom (AISystem.behaviorContexts brokenSystem).
Proof.
  apply (X22_update_touches_cooldowns_only 1 brokenSystem 7%Z
           (set_value "action" 2 emptyContext) "action").
  - vm_compute. reflexivity.
  - vm_compute. intros H.
    repeat (destruct H as [H|H]; [discriminate H|]). exact H.
Defined.

Lemma fold_left_step {A B : Type} (f : A -> B -> A) (x : B) (l : list B)
  (a : A) :
  fold_left f (x :: l) a = fold_left f l (f a x).
Proof. reflexivity. Qed.

Lemma update_context_lookup (dt : Q) (sys : AISystem.AISystem) (id : Z)
  (c : BehaviorContext) :
  AISystem.behaviorContexts sys !! id = Some c ->
  AISystem.behaviorContexts (AISystem.update dt sys) !! id
    = Some (AISystem.updateContext dt c).
Proof.
  intros Hc. unfold AISystem.update. cbn [AISystem.behaviorContexts].
  rewrite lookup_fmap, Hc.
  generalize (AISystem.updateContext dt). intros f. reflexivity.
Qed.

Lemma aiRun_context (dts : list Q) (sys : AISystem.AISystem) (id : Z)
  (c : BehaviorContext) :
  AISystem.behaviorContexts sys !! id = Some c ->
  AISystem.behaviorContexts (aiRun dts sys) !! id
    = Some (fold_left (fun c dt => AISystem.updateContext dt c) dts c).
Proof.
  unfold aiRun. revert sys c.
  induction dts as [|dt dts IH]; intros sys c Hc; [exact Hc|].
  rewrite !fold_left_step.
  apply IH. apply update_context_lookup. exact Hc.
Qed.

(** A slot over several ticks is the value cooled tick by tick. *)
Lemma slot_after_run (dts : list Q) (c : BehaviorContext) (i : nat) :
  (1 <= i <= 10)%nat ->
  get_value (AISystem.cooldownKey i)
            (fold_left (fun c dt => AISystem.updateContext dt c) dts c)
    = fold_left (fun v dt => cooled dt v) dts
                (get_value (AISystem.cooldownKey i) c).
Proof.
  intros Hi. revert c.
  induction dts as [|dt dts IH]; intros c; [reflexivity|].
  rewrite !fold_left_step, IH, (updateContext_slot dt c i Hi). reflexivity.
Qed.

Lemma cooled_run_bounds (D : Q) (dts : list Q) :
  Forall (fun dt => 0 < dt /\ dt <= D) dts ->
  forall v : Q,
    - D <= v ->
    - D <= fold_left (fun v dt => cooled dt v) dts v /\
    fold_left (fun v dt => cooled dt v) dts v <= v.
Proof.
  induction 1 as [|dt dts [Hdt HD] _ IH]; intros v Hv.
  - cbn [fold_left]. split; [exact Hv|apply Qle_refl].
  - rewrite fold_left_step.
    assert (Hstep : - D <= cooled dt v /\ cooled dt v <= v).
    { unfold cooled. destruct (Qltb 0 v) eqn:E.
      - apply Qltb_lt in E. split; lra.
      - split; [exact Hv|apply Qle_refl]. }
    destruct Hstep as [Hlo Hhi].
    destruct (IH (cooled dt v) Hlo) as [H1 H2].
    split; [exact H1|]. eapply Qle_trans; [exact H2|exact Hhi].
Qed.

Lemma cooled_run_frozen (dts : list Q) (v : Q) :
  v <= 0 -> fold_left (fun v dt => cooled dt v) dts v = v.
Proof.
  intros Hv. induction dts as [|dt dts IH]; [reflexivity|].
  rewrite fold_left_step.
  assert (E : cooled dt v = v).
  { unfold cooled. apply Qltb_ge in Hv. rewrite Hv. reflexivity. }
  rewrite E. exact IH.
Qed.

(** X23.  Over any number of ticks, each with a step in (0, D], a cooldown
    slot that starts at a non-negative value never rises above that value
    and never falls below [-D]; and once it is at or below zero no later
    tick, whatever its step, changes it again.  The bounds are the
    non-strict ones, which the rounded subtraction of the program keeps;
    nothing is said about the tick at which the slot reaches zero. *)
Theorem X23_cooldown_bounded_and_frozen (dts : list Q) (D : Q)
  (sys : AISystem.AISystem) (id : Z) (c : BehaviorContext) (i : nat) :
  0 <= D ->
  Forall (fun dt => 0 < dt /\ dt <= D) dts ->
  AISystem.behaviorContexts sys !! id = Some c ->
  (1 <= i <= 10)%nat ->
  0 <= get_value (AISystem.cooldownKey i) c ->
  exists c' : BehaviorContext,
    AISystem.behaviorContexts (aiRun dts sys) !! id = Some c' /\
    - D <= get_value (AISystem.cooldownKey i) c' /\
    get_value (AISystem.cooldownKey i) c'
      <= get_value (AISystem.cooldownKey i) c /\
    (get_value (AISystem.cooldownKey i) c' <= 0 ->
     forall later : list Q,
     exists c'' : BehaviorContext,
       AISystem.behaviorContexts (aiRun later (aiRun dts sys)) !! id
         = Some c'' /\
       get_value (AISystem.cooldownKey i) c''
         = get_value (AISystem.cooldownKey i) c').
Proof.
  intros HD Hdts Hc Hi H0.
  pose proof (aiRun_context dts sys id c Hc) as Hrun.
  eexists. split; [exact Hrun|].
  rewrite (slot_after_run dts c i Hi).
  destruct (cooled_run_bounds D dts Hdts
              (get_value (AISystem.cooldownKey i) c)) as [Hlo Hhi]; [lra|].
  split; [exact Hlo|]. split; [exact Hhi|].
  intros Hz later.
  eexists. split; [apply aiRun_context; exact Hrun|].
  rewrite (slot_after_run later _ i Hi), (slot_after_run dts c i Hi).
  apply cooled_run_frozen. exact Hz.
Qed.

(** X23 on the slot holding 1, ticked with steps 0.4, 0.3 and 0.5. *)
Lemma X23_witness :
  exists c' : BehaviorContext,
    AISystem.behaviorContexts (aiRun [0.4; 0.3; 0.5] coolingSystem) !! 7%Z
      = Some c' /\
    - (0.5) <= get_value (AISystem.cooldownKey 1) c' /\
    get_value (AISystem.cooldownKey 1) c'
      <= get_value (AISystem.cooldownKey 1)
                   (set_value "cooldown_1" 1 emptyContext) /\
    (get_value (AISystem.cooldownKey 1) c' <= 0 ->
     forall later : list Q,
     exists c'' : BehaviorContext,
       AISystem.behaviorContexts
         (aiRun later (aiRun [0.4; 0.3; 0.5] coolingSystem)) !! 7%Z
         = Some c'' /\
       get_value (AISystem.cooldownKey 1) c''
         = get_value (AISystem.cooldownKey 1) c').
Proof.
  apply (X23_cooldown_bounded_and_frozen [0.4; 0.3; 0.5] 0.5 coolingSystem
           7%Z (set_value "cooldown_1" 1 emptyContext) 1%nat).
  - vm_compute. discriminate.
  - repeat constructor; vm_compute; try reflexivity; discriminate.
  - vm_compute. reflexivity.
  - lia.
  - vm_compute. discriminate.
Defined.

(** X24.  Whenever [findPath] returns, the route ends at the requested end
    position and has one or two waypoints; the first waypoint of a
    two-waypoint route is the average of start and end in x and z, at
    height 1.  With a level set (or no engine attached) it always returns. *)
Theorem X24_route_ends_at_destination (Math_sqrt : Q -> Q)
  (sys : AISystem.AISystem) (a b : Vec3) :
  levelReady sys = true ->
  exists (route : list Vec3) (log : list Console),
    AISystem.findPath Math_sqrt sys a b = (Returned route, log) /\
    List.last route a = b /\
    (route = [b] \/
     exists mid : Vec3,
       route = [mid; b] /\ vy mid = 1 /\
       vx mid == (vx a + vx b) / 2 /\ vz mid == (vz a + vz b) / 2).
Proof.
  intros Hlv.
  destruct (hasLineOfSight_returns Math_sqrt sys a b Hlv) as [los Hlos].
  unfold AISystem.findPath. rewrite Hlos.
  destruct (match AISystem.accelerated sys with
            | Some w => WasmInterface.findPath w _ _ _ _
            | None => (false, [])
            end) as [found log].
  destruct found; [|destruct los].
  - exists [b], log. split; [reflexivity|]. split; [reflexivity|]. left. reflexivity.
  - exists [b], log. split; [reflexivity|]. split; [reflexivity|]. left. reflexivity.
  - eexists. exists log. split; [reflexivity|]. split; [reflexivity|].
    right. eexists. split; [reflexivity|]. cbn.
    split; [reflexivity|]. split; field.
Qed.

(** X24 from (0, 0, 0) to (10, 0, 4) on the system with the fallback
    interface loaded: its level is set, so the hypothesis holds; there the
    grid reports a path and the route is the direct one. *)
Lemma X24_witness :
  exists (route : list Vec3) (log : list Console),
    AISystem.findPath sqrtQ fallbackAI zeroVec (mkVec3 10 0 4)
      = (Returned route, log) /\
    List.last route zeroVec = mkVec3 10 0 4 /\
    (route = [mkVec3 10 0 4] \/
     exists mid : Vec3,
       route = [mid; mkVec3 10 0 4] /\ vy mid = 1 /\
       vx mid == (vx zeroVec + vx (mkVec3 10 0 4)) / 2 /\
       vz mid == (vz zeroVec + vz (mkVec3 10 0 4)) / 2).
Proof.
  apply (X24_route_ends_at_destination sqrtQ fallbackAI zeroVec (mkVec3 10 0 4)).
  reflexivity.
Defined.

Lemma toGrid_below_100 (x : Q) : x < 50 -> (AISystem.toGrid x < 100)%Z.
Proof.
  intros H. unfold AISystem.toGrid.
  assert (Hf : (Qfloor (x / 1) < 50)%Z); [|lia].
  rewrite Zlt_Qlt.
  apply Qle_lt_trans with (x / 1); [apply Qfloor_le|].
  assert (E1 : x / 1 == x) by field.
  rewrite E1. exact H.
Qed.

(** X25.  With the interface set up by [initFallback] loaded, every route
    between two positions that the level accepts as valid (strictly inside
    the square from -50 to 50) is the direct one: the grid offset of 50
    puts both cells inside the 100 x 100 grid of the path finder, whose
    answer is then "a path exists", and no line-of-sight test is made. *)
Theorem X25_valid_positions_get_direct_route (Math_sqrt : Q -> Q)
  (sys : AISystem.AISystem) (w : WasmInterface.WasmInterface) (a b : Vec3) :
  AISystem.accelerated sys = Some w ->
  WasmInterface.pathfinder w = Some WasmInterface.createMockPathfinder ->
  Level.isValidPosition a = true ->
  Level.isValidPosition b = true ->
  AISystem.findPath Math_sqrt sys a b = (Returned [b], []).
Proof.
  intros Hacc Hpf Ha Hb.
  unfold Level.isValidPosition in Ha, Hb.
  repeat (apply andb_prop in Ha; destruct Ha as [Ha ?]).
  repeat (apply andb_prop in Hb; destruct Hb as [Hb ?]).
  repeat match goal with
         | H : Qltb _ _ = true |- _ => apply Qltb_lt in H
         end.
  unfold AISystem.findPath. rewrite Hacc.
  unfold WasmInterface.findPath. rewrite Hpf.
  cbn [WasmInterface.createMockPathfinder WasmInterface.find_path
       WasmInterface.findPath_js].
  assert (E : WasmInterface.mockFindPath
                (AISystem.toGrid (vx a)) (AISystem.toGrid (vz a))
                (AISystem.toGrid (vx b)) (AISystem.toGrid (vz b)) = true).
  { unfold WasmInterface.mockFindPath.
    pose proof (toGrid_below_100 (vx a)). pose proof (toGrid_below_100 (vz a)).
    pose proof (toGrid_below_100 (vx b)). pose proof (toGrid_below_100 (vz b)).
    repeat match goal with
           | |- context [(100 <=? ?z)%Z] =>
               let E := fresh in
               assert (E : (100 <=? z)%Z = false) by (apply Z.leb_gt; auto);
               rewrite E; clear E
           end.
    reflexivity. }
  destruct (WasmInterface.wasmModule w); rewrite E; reflexivity.
Qed.

(** X25 from (-49.5, 0, 3) to (49.9, 2, -12). *)
Lemma X25_witness :
  AISystem.findPath sqrtQ fallbackAI (mkVec3 (-49.5) 0 3) (mkVec3 49.9 2 (-12))
    = (Returned [mkVec3 49.9 2 (-12)], []).
Proof.
  apply (X25_valid_positions_get_direct_route sqrtQ fallbackAI
           fallbackInterface).
  - reflexivity.
  - reflexivity.
  - vm_compute. reflexivity.
  - vm_compute. reflexivity.
Defined.

(** *** The batches of one physics update *)

Lemma concat_batches_prefix {A} (l : list A) (k : nat) :
  (k <= (length l + (10 - 1)) / 10)%nat ->
  concat (map (fun b => PhysicsSystem.slice (b * 10)
                          (Nat.min ((b + 1) * 10) (length l)) l)
              (seq 0 k))
    = take (Nat.min (k * 10) (length l)) l.
Proof.
  induction k as [|k IH]; intros Hk.
  - reflexivity.
  - rewrite seq_S, map_app, concat_app, IH by lia.
    cbn [map concat Nat.add]. rewrite app_nil_r.
    pose proof (Nat.Div0.mul_div_le (length l + (10 - 1)) 10) as Hd.
    assert (Hlt : (k * 10 < length l)%nat) by lia.
    unfold PhysicsSystem.slice.
    replace (Nat.min (k * 10) (length l)) with (k * 10)%nat by lia.
    rewrite take_take_drop. f_equal. lia.
Qed.

Lemma concat_batchesOf {A} (l : list A) :
  concat (PhysicsSystem.batchesOf l) = l.
Proof.
  unfold PhysicsSystem.batchesOf, PhysicsSystem.batchSize. cbv zeta.
  rewrite concat_batches_prefix by lia.
  apply take_ge.
  assert (length l <= (length l + (10 - 1)) / 10 * 10)%nat; [|lia].
  pose proof (Nat.div_mod_eq (length l + (10 - 1)) 10) as Hdm.
  pose proof (Nat.mod_upper_bound (length l + (10 - 1)) 10 ltac:(lia)).
  lia.
Qed.

(** X26.  The loop of [update] cuts the simulated entities into batches
    that, put end to end, give back the list unchanged (nothing is skipped,
    repeated or reordered), each batch holding between one and ten
    entities. *)
Theorem X26_batches_partition_the_entities {A} (l : list A) :
  concat (PhysicsSystem.batchesOf l) = l /\
  Forall (fun batch => (1 <= length batch <= 10)%nat)
         (PhysicsSystem.batchesOf l).
Proof.
  split; [apply concat_batchesOf|].
  apply Forall_lookup. intros k batch Hk.
  rewrite batchesOf_lookup in Hk.
  case_decide as Hlt; [|discriminate].
  injection Hk as <-.
  unfold PhysicsSystem.slice. rewrite length_take, length_drop. lia.
Qed.

(** *** What a physics update leaves alone *)

Section PhysicsFrame.

Variable Math_sqrt : Q -> Q.
Variable sys : PhysicsSystem.PhysicsSystem.
Variable dt : Q.

Lemma processEntity_frame (store : list PhysicsSystem.Entity)
  (log : list PhysicsSystem.Event) (i j : nat) :
  i <> j ->
  fst (PhysicsSystem.processEntity Math_sqrt sys dt (store, log) i) !! j
    = store !! j.
Proof.
  intros Hne. unfold PhysicsSystem.processEntity.
  destruct (store !! i) as [e|]; [|reflexivity].
  destruct (PhysicsSystem.applyGravityStep sys dt e) as [e1 out].
  cbn [fst]. apply list_lookup_insert_ne. exact Hne.
Qed.

Lemma processEntity_length (store : list PhysicsSystem.Entity)
  (log : list PhysicsSystem.Event) (i : nat) :
  length (fst (PhysicsSystem.processEntity Math_sqrt sys dt (store, log) i))
    = length store.
Proof.
  unfold PhysicsSystem.processEntity.
  destruct (store !! i) as [e|]; [|reflexivity].
  destruct (PhysicsSystem.applyGravityStep sys dt e) as [e1 out].
  cbn [fst]. apply length_insert.
Qed.

Lemma _processPhysicsBatch_frame (batch : list nat) (j : nat) :
  ~ In j batch ->
  forall (store : list PhysicsSystem.Entity) (log : list PhysicsSystem.Event),
    let store' :=
      fst (PhysicsSystem._processPhysicsBatch Math_sqrt sys dt (store, log) batch) in
    store' !! j = store !! j /\ length store' = length store.
Proof.
  unfold PhysicsSystem._processPhysicsBatch.
  induction batch as [|i batch IH]; intros Hj store log.
  - split; reflexivity.
  - cbn [fold_left].
    assert (Hne : i <> j) by (intros ->; apply Hj; left; reflexivity).
    pose proof (processEntity_frame store log i j Hne) as H1.
    pose proof (processEntity_length store log i) as L1.
    destruct (PhysicsSystem.processEntity Math_sqrt sys dt (store, log) i)
      as [store1 log1].
    assert (Hj' : ~ In j batch) by (intros H; apply Hj; right; exact H).
    specialize (IH Hj' store1 log1).
    destruct (fold_left _ batch (store1, log1)) as [store2 log2].
    cbn [fst] in *. destruct IH as [IH1 IH2].
    split; congruence.
Qed.

Lemma fold_batches_frame (batches : list (list nat)) (j : nat) :
  (forall batch, In batch batches -> ~ In j batch) ->
  forall (store : list PhysicsSystem.Entity) (log : list PhysicsSystem.Event),
    let store' :=
      fst (fold_left (PhysicsSystem._processPhysicsBatch Math_sqrt sys dt)
                     batches (store, log)) in
    store' !! j = store !! j /\ length store' = length store.
Proof.
  induction batches as [|batch batches IH]; intros Hj store log.
  - split; reflexivity.
  - cbn [fold_left].
    pose proof (_processPhysicsBatch_frame batch j
                  (Hj batch (or_introl eq_refl)) store log) as H1.
    destruct (PhysicsSystem._processPhysicsBatch Math_sqrt sys dt (store, log) batch)
      as [store1 log1].
    cbn [fst] in H1. destruct H1 as [H1 L1].
    destruct (IH (fun b Hb => Hj b (or_intror Hb)) store1 log1) as [H2 L2].
    split; congruence.
Qed.

Lemma update_frame (store : list PhysicsSystem.Entity) (j : nat) :
  PhysicsSystem.gameEngine sys = Some store ->
  ~ In j (PhysicsSystem.simulated store) ->
  exists store' : list PhysicsSystem.Entity,
    PhysicsSystem.gameEngine (fst (PhysicsSystem.update Math_sqrt dt sys))
      = Some store' /\
    store' !! j = store !! j /\ length store' = length store.
Proof.
  intros Hs Hj. unfold PhysicsSystem.update. rewrite Hs.
  pose proof (fold_batches_frame
                (PhysicsSystem.batchesOf (PhysicsSystem.simulated store)) j)
    as H.
  cbv zeta in H.
  specialize (H (fun batch Hb Hin =>
                   Hj (batchesOf_members _ batch j Hb Hin)) store []).
  destruct (fold_left _ _ (store, [])) as [store1 log1].
  cbn [fst] in *. exists store1. split; [reflexivity|exact H].
Qed.

End PhysicsFrame.

(** X27.  An update of the physics system never touches an entity that
    lacks a mesh or a velocity, static or not: it is the same object in the
    same slot afterwards, and the engine holds as many entities as before. *)
Theorem X27_update_skips_entities_without_physics (Math_sqrt : Q -> Q)
  (dt : Q) (sys : PhysicsSystem.PhysicsSystem)
  (store : list PhysicsSystem.Entity) (j : nat) (e : PhysicsSystem.Entity) :
  PhysicsSystem.gameEngine sys = Some store ->
  store !! j = Some e ->
  PhysicsSystem.mesh e = None \/ PhysicsSystem.velocity e = None ->
  exists store' : list PhysicsSystem.Entity,
    PhysicsSystem.gameEngine (fst (PhysicsSystem.update Math_sqrt dt sys))
      = Some store' /\
    store' !! j = Some e /\ length store' = length store.
Proof.
  intros Hs Hj Hno.
  destruct (update_frame Math_sqrt sys dt store j Hs) as (store' & H1 & H2 & H3).
  - unfold PhysicsSystem.simulated. rewrite filter_In. intros [_ H].
    rewrite Hj in H.
    destruct Hno as [Hno|Hno]; rewrite Hno in H;
      [|destruct (PhysicsSystem.mesh e)]; discriminate.
  - exists store'. rewrite H2. auto.
Qed.

(** X27 on a world with a falling entity and a wall that has no velocity:
    the wall is untouched by an update of one second. *)
Lemma X27_witness :
  exists store' : list PhysicsSystem.Entity,
    PhysicsSystem.gameEngine
      (fst (PhysicsSystem.update sqrtQ 1 worldWithWall)) = Some store' /\
    store' !! 1%nat = Some wall /\ length store' = length [dropped; wall].
Proof.
  apply (X27_update_skips_entities_without_physics sqrtQ 1 worldWithWall
           [dropped; wall] 1 wall).
  - reflexivity.
  - reflexivity.
  - right. reflexivity.
Defined.

(** X29.  With the gravity the constructor sets (9.8), the JavaScript
    branch of the physics system and the interface set up by [initFallback]
    without a compiled module move an entity in the same way: the mesh and
    the velocity after the gravity step are equal, ground clamp included. *)
Theorem X29_fallback_gravity_matches_javascript
  (soft fast : PhysicsSystem.PhysicsSystem) (w : WasmInterface.WasmInterface)
  (dt : Q) (e : PhysicsSystem.Entity) :
  PhysicsSystem.accelerated soft = None ->
  PhysicsSystem.gravity soft = 9.8 ->
  PhysicsSystem.accelerated fast = Some w ->
  WasmInterface.physicsSystem w = true ->
  WasmInterface.wasmModule w = None ->
  let a := fst (PhysicsSystem.applyGravityStep soft dt e) in
  let b := fst (PhysicsSystem.applyGravityStep fast dt e) in
  PhysicsSystem.mesh a = PhysicsSystem.mesh b /\
  PhysicsSystem.velocity a = PhysicsSystem.velocity b.
Proof.
  intros Hsoft Hg Hfast Hps Hmod. cbv zeta.
  unfold PhysicsSystem.applyGravityStep.
  destruct (PhysicsSystem.mesh e) as [m|] eqn:Hm; [|split; reflexivity].
  destruct (PhysicsSystem.velocity e) as [v|] eqn:Hv; [|split; reflexivity].
  rewrite Hsoft, Hfast, Hg.
  unfold WasmInterface.applyGravity. rewrite Hps, Hmod.
  unfold WasmInterface.mockApplyGravity. cbn [vy set_vy].
  destruct (Qltb _ 0);
    cbn [fst PhysicsSystem.set_onGround PhysicsSystem.set_velocity
         PhysicsSystem.mesh PhysicsSystem.velocity];
    unfold PhysicsSystem.set_mesh_position; rewrite Hm; split; reflexivity.
Qed.

(** X29 for the entity released at height 5, after a step of one second
    (which takes it below the ground). *)
Lemma X29_witness :
  let a := fst (PhysicsSystem.applyGravityStep softwareWorld 1 dropped) in
  let b := fst (PhysicsSystem.applyGravityStep acceleratedWorld 1 dropped) in
  PhysicsSystem.mesh a = PhysicsSystem.mesh b /\
  PhysicsSystem.velocity a = PhysicsSystem.velocity b.
Proof.
  apply (X29_fallback_gravity_matches_javascript softwareWorld
           acceleratedWorld fallbackInterface 1 dropped);
    reflexivity.
Defined.
